(** * fold.backend: credential and session lifecycle

    A shallow embedding of the token codec ([src/utils/jwt.ts]), of the
    session manager ([src/services/auth.service.ts]) and of the fixed-window
    rate limiter ([src/middleware/rateLimit.ts]), with the properties the
    specification states about them.

    Conventions of the embedding.
    - A JavaScript string is a [string]; a character stands for one code
      unit below 256.
    - A JavaScript number that the code only uses as an integer is a [Z];
      where [NaN] can arise the type is [number].  Values are exact: the
      rounding of doubles beyond [MAX_SAFE_INTEGER] is not represented, and
      the statements that compute with numbers say where they stay exact.
    - A [Date] is its epoch time in milliseconds, a [Z].
    - Every call of an exported function reads the clock once: all the
      [new Date()] and [Date.now()] of one call denote the same instant
      [now], an argument of the embedded function. *)

From Stdlib Require Import ZArith Lia List String Ascii Bool.
From stdpp Require Import base tactics option list sorting strings gmap.

Local Open Scope string_scope.
Local Open Scope Z_scope.

(** ** JavaScript values *)

Inductive number :=
| Num (z : Z)
| NaN.

Definition MAX_SAFE_INTEGER : Z := 2 ^ 53 - 1.

Definition mul (a b : number) : number :=
  match a, b with
  | Num x, Num y => Num (x * y)
  | _, _ => NaN
  end.

(** [s.slice(-1)]: the last code unit, or the empty string. *)
Fixpoint slice_last (s : string) : string :=
  match s with
  | EmptyString => EmptyString
  | String c EmptyString => String c EmptyString
  | String _ r => slice_last r
  end.

(** [s.slice(0, -1)]: everything but the last code unit. *)
Fixpoint slice_init (s : string) : string :=
  match s with
  | EmptyString => EmptyString
  | String _ EmptyString => EmptyString
  | String c r => String c (slice_init r)
  end.

(** White space that [parseInt] skips (TAB, LF, VT, FF, CR, SP, NBSP). *)
Definition isWhiteSpace (c : ascii) : bool :=
  let n := Z.of_nat (nat_of_ascii c) in
  ((9 <=? n) && (n <=? 13)) || (n =? 32) || (n =? 160).

Definition digitOf (c : ascii) : option Z :=
  let n := Z.of_nat (nat_of_ascii c) in
  if (48 <=? n) && (n <=? 57) then Some (n - 48) else None.

Fixpoint trimStart (s : string) : string :=
  match s with
  | String c r => if isWhiteSpace c then trimStart r else s
  | EmptyString => EmptyString
  end.

(** The value of the longest prefix of decimal digits, read left to right. *)
Fixpoint parseDigits (acc : Z) (s : string) : Z :=
  match s with
  | String c r =>
      match digitOf c with
      | Some d => parseDigits (acc * 10 + d) r
      | None => acc
      end
  | EmptyString => acc
  end.

Definition startsWithDigit (s : string) : bool :=
  match s with
  | String c _ => bool_decide (is_Some (digitOf c))
  | EmptyString => false
  end.

(** [parseInt(s, 10)]: leading white space, an optional sign, then the
    longest run of digits; [NaN] when that run is empty. *)
Definition parseInt10 (s : string) : number :=
  let t := trimStart s in
  let '(sign, body) :=
    match t with
    | String "-" r => (-1, r)
    | String "+" r => (1, r)
    | _ => (1, t)
    end in
  if startsWithDigit body then Num (sign * parseDigits 0 body) else NaN.

(** The reading of a decimal numeral, position by position: what "the
    number that the digits denote" means in the statements about
    [parseDuration]. *)
Fixpoint isDigits (s : string) : bool :=
  match s with
  | EmptyString => true
  | String c r => bool_decide (is_Some (digitOf c)) && isDigits r
  end.

Fixpoint decimalValue (s : string) : Z :=
  match s with
  | EmptyString => 0
  | String c r =>
      default 0 (digitOf c) * 10 ^ Z.of_nat (String.length r) + decimalValue r
  end.

(** ** Token codec: [src/utils/jwt.ts] *)

Definition parseDuration (duration : string) : number :=
  let unit := slice_last duration in
  let value := parseInt10 (slice_init duration) in
  if String.eqb unit "s" then value
  else if String.eqb unit "m" then mul value (Num 60)
  else if String.eqb unit "h" then mul (mul value (Num 60)) (Num 60)
  else if String.eqb unit "d" then mul (mul (mul value (Num 24)) (Num 60)) (Num 60)
  else Num (7 * 24 * 60 * 60).

(** The part of [config/env.ts] that the codec and the session manager
    read. *)
Record Env := {
  JWT_ACCESS_SECRET : string;
  JWT_REFRESH_SECRET : string;
  JWT_ACCESS_EXPIRES_IN : string;
  JWT_REFRESH_EXPIRES_IN : string
}.

(** What a failed call raises: the application's own [AppError], an error of
    the Prisma client ([P2002] unique constraint, [P2003] foreign key,
    [P2025] record not found), or another exception of the runtime. *)
Inductive Failure :=
| AppError (message : string) (statusCode : Z)
| PrismaError (code : string)
| JsError (message : string).

Inductive Result (A : Type) :=
| Ok (a : A)
| Failed (e : Failure).
Arguments Ok {A} a.
Arguments Failed {A} e.

(** The claims of a token: the three fields of [JwtPayload] that the code
    passes to [jwt.sign], and the [iat] and [exp] (in seconds) that
    [jwt.sign] adds. *)
Module JwtPayload.
Record t := {
  userId : string;
  email : string;
  type : string;
  iat : Z;
  exp : Z
}.
End JwtPayload.

(** A token string.  [jsonwebtoken] is a library, not code of the
    repository; its HS256 compact serialisation is represented by what
    determines it, the signing key and the claims: signing is
    deterministic, two signed tokens are the same string exactly when key
    and claims agree, and only the key that signed verifies.  [Opaque] is
    any string that is no such serialisation. *)
Inductive Token :=
| Jwt (key : string) (payload : JwtPayload.t)
| Opaque (raw : string).

#[global] Instance JwtPayload_eq_dec : EqDecision JwtPayload.t.
Proof. solve_decision. Defined.

#[global] Instance Token_eq_dec : EqDecision Token.
Proof. solve_decision. Defined.

(** [jwt.sign(payload, secret, { expiresIn })] at the instant [now]: [iat]
    is the clock in whole seconds, [exp] is [iat + expiresIn]; an
    [expiresIn] that is not an integer is refused with an exception. *)
Definition jwt_sign (userId email type secret : string) (expiresIn : number)
    (now : Z) : Result Token :=
  match expiresIn with
  | Num n =>
      Ok (Jwt secret
            {| JwtPayload.userId := userId;
               JwtPayload.email := email;
               JwtPayload.type := type;
               JwtPayload.iat := now / 1000;
               JwtPayload.exp := now / 1000 + n |})
  | NaN => Failed (JsError "expiresIn should be a number of seconds")
  end.

(** [jwt.verify(token, secret)] at the instant [now]: the claims, or an
    exception when the string is malformed, the signature is not by
    [secret], or the clock in whole seconds has reached [exp]. *)
Definition jwt_verify (token : Token) (secret : string) (now : Z)
    : Result JwtPayload.t :=
  match token with
  | Jwt key payload =>
      if String.eqb key secret then
        if JwtPayload.exp payload <=? now / 1000
        then Failed (JsError "TokenExpiredError")
        else Ok payload
      else Failed (JsError "JsonWebTokenError")
  | Opaque _ => Failed (JsError "JsonWebTokenError")
  end.

Record TokenPair := {
  accessToken : Token;
  refreshToken : Token
}.

Section Codec.
Variable env : Env.

Definition generateAccessToken (userId email : string) (now : Z) : Result Token :=
  jwt_sign userId email "access" (JWT_ACCESS_SECRET env)
    (parseDuration (JWT_ACCESS_EXPIRES_IN env)) now.

Definition generateRefreshToken (userId email : string) (now : Z) : Result Token :=
  jwt_sign userId email "refresh" (JWT_REFRESH_SECRET env)
    (parseDuration (JWT_REFRESH_EXPIRES_IN env)) now.

Definition generateTokenPair (userId email : string) (now : Z) : Result TokenPair :=
  match generateAccessToken userId email now with
  | Failed e => Failed e
  | Ok a =>
      match generateRefreshToken userId email now with
      | Failed e => Failed e
      | Ok r => Ok {| accessToken := a; refreshToken := r |}
      end
  end.

(** [null] is [None]. *)
Definition verifyAccessToken (token : Token) (now : Z) : option JwtPayload.t :=
  match jwt_verify token (JWT_ACCESS_SECRET env) now with
  | Ok payload =>
      if negb (String.eqb (JwtPayload.type payload) "access") then None
      else Some payload
  | Failed _ => None
  end.

Definition verifyRefreshToken (token : Token) (now : Z) : option JwtPayload.t :=
  match jwt_verify token (JWT_REFRESH_SECRET env) now with
  | Ok payload =>
      if negb (String.eqb (JwtPayload.type payload) "refresh") then None
      else Some payload
  | Failed _ => None
  end.

(** [new Date(now.getTime() + seconds * 1000)]; [NaN] is the invalid
    date. *)
Definition getExpirationDate (duration : string) (now : Z) : number :=
  match mul (parseDuration duration) (Num 1000) with
  | Num ms => Num (now + ms)
  | NaN => NaN
  end.
End Codec.

(** ** Credential verifier: [utils/password.ts] *)

(** Modelled from the spec: [utils/password.ts] is not among the sources,
    and the two functions that the session manager imports from it are
    parameters.  [hashPassword] is salted (the salt is its first argument
    here); the laws are the one that section 4.2 of the specification
    gives the primitive, that a password verifies against its own hash,
    and that a hash is not the empty string. *)
Class PasswordUtils := {
  hashPassword : string -> string -> string;
  comparePassword : string -> string -> bool;
  compare_hashPassword :
    forall salt password, comparePassword password (hashPassword salt password) = true;
  hashPassword_nonempty :
    forall salt password, hashPassword salt password <> EmptyString
}.

(** ** The store behind the Prisma client *)

Module User.
(** Modelled from the spec: the Prisma schema is not among the sources.
    The columns are those that the session manager reads and writes and
    that section 3 of the specification lists for an account; [id] is the
    primary key and [email] is unique (the code looks both up with
    [findUnique]). *)
Record t := {
  id : string;
  email : string;
  passwordHash : option string;
  name : option string;
  status : string;
  authProvider : option string;
  createdAt : Z;
  lastLoginAt : option Z
}.

Definition with_lastLoginAt (at' : Z) (u : t) : t :=
  {| id := id u; email := email u; passwordHash := passwordHash u;
     name := name u; status := status u; authProvider := authProvider u;
     createdAt := createdAt u; lastLoginAt := Some at' |}.

Definition with_passwordHash (h : string) (u : t) : t :=
  {| id := id u; email := email u; passwordHash := Some h;
     name := name u; status := status u; authProvider := authProvider u;
     createdAt := createdAt u; lastLoginAt := lastLoginAt u |}.
End User.

Module RefreshToken.
(** Modelled from the spec: the Prisma schema is not among the sources.
    The columns are those of the refresh-token record of section 3 of the
    specification; [id] is the primary key, [token] is unique (the code
    looks it up with [findUnique]) and [userId] refers to an account
    ([include: { user }]). *)
Record t := {
  id : string;
  token : Token;
  userId : string;
  expiresAt : Z;
  revokedAt : option Z;
  createdAt : Z;
  userAgent : option string;
  ipAddress : option string
}.

Definition with_revokedAt (at' : Z) (r : t) : t :=
  {| id := id r; token := token r; userId := userId r;
     expiresAt := expiresAt r; revokedAt := Some at';
     createdAt := createdAt r; userAgent := userAgent r;
     ipAddress := ipAddress r |}.
End RefreshToken.

Module DB.
Record t := {
  user : list User.t;
  refreshToken : list RefreshToken.t
}.
End DB.

(** [orderBy: { createdAt: "desc" }]. *)
Definition createdAt_desc (a b : RefreshToken.t) : Prop :=
  RefreshToken.createdAt b <= RefreshToken.createdAt a.

#[global] Instance createdAt_desc_dec : RelDecision createdAt_desc.
Proof. intros a b. unfold createdAt_desc. apply _. Defined.

(** The calls of the Prisma client that the session manager awaits, each
    indexed by the type of what it resolves to. *)
Inductive Prisma : Type -> Type :=
| user_findUnique_email (email : string) : Prisma (option User.t)
| user_findUnique_id (id : string) : Prisma (option User.t)
| user_create (u : User.t) : Prisma User.t
| user_update_lastLoginAt (id : string) (at' : Z) : Prisma User.t
| user_update_passwordHash (id : string) (h : string) : Prisma User.t
| refreshToken_findUnique_token (token : Token) : Prisma (option RefreshToken.t)
| refreshToken_findUnique_token_user (token : Token)
    : Prisma (option (RefreshToken.t * User.t))
| refreshToken_findFirst (id userId : string) : Prisma (option RefreshToken.t)
| refreshToken_update_revokedAt (id : string) (at' : Z) : Prisma RefreshToken.t
| refreshToken_delete (id : string) : Prisma RefreshToken.t
| refreshToken_create (r : RefreshToken.t) : Prisma RefreshToken.t
| refreshToken_findMany_unrevoked (userId : string) (skip : nat)
    : Prisma (list RefreshToken.t)
| refreshToken_deleteMany (ids : list string) : Prisma unit
| refreshToken_updateMany_revoke (userId : string) (at' : Z) : Prisma unit.

Definition userById (id : string) (us : list User.t) : option User.t :=
  List.find (fun u => String.eqb (User.id u) id) us.

Definition userByEmail (email : string) (us : list User.t) : option User.t :=
  List.find (fun u => String.eqb (User.email u) email) us.

Definition tokenByToken (tk : Token) (rs : list RefreshToken.t) : option RefreshToken.t :=
  List.find (fun r => bool_decide (RefreshToken.token r = tk)) rs.

Definition tokenById (id : string) (rs : list RefreshToken.t) : option RefreshToken.t :=
  List.find (fun r => String.eqb (RefreshToken.id r) id) rs.

Definition unrevokedOf (userId : string) (r : RefreshToken.t) : bool :=
  String.eqb (RefreshToken.userId r) userId
  && bool_decide (RefreshToken.revokedAt r = None).

Definition present {A : Type} (o : option A) : bool :=
  match o with
  | Some _ => true
  | None => false
  end.

Definition with_users (us : list User.t) (db : DB.t) : DB.t :=
  {| DB.user := us; DB.refreshToken := DB.refreshToken db |}.

Definition with_tokens (rs : list RefreshToken.t) (db : DB.t) : DB.t :=
  {| DB.user := DB.user db; DB.refreshToken := rs |}.

(** One call against the store: what it resolves to or rejects with, and
    the store afterwards.  The constraints are those of the two tables:
    an insertion that repeats a primary key or a unique column is rejected
    with [P2002], one that refers to no account with [P2003], and an
    update or deletion by identifier of a row that does not exist with
    [P2025].  [findMany] orders by [createdAt], newest first; among rows of
    equal [createdAt] the store promises no order, and the sort fixes
    one. *)
Definition handle {X : Type} (q : Prisma X) (db : DB.t) : Result X * DB.t :=
  match q in Prisma X return Result X * DB.t with
  | user_findUnique_email email => (Ok (userByEmail email (DB.user db)), db)
  | user_findUnique_id id => (Ok (userById id (DB.user db)), db)
  | user_create u =>
      if present (userById (User.id u) (DB.user db)) then (Failed (PrismaError "P2002"), db)
      else if present (userByEmail (User.email u) (DB.user db)) then (Failed (PrismaError "P2002"), db)
      else (Ok u, with_users (DB.user db ++ [u]) db)
  | user_update_lastLoginAt id at' =>
      match userById id (DB.user db) with
      | None => (Failed (PrismaError "P2025"), db)
      | Some u =>
          (Ok (User.with_lastLoginAt at' u),
           with_users
             (List.map (fun v => if String.eqb (User.id v) id
                                 then User.with_lastLoginAt at' v else v)
                (DB.user db)) db)
      end
  | user_update_passwordHash id h =>
      match userById id (DB.user db) with
      | None => (Failed (PrismaError "P2025"), db)
      | Some u =>
          (Ok (User.with_passwordHash h u),
           with_users
             (List.map (fun v => if String.eqb (User.id v) id
                                 then User.with_passwordHash h v else v)
                (DB.user db)) db)
      end
  | refreshToken_findUnique_token tk =>
      (Ok (tokenByToken tk (DB.refreshToken db)), db)
  | refreshToken_findUnique_token_user tk =>
      match tokenByToken tk (DB.refreshToken db) with
      | None => (Ok None, db)
      | Some r =>
          match userById (RefreshToken.userId r) (DB.user db) with
          | Some u => (Ok (Some (r, u)), db)
          | None => (Failed (PrismaError "P2003"), db)
          end
      end
  | refreshToken_findFirst id userId =>
      (Ok (List.find
             (fun r => String.eqb (RefreshToken.id r) id
                       && String.eqb (RefreshToken.userId r) userId)
             (DB.refreshToken db)), db)
  | refreshToken_update_revokedAt id at' =>
      match tokenById id (DB.refreshToken db) with
      | None => (Failed (PrismaError "P2025"), db)
      | Some r =>
          (Ok (RefreshToken.with_revokedAt at' r),
           with_tokens
             (List.map (fun v => if String.eqb (RefreshToken.id v) id
                                 then RefreshToken.with_revokedAt at' v else v)
                (DB.refreshToken db)) db)
      end
  | refreshToken_delete id =>
      match tokenById id (DB.refreshToken db) with
      | None => (Failed (PrismaError "P2025"), db)
      | Some r =>
          (Ok r,
           with_tokens
             (List.filter (fun v => negb (String.eqb (RefreshToken.id v) id))
                (DB.refreshToken db)) db)
      end
  | refreshToken_create r =>
      if present (tokenById (RefreshToken.id r) (DB.refreshToken db))
      then (Failed (PrismaError "P2002"), db)
      else if present (tokenByToken (RefreshToken.token r) (DB.refreshToken db))
      then (Failed (PrismaError "P2002"), db)
      else if present (userById (RefreshToken.userId r) (DB.user db))
      then (Ok r, with_tokens (DB.refreshToken db ++ [r]) db)
      else (Failed (PrismaError "P2003"), db)
  | refreshToken_findMany_unrevoked userId skip =>
      (Ok (drop skip
             (merge_sort createdAt_desc
                (List.filter (unrevokedOf userId) (DB.refreshToken db)))), db)
  | refreshToken_deleteMany ids =>
      (Ok tt,
       with_tokens
         (List.filter
            (fun v => negb (existsb (String.eqb (RefreshToken.id v)) ids))
            (DB.refreshToken db)) db)
  | refreshToken_updateMany_revoke userId at' =>
      (Ok tt,
       with_tokens
         (List.map (fun v => if unrevokedOf userId v
                             then RefreshToken.with_revokedAt at' v else v)
            (DB.refreshToken db)) db)
  end.

(** ** Asynchronous functions

    An [async] function is a tree whose nodes are its [await]s on the
    store: the code between two awaits runs without interruption, and
    another request may run between them. *)
Inductive Prog (A : Type) : Type :=
| Ret (a : A)
| Throw (e : Failure)
| Await {X : Type} (q : Prisma X) (k : X -> Prog A).
Arguments Ret {A} a.
Arguments Throw {A} e.
Arguments Await {A X} q k.

Fixpoint bind {A B : Type} (p : Prog A) (f : A -> Prog B) : Prog B :=
  match p with
  | Ret a => f a
  | Throw e => Throw e
  | Await q k => Await q (fun x => bind (k x) f)
  end.

Definition await {X : Type} (q : Prisma X) : Prog X := Await q Ret.

(** A synchronous call that may throw. *)
Definition try {A : Type} (r : Result A) : Prog A :=
  match r with
  | Ok a => Ret a
  | Failed e => Throw e
  end.

Notation "x <- p ;; k" := (bind p (fun x => k))
  (at level 100, p at next level, right associativity).
Notation "p ;;; k" := (bind p (fun _ => k))
  (at level 100, right associativity).

(** A call that runs alone, from its first await to its result. *)
Fixpoint run {A : Type} (p : Prog A) (db : DB.t) : Result A * DB.t :=
  match p with
  | Ret a => (Ok a, db)
  | Throw e => (Failed e, db)
  | Await q k =>
      match handle q db with
      | (Ok x, db') => run (k x) db'
      | (Failed e, db') => (Failed e, db')
      end
  end.

(** One await of a call. *)
Definition step {A : Type} (p : Prog A) (db : DB.t) : Prog A * DB.t :=
  match p with
  | Await q k =>
      match handle q db with
      | (Ok x, db') => (k x, db')
      | (Failed e, db') => (Throw e, db')
      end
  | _ => (p, db)
  end.

(** Two calls in flight: the schedule says which of them the event loop
    resumes next ([true] the first, [false] the second). *)
Fixpoint interleave {A B : Type} (schedule : list bool) (p : Prog A) (q : Prog B)
    (db : DB.t) : Prog A * Prog B * DB.t :=
  match schedule with
  | [] => (p, q, db)
  | true :: rest => let '(p', db') := step p db in interleave rest p' q db'
  | false :: rest => let '(q', db') := step q db in interleave rest p q' db'
  end.

(** ** Session manager: [src/services/auth.service.ts] *)

Module RegisterInput.
Record t := { email : string; password : string; name : option string }.
End RegisterInput.

Module LoginInput.
Record t := { email : string; password : string }.
End LoginInput.

Module ChangePasswordInput.
Record t := { currentPassword : string; newPassword : string }.
End ChangePasswordInput.

(** The columns of [userSelectFields] that the store model has. *)
Module AuthUser.
Record t := {
  id : string;
  email : string;
  name : option string;
  status : string;
  authProvider : option string;
  createdAt : Z
}.
End AuthUser.

Definition userSelectFields (u : User.t) : AuthUser.t :=
  {| AuthUser.id := User.id u; AuthUser.email := User.email u;
     AuthUser.name := User.name u; AuthUser.status := User.status u;
     AuthUser.authProvider := User.authProvider u;
     AuthUser.createdAt := User.createdAt u |}.

Record AuthResult := {
  user : AuthUser.t;
  tokens : TokenPair
}.

(** What one call takes from outside: the clock, the salt that the hashing
    primitive draws, and the identifiers that the store generates for the
    rows the call inserts. *)
Record World := {
  now : Z;
  salt : string;
  userUuid : string;
  tokenUuid : string
}.

(** [!s] for a nullable string: [null] and the empty string are false. *)
Definition falsy (s : option string) : bool :=
  match s with
  | None => true
  | Some h => String.eqb h ""
  end.

Section AuthService.
Variable env : Env.
Context `{PasswordUtils}.

Definition storeRefreshToken (userId : string) (token : Token)
    (userAgent ipAddress : option string) (w : World) : Prog unit :=
  match getExpirationDate (JWT_REFRESH_EXPIRES_IN env) (now w) with
  | NaN => Throw (PrismaError "PrismaClientValidationError")
  | Num expiresAt =>
      _ <- await (refreshToken_create
             {| RefreshToken.id := tokenUuid w;
                RefreshToken.token := token;
                RefreshToken.userId := userId;
                RefreshToken.expiresAt := expiresAt;
                RefreshToken.revokedAt := None;
                RefreshToken.createdAt := now w;
                RefreshToken.userAgent := userAgent;
                RefreshToken.ipAddress := ipAddress |}) ;;
      (* Cleanup old tokens (keep max 10 per user) *)
      tokens <- await (refreshToken_findMany_unrevoked userId 10) ;;
      if (0 <? Z.of_nat (length tokens))
      then await (refreshToken_deleteMany (List.map RefreshToken.id tokens))
      else Ret tt
  end.

Definition revokeAllUserTokens (userId : string) (w : World) : Prog unit :=
  await (refreshToken_updateMany_revoke userId (now w)).

Definition register (data : RegisterInput.t) (userAgent ipAddress : option string)
    (w : World) : Prog AuthResult :=
  existingUser <- await (user_findUnique_email (RegisterInput.email data)) ;;
  match existingUser with
  | Some _ => Throw (AppError "Email already registered" 409)
  | None =>
      let passwordHash := hashPassword (salt w) (RegisterInput.password data) in
      user <- await (user_create
                {| User.id := userUuid w;
                   User.email := RegisterInput.email data;
                   User.passwordHash := Some passwordHash;
                   User.name := RegisterInput.name data;
                   User.status := "active";
                   User.authProvider := Some "local";
                   User.createdAt := now w;
                   User.lastLoginAt := None |}) ;;
      tokens <- try (generateTokenPair env (User.id user) (User.email user) (now w)) ;;
      storeRefreshToken (User.id user) (refreshToken tokens) userAgent ipAddress w ;;;
      Ret {| user := userSelectFields user; tokens := tokens |}
  end.

Definition login (data : LoginInput.t) (userAgent ipAddress : option string)
    (w : World) : Prog AuthResult :=
  user <- await (user_findUnique_email (LoginInput.email data)) ;;
  match user with
  | None => Throw (AppError "Invalid email or password" 401)
  | Some user =>
      (* Check if user has a password (might be OAuth-only user) *)
      if falsy (User.passwordHash user)
      then Throw (AppError
             "Account uses social login. Please sign in with your provider." 401)
      else
        let isValidPassword :=
          comparePassword (LoginInput.password data)
            (default "" (User.passwordHash user)) in
        if negb isValidPassword
        then Throw (AppError "Invalid email or password" 401)
        else if negb (String.eqb (User.status user) "active")
        then Throw (AppError (String.append "Account is " (User.status user)) 403)
        else
          _ <- await (user_update_lastLoginAt (User.id user) (now w)) ;;
          tokens <- try (generateTokenPair env (User.id user) (User.email user) (now w)) ;;
          storeRefreshToken (User.id user) (refreshToken tokens) userAgent ipAddress w ;;;
          Ret {| user := userSelectFields user; tokens := tokens |}
  end.

Definition refreshTokens (refreshToken' : Token) (userAgent ipAddress : option string)
    (w : World) : Prog TokenPair :=
  match verifyRefreshToken env refreshToken' (now w) with
  | None => Throw (AppError "Invalid or expired refresh token" 401)
  | Some payload =>
      storedToken <- await (refreshToken_findUnique_token_user refreshToken') ;;
      match storedToken with
      | None => Throw (AppError "Refresh token not found" 401)
      | Some (storedToken, storedUser) =>
          if present (RefreshToken.revokedAt storedToken) then
            (* Token was revoked - possible token theft *)
            revokeAllUserTokens (RefreshToken.userId storedToken) w ;;;
            Throw (AppError "Refresh token has been revoked" 401)
          else if RefreshToken.expiresAt storedToken <? now w then
            _ <- await (refreshToken_delete (RefreshToken.id storedToken)) ;;
            Throw (AppError "Refresh token has expired" 401)
          else if negb (String.eqb (User.status storedUser) "active") then
            Throw (AppError (String.append "Account is " (User.status storedUser)) 403)
          else
            (* Revoke the old refresh token (token rotation) *)
            _ <- await (refreshToken_update_revokedAt
                          (RefreshToken.id storedToken) (now w)) ;;
            tokens <- try (generateTokenPair env (JwtPayload.userId payload)
                              (JwtPayload.email payload) (now w)) ;;
            storeRefreshToken (JwtPayload.userId payload) (refreshToken tokens)
              userAgent ipAddress w ;;;
            Ret tokens
      end
  end.

Definition logout (refreshToken' : Token) (w : World) : Prog unit :=
  storedToken <- await (refreshToken_findUnique_token refreshToken') ;;
  match storedToken with
  | Some storedToken =>
      if negb (present (RefreshToken.revokedAt storedToken))
      then _ <- await (refreshToken_update_revokedAt
                         (RefreshToken.id storedToken) (now w)) ;; Ret tt
      else Ret tt
  | None => Ret tt
  end.

Definition logoutAll (userId : string) (w : World) : Prog unit :=
  revokeAllUserTokens userId w.

Definition changePassword (userId : string) (data : ChangePasswordInput.t)
    (w : World) : Prog unit :=
  user <- await (user_findUnique_id userId) ;;
  match user with
  | None => Throw (AppError "User not found" 404)
  | Some user =>
      if falsy (User.passwordHash user)
      then Throw (AppError "Account uses social login. Cannot change password." 400)
      else
        let isValidPassword :=
          comparePassword (ChangePasswordInput.currentPassword data)
            (default "" (User.passwordHash user)) in
        if negb isValidPassword
        then Throw (AppError "Current password is incorrect" 401)
        else
          let newPasswordHash :=
            hashPassword (salt w) (ChangePasswordInput.newPassword data) in
          _ <- await (user_update_passwordHash userId newPasswordHash) ;;
          (* Revoke all refresh tokens (force re-login) *)
          revokeAllUserTokens userId w
  end.

Definition revokeSession (userId sessionId : string) (w : World) : Prog unit :=
  token <- await (refreshToken_findFirst sessionId userId) ;;
  match token with
  | None => Throw (AppError "Session not found" 404)
  | Some _ =>
      _ <- await (refreshToken_update_revokedAt sessionId (now w)) ;; Ret tt
  end.
End AuthService.

(** The calls that the session manager exports, with their arguments, and
    the store after one of them, or after several in a row, whatever they
    returned. *)
Inductive Call :=
| call_register (data : RegisterInput.t) (userAgent ipAddress : option string) (w : World)
| call_login (data : LoginInput.t) (userAgent ipAddress : option string) (w : World)
| call_refreshTokens (token : Token) (userAgent ipAddress : option string) (w : World)
| call_logout (token : Token) (w : World)
| call_logoutAll (userId : string) (w : World)
| call_changePassword (userId : string) (data : ChangePasswordInput.t) (w : World)
| call_revokeSession (userId sessionId : string) (w : World).

Section History.
Variable env : Env.
Context `{PasswordUtils}.

Definition after (c : Call) (db : DB.t) : DB.t :=
  match c with
  | call_register data userAgent ipAddress w =>
      (run (register env data userAgent ipAddress w) db).2
  | call_login data userAgent ipAddress w =>
      (run (login env data userAgent ipAddress w) db).2
  | call_refreshTokens token userAgent ipAddress w =>
      (run (refreshTokens env token userAgent ipAddress w) db).2
  | call_logout token w => (run (logout token w) db).2
  | call_logoutAll userId w => (run (logoutAll userId w) db).2
  | call_changePassword userId data w => (run (changePassword userId data w) db).2
  | call_revokeSession userId sessionId w =>
      (run (revokeSession userId sessionId w) db).2
  end.

Definition afterAll (history : list Call) (db : DB.t) : DB.t :=
  fold_left (fun db c => after c db) history db.
End History.

(** ** Rate limiter: [src/middleware/rateLimit.ts] *)

Module RateLimitEntry.
Record t := { count : Z; resetTime : Z }.
End RateLimitEntry.

(** What the middleware reads of a request. *)
Record Request := { ip : option string }.

Record RateLimitOptions := {
  windowMs : option Z;
  maxRequests : option Z;
  message : option string;
  keyGenerator : option (Request -> string)
}.

(** What the middleware does with a request: the headers it sets, and
    either [next()] or [sendError(res, message, 429)]. *)
Inductive Outcome :=
| next
| sendError (message : string) (status : Z).

Record Reply := {
  X_RateLimit_Limit : Z;
  X_RateLimit_Remaining : Z;
  X_RateLimit_Reset : Z;
  Retry_After : option Z;
  outcome : Outcome
}.

(** [Math.ceil(ms / 1000)]. *)
Definition ceil_seconds (ms : Z) : Z := - ((- ms) / 1000).

(** The handler that [rateLimit(options)] returns, on the store of the
    module: the one [Map] that every limiter of the process reads and
    writes. *)
Definition rateLimit (options : RateLimitOptions) (req : Request) (now : Z)
    (store : gmap string RateLimitEntry.t) : Reply * gmap string RateLimitEntry.t :=
  let windowMs := default (60 * 1000) (windowMs options) in
  let maxRequests := default 100 (maxRequests options) in
  let message := default "Too many requests, please try again later" (message options) in
  let keyGenerator :=
    default (fun req => if falsy (ip req) then "unknown" else default "" (ip req))
      (keyGenerator options) in
  let key := keyGenerator req in
  let '(entry, store) :=
    match store !! key with
    | Some entry =>
        if RateLimitEntry.resetTime entry <=? now then
          let entry := {| RateLimitEntry.count := 1;
                          RateLimitEntry.resetTime := now + windowMs |} in
          (entry, <[key := entry]> store)
        else
          let entry := {| RateLimitEntry.count := RateLimitEntry.count entry + 1;
                          RateLimitEntry.resetTime := RateLimitEntry.resetTime entry |} in
          (entry, <[key := entry]> store)
    | None =>
        let entry := {| RateLimitEntry.count := 1;
                        RateLimitEntry.resetTime := now + windowMs |} in
        (entry, <[key := entry]> store)
    end in
  let reply (retry : option Z) (o : Outcome) :=
    {| X_RateLimit_Limit := maxRequests;
       X_RateLimit_Remaining := Z.max 0 (maxRequests - RateLimitEntry.count entry);
       X_RateLimit_Reset := RateLimitEntry.resetTime entry;
       Retry_After := retry;
       outcome := o |} in
  if maxRequests <? RateLimitEntry.count entry
  then (reply (Some (ceil_seconds (RateLimitEntry.resetTime entry - now)))
          (sendError message 429), store)
  else (reply None next, store).

(** The periodic sweep that [rateLimit] installs with [setInterval]. *)
Definition cleanup (now : Z) (store : gmap string RateLimitEntry.t)
    : gmap string RateLimitEntry.t :=
  filter (fun kv => ~ (RateLimitEntry.resetTime kv.2 <= now)) store.

Definition authRateLimiter : Request -> Z -> gmap string RateLimitEntry.t ->
    Reply * gmap string RateLimitEntry.t :=
  rateLimit
    {| windowMs := Some (15 * 60 * 1000);
       maxRequests := Some 10;
       message := Some "Too many authentication attempts, please try again in 15 minutes";
       keyGenerator := None |}.

Definition apiRateLimiter : Request -> Z -> gmap string RateLimitEntry.t ->
    Reply * gmap string RateLimitEntry.t :=
  rateLimit
    {| windowMs := Some (60 * 1000);
       maxRequests := Some 100;
       message := None;
       keyGenerator := None |}.

(** The middleware chain in front of [POST /api/auth/login] (and of
    [register] and [google]): [app.use("/api", apiRateLimiter)] in
    [src/index.ts], then [authRateLimiter] on the route.  A limiter that
    rejects ends the chain. *)
Definition authRoute (req : Request) (now : Z) (store : gmap string RateLimitEntry.t)
    : Outcome * gmap string RateLimitEntry.t :=
  let '(reply1, store1) := apiRateLimiter req now store in
  match outcome reply1 with
  | next =>
      let '(reply2, store2) := authRateLimiter req now store1 in
      (outcome reply2, store2)
  | rejected => (rejected, store1)
  end.

(** A sequence of requests through one handler, oldest first. *)
Fixpoint serve {R : Type}
    (handler : Request -> Z -> gmap string RateLimitEntry.t ->
               R * gmap string RateLimitEntry.t)
    (requests : list (Request * Z)) (store : gmap string RateLimitEntry.t)
    : list R * gmap string RateLimitEntry.t :=
  match requests with
  | [] => ([], store)
  | (req, now) :: rest =>
      let '(r, store1) := handler req now store in
      let '(rs, store2) := serve handler rest store1 in
      (r :: rs, store2)
  end.

(** ** Calls outside the write path of the session manager

    The remaining calls use queries of the client that the session
    manager's write path does not: they are written in state-passing
    style, a call being a function from the store to its result and the
    store afterwards. *)
Definition M (A : Type) : Type := DB.t -> Result A * DB.t.

Definition retM {A : Type} (a : A) : M A := fun db => (Ok a, db).

Definition throwM {A : Type} (e : Failure) : M A := fun db => (Failed e, db).

Definition bindM {A B : Type} (m : M A) (f : A -> M B) : M B :=
  fun db =>
    match m db with
    | (Ok a, db') => f a db'
    | (Failed e, db') => (Failed e, db')
    end.

Notation "'let*' x ':=' m 'in' k" := (bindM m (fun x => k))
  (at level 10, x name, m at level 100, k at level 200).

(** [prisma.user.update({ where: { id }, data: { status } })]. *)
Definition user_update_status (id status : string) : M User.t :=
  fun db =>
    match userById id (DB.user db) with
    | None => (Failed (PrismaError "P2025"), db)
    | Some u =>
        let set (v : User.t) :=
          {| User.id := User.id v; User.email := User.email v;
             User.passwordHash := User.passwordHash v; User.name := User.name v;
             User.status := status; User.authProvider := User.authProvider v;
             User.createdAt := User.createdAt v;
             User.lastLoginAt := User.lastLoginAt v |} in
        (Ok (set u),
         with_users
           (List.map (fun v => if String.eqb (User.id v) id then set v else v)
              (DB.user db)) db)
    end.

(** [prisma.user.update({ where: { id }, data: { email } })]; the unique
    column rejects an email that another row has. *)
Definition user_update_email (id email : string) : M User.t :=
  fun db =>
    match userById id (DB.user db) with
    | None => (Failed (PrismaError "P2025"), db)
    | Some u =>
        let set (v : User.t) :=
          {| User.id := User.id v; User.email := email;
             User.passwordHash := User.passwordHash v; User.name := User.name v;
             User.status := User.status v; User.authProvider := User.authProvider v;
             User.createdAt := User.createdAt v;
             User.lastLoginAt := User.lastLoginAt v |} in
        if existsb (fun v => String.eqb (User.email v) email
                             && negb (String.eqb (User.id v) id)) (DB.user db)
        then (Failed (PrismaError "P2002"), db)
        else
          (Ok (set u),
           with_users
             (List.map (fun v => if String.eqb (User.id v) id then set v else v)
                (DB.user db)) db)
    end.

(** [prisma.user.delete({ where: { id } })]; the refresh tokens of the
    account go with it (the code says so where it deletes them first). *)
Definition user_delete (id : string) : M User.t :=
  fun db =>
    match userById id (DB.user db) with
    | None => (Failed (PrismaError "P2025"), db)
    | Some u =>
        (Ok u,
         {| DB.user :=
              List.filter (fun v => negb (String.eqb (User.id v) id)) (DB.user db);
            DB.refreshToken :=
              List.filter (fun r => negb (String.eqb (RefreshToken.userId r) id))
                (DB.refreshToken db) |})
    end.

(** [prisma.refreshToken.updateMany({ where: { userId }, data: { revokedAt } })]:
    every record of the account, revoked or not. *)
Definition refreshToken_updateMany_user (userId : string) (at' : Z) : M unit :=
  fun db =>
    (Ok tt,
     with_tokens
       (List.map (fun r => if String.eqb (RefreshToken.userId r) userId
                           then RefreshToken.with_revokedAt at' r else r)
          (DB.refreshToken db)) db).

(** [prisma.refreshToken.deleteMany({ where: { userId } })]. *)
Definition refreshToken_deleteMany_user (userId : string) : M unit :=
  fun db =>
    (Ok tt,
     with_tokens
       (List.filter (fun r => negb (String.eqb (RefreshToken.userId r) userId))
          (DB.refreshToken db)) db).

(** The filter [{ userId, revokedAt: null, expiresAt: { gt: new Date() } }]. *)
Definition activeWhere (userId : string) (now : Z) (r : RefreshToken.t) : bool :=
  String.eqb (RefreshToken.userId r) userId
  && bool_decide (RefreshToken.revokedAt r = None)
  && (now <? RefreshToken.expiresAt r).

(** What [getActiveSessions] selects of a record: the token is not among
    it. *)
Module Session.
Record t := {
  id : string;
  userAgent : option string;
  ipAddress : option string;
  createdAt : Z;
  expiresAt : Z
}.
End Session.

Definition sessionSelect (r : RefreshToken.t) : Session.t :=
  {| Session.id := RefreshToken.id r;
     Session.userAgent := RefreshToken.userAgent r;
     Session.ipAddress := RefreshToken.ipAddress r;
     Session.createdAt := RefreshToken.createdAt r;
     Session.expiresAt := RefreshToken.expiresAt r |}.

(** [src/services/auth.service.ts], [getActiveSessions]. *)
Definition getActiveSessions (userId : string) (w : World) : M (list Session.t) :=
  fun db =>
    (Ok (List.map sessionSelect
           (merge_sort createdAt_desc
              (List.filter (activeWhere userId (now w)) (DB.refreshToken db)))), db).

(** ** Account service: [src/services/user.service.ts] *)

(** Of the columns that the service's [userSelectFields] selects, those
    that the account model has: [avatarUrl], [theme] and [updatedAt] are
    not columns of [User.t] and are left out, so that what is stated of a
    value of this type is stated of the seven columns below and of no
    other. *)
Module UserData.
Record t := {
  id : string;
  email : string;
  name : option string;
  status : string;
  authProvider : option string;
  lastLoginAt : option Z;
  createdAt : Z
}.
End UserData.

(** [select: userSelectFields] on a row of the account model: the seven
    modelled columns of the selection. *)
Definition userDataSelect (u : User.t) : UserData.t :=
  {| UserData.id := User.id u; UserData.email := User.email u;
     UserData.name := User.name u; UserData.status := User.status u;
     UserData.authProvider := User.authProvider u;
     UserData.lastLoginAt := User.lastLoginAt u;
     UserData.createdAt := User.createdAt u |}.

Module UpdateEmailInput.
Record t := { newEmail : string; password : string }.
End UpdateEmailInput.

Module UserStats.
Record t := {
  memberSince : Z;
  lastLogin : option Z;
  totalSessions : nat;
  activeSessions : nat
}.
End UserStats.

Section UserService.
Context `{PasswordUtils}.

Definition getUserById (userId : string) : M (option UserData.t) :=
  let* user := handle (user_findUnique_id userId) in
  retM (option_map userDataSelect user).

Definition updateEmail (userId : string) (data : UpdateEmailInput.t) : M UserData.t :=
  let* user := handle (user_findUnique_id userId) in
  match user with
  | None => throwM (AppError "User not found" 404)
  | Some user =>
      if falsy (User.passwordHash user)
      then throwM (AppError "Account uses social login. Cannot change email." 400)
      else
        let isValidPassword :=
          comparePassword (UpdateEmailInput.password data)
            (default "" (User.passwordHash user)) in
        if negb isValidPassword
        then throwM (AppError "Invalid password" 401)
        else
          (* Check if new email is already taken *)
          let* existingUser :=
            handle (user_findUnique_email (UpdateEmailInput.newEmail data)) in
          match existingUser with
          | Some _ => throwM (AppError "Email already in use" 409)
          | None =>
              let* updatedUser :=
                user_update_email userId (UpdateEmailInput.newEmail data) in
              retM (userDataSelect updatedUser)
          end
  end.

Definition deleteAccount (userId password : string) (w : World) : M unit :=
  let* user := handle (user_findUnique_id userId) in
  match user with
  | None => throwM (AppError "User not found" 404)
  | Some user =>
      (* For local auth, verify password *)
      if negb (falsy (User.passwordHash user))
         && negb (comparePassword password (default "" (User.passwordHash user)))
      then throwM (AppError "Invalid password" 401)
      else
        (* Soft delete - change status to deleted *)
        let* _ := user_update_status userId "deleted" in
        (* Revoke all refresh tokens *)
        refreshToken_updateMany_user userId (now w)
  end.

Definition permanentlyDeleteAccount (userId : string) : M unit :=
  let* user := handle (user_findUnique_id userId) in
  match user with
  | None => throwM (AppError "User not found" 404)
  | Some _ =>
      let* _ := refreshToken_deleteMany_user userId in
      let* _ := user_delete userId in
      retM tt
  end.

Definition suspendAccount (userId : string) (w : World) : M UserData.t :=
  let* user := handle (user_findUnique_id userId) in
  match user with
  | None => throwM (AppError "User not found" 404)
  | Some _ =>
      let* updatedUser := user_update_status userId "suspended" in
      (* Revoke all refresh tokens *)
      let* _ := refreshToken_updateMany_user userId (now w) in
      retM (userDataSelect updatedUser)
  end.

Definition reactivateAccount (userId : string) : M UserData.t :=
  let* user := handle (user_findUnique_id userId) in
  match user with
  | None => throwM (AppError "User not found" 404)
  | Some user =>
      if String.eqb (User.status user) "deleted"
      then throwM (AppError "Cannot reactivate deleted account" 400)
      else
        let* updatedUser := user_update_status userId "active" in
        retM (userDataSelect updatedUser)
  end.

Definition isEmailAvailable (email : string) : M bool :=
  let* user := handle (user_findUnique_email email) in
  retM (negb (present user)).

Definition getUserStats (userId : string) (w : World) : M UserStats.t :=
  let* user := handle (user_findUnique_id userId) in
  match user with
  | None => throwM (AppError "User not found" 404)
  | Some user =>
      fun db =>
        (Ok {| UserStats.memberSince := User.createdAt user;
               UserStats.lastLogin := User.lastLoginAt user;
               UserStats.totalSessions :=
                 length (List.filter
                           (fun r => String.eqb (RefreshToken.userId r) userId)
                           (DB.refreshToken db));
               UserStats.activeSessions :=
                 length (List.filter (activeWhere userId (now w))
                           (DB.refreshToken db)) |}, db)
  end.
End UserService.

(** ** Authentication middleware: [src/middleware/auth.ts] *)

(** The [Authorization] header: absent, [Bearer ] followed by a token, or
    any other string. *)
Inductive Authorization :=
| NoHeader
| Bearer (token : Token)
| NotBearer (raw : string).

(** What the middleware does: [next()] with [req.user] set, or a 401 or
    403 response. *)
Inductive AuthOutcome :=
| proceed (userId email : string)
| sendUnauthorized (message : string)
| sendForbidden (message : string).

Section AuthMiddleware.
Variable env : Env.

Definition authenticate (authorization : Authorization) (w : World) : M AuthOutcome :=
  fun db =>
    match authorization with
    | NoHeader | NotBearer _ => (Ok (sendUnauthorized "Access token is required"), db)
    | Bearer token =>
        match verifyAccessToken env token (now w) with
        | None => (Ok (sendUnauthorized "Invalid or expired access token"), db)
        | Some payload =>
            (* Verify user exists and is active *)
            match handle (user_findUnique_id (JwtPayload.userId payload)) db with
            | (Failed _, db') => (Ok (sendUnauthorized "Authentication failed"), db')
            | (Ok None, db') => (Ok (sendUnauthorized "User not found"), db')
            | (Ok (Some user), db') =>
                if negb (String.eqb (User.status user) "active")
                then (Ok (sendForbidden
                            (String.append "Account is " (User.status user))), db')
                else (Ok (proceed (User.id user) (User.email user)), db')
            end
        end
    end.

(** [next()] in every case; [req.user] is set for a valid token of an
    active account. *)
Definition optionalAuth (authorization : Authorization) (w : World)
    : M (option (string * string)) :=
  fun db =>
    match authorization with
    | NoHeader | NotBearer _ => (Ok None, db)
    | Bearer token =>
        match verifyAccessToken env token (now w) with
        | None => (Ok None, db)
        | Some payload =>
            match handle (user_findUnique_id (JwtPayload.userId payload)) db with
            | (Ok (Some user), db') =>
                if String.eqb (User.status user) "active"
                then (Ok (Some (User.id user, User.email user)), db')
                else (Ok None, db')
            | (_, db') => (Ok None, db')
            end
        end
    end.
End AuthMiddleware.

(** ** Vocabulary of the statements *)

(** A record is live when it is neither revoked nor expired. *)
Definition live (now : Z) (r : RefreshToken.t) : bool :=
  bool_decide (RefreshToken.revokedAt r = None) && (now <? RefreshToken.expiresAt r).

Definition liveOf (userId : string) (now : Z) (r : RefreshToken.t) : bool :=
  String.eqb (RefreshToken.userId r) userId && live now r.

(** No account holds more than ten unrevoked records; a live record is
    unrevoked, so none holds more than ten live ones either. *)
Definition capped (db : DB.t) : Prop :=
  forall userId : string,
    (length (List.filter (unrevokedOf userId) (DB.refreshToken db)) <= 10)%nat.

(** The primary key of the refresh-token table. *)
Definition uniqueIds (db : DB.t) : Prop :=
  List.NoDup (List.map RefreshToken.id (DB.refreshToken db)).

(** What [storeRefreshToken] finds beyond the ten newest unrevoked records
    of an account, and the table without them. *)
Definition beyondCap (userId : string) (rs : list RefreshToken.t) : list RefreshToken.t :=
  drop 10 (merge_sort createdAt_desc (List.filter (unrevokedOf userId) rs)).

Definition idIn (ids : list string) (r : RefreshToken.t) : bool :=
  existsb (String.eqb (RefreshToken.id r)) ids.

Definition evict (userId : string) (rs : list RefreshToken.t) : list RefreshToken.t :=
  List.filter (fun v => negb (idIn (List.map RefreshToken.id (beyondCap userId rs)) v)) rs.

Definition revokeAll (userId : string) (at' : Z) (rs : list RefreshToken.t)
    : list RefreshToken.t :=
  List.map (fun v => if unrevokedOf userId v
                     then RefreshToken.with_revokedAt at' v else v) rs.

Definition revokeOne (id : string) (at' : Z) (rs : list RefreshToken.t)
    : list RefreshToken.t :=
  List.map (fun v => if String.eqb (RefreshToken.id v) id
                     then RefreshToken.with_revokedAt at' v else v) rs.

(** The invariant of the refresh-token table, and the calls that keep it
    whatever they return. *)
Definition Inv (db : DB.t) : Prop := uniqueIds db /\ capped db.

Definition Safe {A : Type} (p : Prog A) : Prop :=
  forall db : DB.t, Inv db -> Inv (run p db).2.

Definition insertsToken {X : Type} (q : Prisma X) : bool :=
  match q with
  | refreshToken_create _ => true
  | _ => false
  end.

(** The token is stored in a revoked record of the account, whose row
    exists; with the primary key, what a replay of the token relies on. *)
Definition revokedRecord (token : Token) (userId : string) (db : DB.t) : Prop :=
  exists r : RefreshToken.t,
    tokenByToken token (DB.refreshToken db) = Some r /\
    RefreshToken.revokedAt r <> None /\
    RefreshToken.userId r = userId /\
    is_Some (userById userId (DB.user db)).

Definition Kept (token : Token) (userId : string) (db : DB.t) : Prop :=
  uniqueIds db /\ revokedRecord token userId db.

Definition Keeps {A : Type} (token : Token) (userId : string) (p : Prog A) : Prop :=
  forall db : DB.t, Kept token userId db -> Kept token userId (run p db).2.

Definition deletesToken {X : Type} (q : Prisma X) : bool :=
  match q with
  | refreshToken_delete _ => true
  | refreshToken_deleteMany _ => true
  | _ => false
  end.

(** The row that [storeRefreshToken] inserts. *)
Definition newRecord (userId : string) (token : Token)
    (userAgent ipAddress : option string) (w : World) (expiresAt : Z)
    : RefreshToken.t :=
  {| RefreshToken.id := tokenUuid w;
     RefreshToken.token := token;
     RefreshToken.userId := userId;
     RefreshToken.expiresAt := expiresAt;
     RefreshToken.revokedAt := None;
     RefreshToken.createdAt := now w;
     RefreshToken.userAgent := userAgent;
     RefreshToken.ipAddress := ipAddress |}.

Definition isAppError {A : Type} (r : Result A) : bool :=
  match r with
  | Failed (AppError _ _) => true
  | _ => false
  end.

(** ** Instances to run the code on

    An environment with the default durations of [config/env.ts], and a
    credential verifier that keeps the password behind a fixed prefix. *)
Definition exampleEnv : Env :=
  {| JWT_ACCESS_SECRET := "access-secret-0123456789abcdef0123456789";
     JWT_REFRESH_SECRET := "refresh-secret-0123456789abcdef0123456789";
     JWT_ACCESS_EXPIRES_IN := "15m";
     JWT_REFRESH_EXPIRES_IN := "7d" |}.

Definition examplePasswordUtils : PasswordUtils :=
  {| hashPassword := fun _ password => String.append "plain$" password;
     comparePassword := fun password hash =>
       String.eqb hash (String.append "plain$" password);
     compare_hashPassword := fun _ password =>
       String.eqb_refl (String.append "plain$" password);
     hashPassword_nonempty := fun _ password (E : String.append "plain$" password = EmptyString) =>
       eq_ind (String.append "plain$" password)
         (fun s => match s with EmptyString => False | String _ _ => True end)
         I EmptyString E |}.
#[local] Existing Instance examplePasswordUtils.

Definition emptyDB : DB.t := {| DB.user := []; DB.refreshToken := [] |}.

Definition world (now : Z) (uuid : string) : World :=
  {| now := now; salt := "salt"; userUuid := String.append "u-" uuid;
     tokenUuid := String.append "t-" uuid |}.

Definition alice : RegisterInput.t :=
  {| RegisterInput.email := "alice@example.com";
     RegisterInput.password := "Abcd1234!";
     RegisterInput.name := Some "Alice" |}.

(** ** Vocabulary of the rate limiter *)

Definition keyOf (options : RateLimitOptions) (req : Request) : string :=
  default (fun req => if falsy (ip req) then "unknown" else default "" (ip req))
    (keyGenerator options) req.

Definition limitOf (options : RateLimitOptions) : Z := default 100 (maxRequests options).

Definition windowOf (options : RateLimitOptions) : Z :=
  default (60 * 1000) (windowMs options).

Definition messageOf (options : RateLimitOptions) : string :=
  default "Too many requests, please try again later" (message options).

(** What a limiter answers to the request that brings the count of the
    window to [n]. *)
Definition verdict (options : RateLimitOptions) (n : Z) : Outcome :=
  if limitOf options <? n then sendError (messageOf options) 429 else next.

Definition wrongPassword : LoginInput.t :=
  {| LoginInput.email := "alice@example.com"; LoginInput.password := "wrong" |}.

Definition rightPassword : LoginInput.t :=
  {| LoginInput.email := "alice@example.com"; LoginInput.password := "Abcd1234!" |}.

(** [alice] changing her password to the one she has. *)
Definition samePassword : ChangePasswordInput.t :=
  {| ChangePasswordInput.currentPassword := "Abcd1234!";
     ChangePasswordInput.newPassword := "Abcd1234!" |}.

Definition otherPassword : ChangePasswordInput.t :=
  {| ChangePasswordInput.currentPassword := "Abcd1234!";
     ChangePasswordInput.newPassword := "Wxyz5678?" |}.

Definition badCurrentPassword : ChangePasswordInput.t :=
  {| ChangePasswordInput.currentPassword := "wrong";
     ChangePasswordInput.newPassword := "Wxyz5678?" |}.

(** The store after [alice] has registered at the instant 1000000, and the
    refresh token she was issued. *)
Definition aliceDB : DB.t :=
  Eval vm_compute in
    (run (register exampleEnv alice None None (world 1000000 "1")) emptyDB).2.

Definition aliceToken : Token :=
  Eval vm_compute in
    match generateRefreshToken exampleEnv "u-1" "alice@example.com" 1000000 with
    | Ok t => t
    | Failed _ => Opaque ""
    end.

(** Two [refreshTokens] with the same token in flight, 700 ms apart across
    a change of second; the event loop resumes them in turn: both look the
    token up before either marks it revoked. *)
Definition raceSchedule : list bool :=
  [true; false; true; false; true; true; false; false].

(** Six requests to [POST /api/auth/login] from one address, one per
    second. *)
Definition sixLogins : list (Request * Z) :=
  List.map (fun t => ({| ip := Some "203.0.113.7" |}, t))
    [0; 1000; 2000; 3000; 4000; 5000].


(** [alice] with ten live sessions, created at the instants 1 to 10. *)
Definition session (n : Z) (id key : string) : RefreshToken.t :=
  {| RefreshToken.id := id; RefreshToken.token := Opaque key;
     RefreshToken.userId := "u-1"; RefreshToken.expiresAt := 900000000;
     RefreshToken.revokedAt := None; RefreshToken.createdAt := n;
     RefreshToken.userAgent := None; RefreshToken.ipAddress := None |}.

Definition tenSessionsDB : DB.t :=
  {| DB.user := DB.user aliceDB;
     DB.refreshToken :=
       [session 3 "s3" "k3"; session 1 "s1" "k1"; session 2 "s2" "k2";
        session 4 "s4" "k4"; session 5 "s5" "k5"; session 6 "s6" "k6";
        session 7 "s7" "k7"; session 8 "s8" "k8"; session 9 "s9" "k9";
        session 10 "s10" "k10"] |}.

(** The record of [aliceToken] in [aliceDB]. *)
Definition aliceRecord : RefreshToken.t :=
  Eval vm_compute in
    default (session 0 "" "") (tokenByToken aliceToken (DB.refreshToken aliceDB)).

(** The claims of [aliceToken]. *)
Definition alicePayload : JwtPayload.t :=
  {| JwtPayload.userId := "u-1"; JwtPayload.email := "alice@example.com";
     JwtPayload.type := "refresh"; JwtPayload.iat := 1000;
     JwtPayload.exp := 605800 |}.


(** ** Vocabulary of the account table *)

(** The primary key of the account table. *)
Definition uniqueUserIds (db : DB.t) : Prop :=
  List.NoDup (List.map User.id (DB.user db)).

(** What the authentication middleware reads of an account. *)
Definition sameAccount (u u' : User.t) : Prop :=
  User.id u' = User.id u /\ User.email u' = User.email u /\
  User.status u' = User.status u.

(** Every account of [db] is an account of [db'], with the identifier,
    email and status it had. *)
Definition accountsKept (db db' : DB.t) : Prop :=
  forall (id : string) (u : User.t),
    userById id (DB.user db) = Some u ->
    exists u' : User.t, userById id (DB.user db') = Some u' /\ sameAccount u u'.

(** What [req.user] is after [authenticate]. *)
Definition reqUser (r : Result AuthOutcome * DB.t) : option (string * string) :=
  match r.1 with
  | Ok (proceed userId email) => Some (userId, email)
  | _ => None
  end.

(** The row that [user.update] writes for [data: { status }] and for
    [data: { email }]. *)
Definition setStatus (status : string) (u : User.t) : User.t :=
  {| User.id := User.id u; User.email := User.email u;
     User.passwordHash := User.passwordHash u; User.name := User.name u;
     User.status := status; User.authProvider := User.authProvider u;
     User.createdAt := User.createdAt u; User.lastLoginAt := User.lastLoginAt u |}.

Definition setEmail (email : string) (u : User.t) : User.t :=
  {| User.id := User.id u; User.email := email;
     User.passwordHash := User.passwordHash u; User.name := User.name u;
     User.status := User.status u; User.authProvider := User.authProvider u;
     User.createdAt := User.createdAt u; User.lastLoginAt := User.lastLoginAt u |}.

Definition updateUser (id : string) (f : User.t -> User.t) (us : list User.t)
    : list User.t :=
  List.map (fun v => if String.eqb (User.id v) id then f v else v) us.

(** The table after [updateMany({ where: { userId }, data: { revokedAt } })]. *)
Definition revokeUser (userId : string) (at' : Z) (rs : list RefreshToken.t)
    : list RefreshToken.t :=
  List.map (fun r => if String.eqb (RefreshToken.userId r) userId
                     then RefreshToken.with_revokedAt at' r else r) rs.

(** An account that signed up with a provider: no password hash. *)
Definition carol : User.t :=
  {| User.id := "u-7"; User.email := "carol@example.com";
     User.passwordHash := None; User.name := Some "Carol";
     User.status := "active"; User.authProvider := Some "google";
     User.createdAt := 500000; User.lastLoginAt := None |}.

(** [aliceDB] with the account of [carol] and a session of hers. *)
Definition twoAccountsDB : DB.t :=
  {| DB.user := DB.user aliceDB ++ [carol];
     DB.refreshToken :=
       DB.refreshToken aliceDB ++
       [{| RefreshToken.id := "t-7"; RefreshToken.token := Opaque "carol-session";
           RefreshToken.userId := "u-7"; RefreshToken.expiresAt := 900000000;
           RefreshToken.revokedAt := None; RefreshToken.createdAt := 600000;
           RefreshToken.userAgent := None; RefreshToken.ipAddress := None |}] |}.

(** [orderBy: { createdAt: "desc" }] on what [getActiveSessions]
    returns. *)
Definition newestFirst (a b : Session.t) : Prop :=
  Session.createdAt b <= Session.createdAt a.

(** [alice] moving to another address. *)
Definition aliceNewEmail : UpdateEmailInput.t :=
  {| UpdateEmailInput.newEmail := "alice@new.example";
     UpdateEmailInput.password := "Abcd1234!" |}.

(** An environment whose refresh duration has a unit and no number. *)
Definition noNumberEnv : Env :=
  {| JWT_ACCESS_SECRET := "access-secret-0123456789abcdef0123456789";
     JWT_REFRESH_SECRET := "refresh-secret-0123456789abcdef0123456789";
     JWT_ACCESS_EXPIRES_IN := "15m";
     JWT_REFRESH_EXPIRES_IN := "xd" |}.

(** The account of [alice] in [aliceDB], and what [register] returned to
    her. *)
Definition aliceUser : User.t :=
  Eval vm_compute in default carol (userById "u-1" (DB.user aliceDB)).

Definition aliceRegistered : AuthResult :=
  Eval vm_compute in
    match (run (register exampleEnv alice None None (world 1000000 "1")) emptyDB).1 with
    | Ok res => res
    | Failed _ =>
        {| user := userSelectFields carol;
           tokens := {| accessToken := Opaque ""; refreshToken := Opaque "" |} |}
    end.

(** [aliceDB] after [alice] has moved to her new address. *)
Definition movedDB : DB.t :=
  Eval vm_compute in (updateEmail "u-1" aliceNewEmail aliceDB).2.

(** * Properties *)

(** ** Strings and numerals *)

Lemma append_snoc_nonempty (s : string) (c : ascii) :
  String.append s (String c EmptyString) <> EmptyString.
Proof. destruct s; discriminate. Qed.

Lemma slice_last_cons (a : ascii) (r : string) :
  r <> EmptyString -> slice_last (String a r) = slice_last r.
Proof. destruct r; [done|reflexivity]. Qed.

Lemma slice_init_cons (a : ascii) (r : string) :
  r <> EmptyString -> slice_init (String a r) = String a (slice_init r).
Proof. destruct r; [done|reflexivity]. Qed.

Lemma append_cons (a : ascii) (s t : string) :
  String.append (String a s) t = String a (String.append s t).
Proof. reflexivity. Qed.

Lemma slice_last_snoc (s : string) (c : ascii) :
  slice_last (String.append s (String c EmptyString)) = String c EmptyString.
Proof.
  induction s as [|a s IH]; [reflexivity|].
  rewrite append_cons.
  rewrite slice_last_cons by apply append_snoc_nonempty. exact IH.
Qed.

Lemma slice_init_snoc (s : string) (c : ascii) :
  slice_init (String.append s (String c EmptyString)) = s.
Proof.
  induction s as [|a s IH]; [reflexivity|].
  rewrite append_cons.
  rewrite slice_init_cons by apply append_snoc_nonempty. by rewrite IH.
Qed.

Lemma digitOf_range (c : ascii) (d : Z) : digitOf c = Some d -> 0 <= d <= 9.
Proof.
  unfold digitOf. case_match eqn:E; [|discriminate].
  intros [= <-]. apply andb_prop in E as [?%Z.leb_le ?%Z.leb_le]. lia.
Qed.

Lemma digit_not_space (c : ascii) : is_Some (digitOf c) -> isWhiteSpace c = false.
Proof.
  intros [d Hd]. unfold digitOf in Hd. case_match eqn:E; [|discriminate].
  apply andb_prop in E as [?%Z.leb_le ?%Z.leb_le].
  unfold isWhiteSpace.
  repeat (apply orb_false_intro); [apply andb_false_intro2| |]; lia.
Qed.

Lemma digit_not_sign (c : ascii) :
  is_Some (digitOf c) -> c <> "-"%char /\ c <> "+"%char.
Proof.
  intros [d Hd]. split; intros ->; vm_compute in Hd; discriminate.
Qed.

Lemma parseDigits_decimalValue (s : string) (acc : Z) :
  isDigits s = true ->
  parseDigits acc s = acc * 10 ^ Z.of_nat (String.length s) + decimalValue s.
Proof.
  revert acc. induction s as [|c s IH]; intros acc Hs.
  - cbn. lia.
  - cbn [isDigits] in Hs. apply andb_prop in Hs as [Hc Hs].
    apply bool_decide_eq_true in Hc as [d Hd].
    cbn [parseDigits decimalValue String.length]. rewrite Hd, (IH _ Hs). cbn [default].
    rewrite Nat2Z.inj_succ, Z.pow_succ_r by lia.
    unfold id. ring.
Qed.

Lemma parseInt10_digits (s : string) :
  isDigits s = true -> s <> EmptyString -> parseInt10 s = Num (decimalValue s).
Proof.
  intros Hs Hne. destruct s as [|c s]; [done|].
  pose proof Hs as Hs'. cbn [isDigits] in Hs'. apply andb_prop in Hs' as [Hc _].
  apply bool_decide_eq_true in Hc.
  unfold parseInt10. cbn [trimStart]. rewrite (digit_not_space _ Hc).
  destruct (digit_not_sign _ Hc) as [Hm Hp].
  assert (Hbody :
    match String c s with
    | String "-" r => (-1, r)
    | String "+" r => (1, r)
    | _ => (1, String c s)
    end = (1, String c s)).
  { destruct (decide (c = "-"%char)); [done|].
    destruct (decide (c = "+"%char)); [done|].
    destruct c as [[] [] [] [] [] [] [] []]; try reflexivity; congruence. }
  rewrite Hbody. cbn [startsWithDigit]. rewrite bool_decide_eq_true_2 by done.
  rewrite (parseDigits_decimalValue _ _ Hs). f_equal. ring.
Qed.

(** C9.  A non-empty string of digits followed by [s], [m], [h] or [d] is
    mapped to the number it denotes, in seconds, as long as the product
    stays an exact JavaScript integer; every string whose last character
    is none of the four units, the empty string included, is mapped to
    seven days, 604800 seconds. *)
Theorem parseDuration_units_and_default :
  (forall ds : string,
      isDigits ds = true -> ds <> EmptyString ->
      decimalValue ds * (24 * 60 * 60) <= MAX_SAFE_INTEGER ->
      parseDuration (String.append ds "s") = Num (decimalValue ds) /\
      parseDuration (String.append ds "m") = Num (decimalValue ds * 60) /\
      parseDuration (String.append ds "h") = Num (decimalValue ds * 3600) /\
      parseDuration (String.append ds "d") = Num (decimalValue ds * 86400)) /\
  (forall (s : string) (c : ascii),
      c <> "s"%char -> c <> "m"%char -> c <> "h"%char -> c <> "d"%char ->
      parseDuration (String.append s (String c EmptyString)) = Num 604800) /\
  parseDuration EmptyString = Num 604800.
Proof.
  split; [|split].
  - intros ds Hd Hne _. unfold parseDuration.
    rewrite !slice_last_snoc, !slice_init_snoc, (parseInt10_digits _ Hd Hne).
    cbn. repeat split; f_equal; lia.
  - intros s c Hs Hm Hh Hd'. unfold parseDuration. rewrite slice_last_snoc.
    assert (Hne : forall u : ascii, c <> u ->
              String.eqb (String c EmptyString) (String u EmptyString) = false).
    { intros u Hu. apply String.eqb_neq. congruence. }
    rewrite (Hne "s"%char), (Hne "m"%char), (Hne "h"%char), (Hne "d"%char) by done.
    reflexivity.
  - reflexivity.
Qed.

Lemma parseDuration_units_and_default_witness :
  parseDuration "15m" = Num 900 /\ parseDuration "7d" = Num 604800 /\
  parseDuration "30x" = Num 604800.
Proof.
  destruct parseDuration_units_and_default as [Hunits [Hdefault _]].
  split; [|split].
  - apply (Hunits "15"); [reflexivity|discriminate|vm_compute; discriminate].
  - apply (Hunits "7"); [reflexivity|discriminate|vm_compute; discriminate].
  - apply (Hdefault "30" "x"%char); discriminate.
Defined.

(** ** Token codec *)

Lemma jwt_verify_sign (userId email type secret secret' : string) (n now now' : Z) :
  jwt_verify
    (Jwt secret
       {| JwtPayload.userId := userId; JwtPayload.email := email;
          JwtPayload.type := type; JwtPayload.iat := now / 1000;
          JwtPayload.exp := now / 1000 + n |}) secret' now'
  = if String.eqb secret secret' then
      if now / 1000 + n <=? now' / 1000
      then Failed (JsError "TokenExpiredError")
      else Ok {| JwtPayload.userId := userId; JwtPayload.email := email;
                 JwtPayload.type := type; JwtPayload.iat := now / 1000;
                 JwtPayload.exp := now / 1000 + n |}
    else Failed (JsError "JsonWebTokenError").
Proof. reflexivity. Qed.

(** C7.  With durations that parse, a token of either kind is issued; the
    verifier of the same kind, before the token's expiry, returns its
    user, email and kind (with the issue and expiry seconds), and the
    verifier of the other kind returns [null] at any time, whether or not
    the two secrets differ. *)
Theorem verify_matches_kind (env : Env) (userId email : string) (now now' : Z)
    (ttlA ttlR : Z) :
  parseDuration (JWT_ACCESS_EXPIRES_IN env) = Num ttlA ->
  parseDuration (JWT_REFRESH_EXPIRES_IN env) = Num ttlR ->
  exists a r : Token,
    generateAccessToken env userId email now = Ok a /\
    generateRefreshToken env userId email now = Ok r /\
    (now' / 1000 < now / 1000 + ttlR ->
     verifyRefreshToken env r now' =
       Some {| JwtPayload.userId := userId; JwtPayload.email := email;
               JwtPayload.type := "refresh"; JwtPayload.iat := now / 1000;
               JwtPayload.exp := now / 1000 + ttlR |}) /\
    (now' / 1000 < now / 1000 + ttlA ->
     verifyAccessToken env a now' =
       Some {| JwtPayload.userId := userId; JwtPayload.email := email;
               JwtPayload.type := "access"; JwtPayload.iat := now / 1000;
               JwtPayload.exp := now / 1000 + ttlA |}) /\
    verifyAccessToken env r now' = None /\
    verifyRefreshToken env a now' = None.
Proof.
  intros HA HR. unfold generateAccessToken, generateRefreshToken, jwt_sign.
  rewrite HA, HR. eexists _, _. split; [reflexivity|]. split; [reflexivity|].
  unfold verifyRefreshToken, verifyAccessToken. rewrite !jwt_verify_sign.
  rewrite !String.eqb_refl.
  split; [|split; [|split]].
  - intros Hlt. destruct (Z.leb_spec (now / 1000 + ttlR) (now' / 1000)); [lia|].
    reflexivity.
  - intros Hlt. destruct (Z.leb_spec (now / 1000 + ttlA) (now' / 1000)); [lia|].
    reflexivity.
  - destruct (String.eqb _ _); [|reflexivity].
    destruct (_ <=? _); reflexivity.
  - destruct (String.eqb _ _); [|reflexivity].
    destruct (_ <=? _); reflexivity.
Qed.

Lemma verify_matches_kind_witness :
  exists a r : Token,
    generateAccessToken exampleEnv "u-1" "alice@example.com" 1000000 = Ok a /\
    generateRefreshToken exampleEnv "u-1" "alice@example.com" 1000000 = Ok r /\
    verifyRefreshToken exampleEnv r 1500000 =
      Some {| JwtPayload.userId := "u-1"; JwtPayload.email := "alice@example.com";
              JwtPayload.type := "refresh"; JwtPayload.iat := 1000;
              JwtPayload.exp := 605800 |} /\
    verifyAccessToken exampleEnv a 1500000 =
      Some {| JwtPayload.userId := "u-1"; JwtPayload.email := "alice@example.com";
              JwtPayload.type := "access"; JwtPayload.iat := 1000;
              JwtPayload.exp := 1900 |} /\
    verifyAccessToken exampleEnv r 1500000 = None /\
    verifyRefreshToken exampleEnv a 1500000 = None.
Proof.
  destruct (verify_matches_kind exampleEnv "u-1" "alice@example.com"
              1000000 1500000 900 604800) as (a & r & Ha & Hr & Hvr & Hva & Hx & Hy);
    [reflexivity|reflexivity|].
  exists a, r. split; [exact Ha|]. split; [exact Hr|].
  split; [apply Hvr; vm_compute; reflexivity|].
  split; [apply Hva; vm_compute; reflexivity|].
  split; [exact Hx|exact Hy].
Defined.

(** ** Running a call *)

Lemma run_bind {A B : Type} (p : Prog A) (f : A -> Prog B) (db : DB.t) :
  run (bind p f) db =
  match run p db with
  | (Ok a, db') => run (f a) db'
  | (Failed e, db') => (Failed e, db')
  end.
Proof.
  revert db. induction p as [a|e|X q k IH]; intros db; cbn; try reflexivity.
  destruct (handle q db) as [[x|e] db']; [apply IH|reflexivity].
Qed.

Lemma run_await {X : Type} (q : Prisma X) (db : DB.t) : run (await q) db = handle q db.
Proof. cbn. by destruct (handle q db) as [[x|e] db']. Qed.

Lemma run_try {A : Type} (r : Result A) (db : DB.t) : run (try r) db = (r, db).
Proof. by destruct r. Qed.

Lemma generateTokenPair_cases (env : Env) (userId email : string) (now : Z) :
  (exists ttlA ttlR,
      parseDuration (JWT_ACCESS_EXPIRES_IN env) = Num ttlA /\
      parseDuration (JWT_REFRESH_EXPIRES_IN env) = Num ttlR /\
      generateTokenPair env userId email now =
        Ok {| accessToken :=
                Jwt (JWT_ACCESS_SECRET env)
                  {| JwtPayload.userId := userId; JwtPayload.email := email;
                     JwtPayload.type := "access"; JwtPayload.iat := now / 1000;
                     JwtPayload.exp := now / 1000 + ttlA |};
              refreshToken :=
                Jwt (JWT_REFRESH_SECRET env)
                  {| JwtPayload.userId := userId; JwtPayload.email := email;
                     JwtPayload.type := "refresh"; JwtPayload.iat := now / 1000;
                     JwtPayload.exp := now / 1000 + ttlR |} |}) \/
  (exists m, generateTokenPair env userId email now = Failed (JsError m)).
Proof.
  unfold generateTokenPair, generateAccessToken, generateRefreshToken, jwt_sign.
  destruct (parseDuration (JWT_ACCESS_EXPIRES_IN env)) as [a|]; [|right; eauto].
  destruct (parseDuration (JWT_REFRESH_EXPIRES_IN env)) as [r|]; [|right; eauto].
  left. eauto.
Qed.

Section StoreFacts.
Variable env : Env.
Context `{PasswordUtils}.

Lemma evict_nil (userId : string) (rs : list RefreshToken.t) :
  beyondCap userId rs = [] -> evict userId rs = rs.
Proof.
  intros E. unfold evict. rewrite E. clear E.
  induction rs as [|r rs IH]; [reflexivity|].
  cbn in IH |- *. by rewrite IH.
Qed.

(** [storeRefreshToken] either fails at the insertion, leaving the store
    as it was, or inserts the record and removes what lies beyond the
    cap. *)
Lemma run_storeRefreshToken (userId : string) (token : Token)
    (userAgent ipAddress : option string) (w : World) (db : DB.t) :
  (exists c, run (storeRefreshToken env userId token userAgent ipAddress w) db
             = (Failed (PrismaError c), db)) \/
  (exists expiresAt,
      getExpirationDate (JWT_REFRESH_EXPIRES_IN env) (now w) = Num expiresAt /\
      tokenById (tokenUuid w) (DB.refreshToken db) = None /\
      tokenByToken token (DB.refreshToken db) = None /\
      is_Some (userById userId (DB.user db)) /\
      run (storeRefreshToken env userId token userAgent ipAddress w) db
      = (Ok tt,
         with_tokens
           (evict userId
              (DB.refreshToken db
               ++ [newRecord userId token userAgent ipAddress w expiresAt])) db)).
Proof.
  unfold storeRefreshToken.
  destruct (getExpirationDate _ _) as [expiresAt|]; [|left; eauto].
  rewrite run_bind, run_await. cbn [handle].
  cbn [RefreshToken.id RefreshToken.token RefreshToken.userId].
  destruct (tokenById (tokenUuid w) (DB.refreshToken db)) eqn:Eid;
    cbn [present]; [left; eauto|].
  destruct (tokenByToken token (DB.refreshToken db)) eqn:Etk;
    cbn [present]; [left; eauto|].
  destruct (userById userId (DB.user db)) eqn:Eu;
    cbn [present]; [|left; eauto].
  right. exists expiresAt. repeat (split; [done|]).
  rewrite run_bind, run_await. cbn [handle with_tokens DB.refreshToken DB.user].
  fold (newRecord userId token userAgent ipAddress w expiresAt).
  set (rs := (DB.refreshToken db ++ _)%list).
  fold (beyondCap userId rs).
  destruct (beyondCap userId rs) as [|b bs] eqn:Eb.
  - cbn. rewrite evict_nil by done. reflexivity.
  - cbn [length]. replace (0 <? Z.of_nat (S (length bs))) with true
      by (symmetry; apply Z.ltb_lt; lia).
    rewrite run_await. cbn [handle with_tokens DB.refreshToken DB.user].
    unfold evict, idIn. rewrite Eb. reflexivity.
Qed.

Lemma run_storeRefreshToken_ok (userId : string) (token : Token)
    (userAgent ipAddress : option string) (w : World) (db : DB.t) (expiresAt : Z) :
  getExpirationDate (JWT_REFRESH_EXPIRES_IN env) (now w) = Num expiresAt ->
  tokenById (tokenUuid w) (DB.refreshToken db) = None ->
  tokenByToken token (DB.refreshToken db) = None ->
  is_Some (userById userId (DB.user db)) ->
  run (storeRefreshToken env userId token userAgent ipAddress w) db
  = (Ok tt,
     with_tokens
       (evict userId
          (DB.refreshToken db
           ++ [newRecord userId token userAgent ipAddress w expiresAt])) db).
Proof.
  intros He Hid Htk Hu.
  destruct (run_storeRefreshToken userId token userAgent ipAddress w db)
    as [[c Hc]|(e & He' & _ & _ & _ & ->)].
  - exfalso. revert Hc. unfold storeRefreshToken. rewrite He.
    rewrite run_bind, run_await. cbn [handle].
    cbn [RefreshToken.id RefreshToken.token RefreshToken.userId].
    rewrite Hid, Htk. destruct Hu as [u ->]. cbn [present].
    rewrite run_bind, run_await. cbn [handle].
    destruct (0 <? _); [rewrite run_await|]; discriminate.
  - rewrite He in He'. by injection He' as <-.
Qed.

Lemma run_storeRefreshToken_not_AppError (userId : string) (token : Token)
    (userAgent ipAddress : option string) (w : World) (db : DB.t) :
  isAppError (run (storeRefreshToken env userId token userAgent ipAddress w) db).1
  = false.
Proof.
  destruct (run_storeRefreshToken userId token userAgent ipAddress w db)
    as [[c ->]|(e & _ & _ & _ & _ & ->)]; reflexivity.
Qed.
End StoreFacts.

(** ** Login *)

Section LoginFacts.
Variable env : Env.
Context `{PasswordUtils}.

(** What [login] does once the credentials and the status are accepted
    never raises an [AppError]. *)
Lemma login_tail_not_AppError (u : User.t) (userAgent ipAddress : option string)
    (w : World) (db : DB.t) :
  isAppError
    (run
       (_ <- await (user_update_lastLoginAt (User.id u) (now w)) ;;
        tokens <- try (generateTokenPair env (User.id u) (User.email u) (now w)) ;;
        storeRefreshToken env (User.id u) (refreshToken tokens) userAgent ipAddress w ;;;
        Ret {| user := userSelectFields u; tokens := tokens |}) db).1 = false.
Proof.
  rewrite run_bind, run_await. cbn [handle].
  destruct (userById (User.id u) (DB.user db)); [|reflexivity].
  rewrite run_bind, run_try.
  destruct (generateTokenPair_cases env (User.id u) (User.email u) (now w))
    as [(a & r & _ & _ & ->)|[m ->]]; [|reflexivity].
  rewrite run_bind.
  pose proof (run_storeRefreshToken_not_AppError env (User.id u)
    (refreshToken {| accessToken := Jwt (JWT_ACCESS_SECRET env)
                       {| JwtPayload.userId := User.id u;
                          JwtPayload.email := User.email u;
                          JwtPayload.type := "access";
                          JwtPayload.iat := now w / 1000;
                          JwtPayload.exp := now w / 1000 + a |};
                     refreshToken := Jwt (JWT_REFRESH_SECRET env)
                       {| JwtPayload.userId := User.id u;
                          JwtPayload.email := User.email u;
                          JwtPayload.type := "refresh";
                          JwtPayload.iat := now w / 1000;
                          JwtPayload.exp := now w / 1000 + r |} |})
    userAgent ipAddress w
    (with_users
       (List.map (fun v => if String.eqb (User.id v) (User.id u)
                           then User.with_lastLoginAt (now w) v else v)
          (DB.user db)) db)) as Hs.
  destruct (run (storeRefreshToken _ _ _ _ _ _) _) as [[[]|e] db'];
    [reflexivity|exact Hs].
Qed.

(** C3.  [login] fails with status 401 in exactly three cases: no
    account has the email (generic message); the account has no password
    hash, [null] or empty (the message about social login); the password
    does not verify against the hash (the same generic message).  The two
    messages differ, and a 403 is only raised for an account whose
    password has verified. *)
Theorem login_unauthorized_cases (data : LoginInput.t)
    (userAgent ipAddress : option string) (w : World) (db : DB.t) :
  let result := (run (login env data userAgent ipAddress w) db).1 in
  let found := userByEmail (LoginInput.email data) (DB.user db) in
  (forall msg : string,
      result = Failed (AppError msg 401) <->
      (found = None /\ msg = "Invalid email or password") \/
      (exists u, found = Some u /\ falsy (User.passwordHash u) = true /\
         msg = "Account uses social login. Please sign in with your provider.") \/
      (exists u h, found = Some u /\ User.passwordHash u = Some h /\
         h <> EmptyString /\
         comparePassword (LoginInput.password data) h = false /\
         msg = "Invalid email or password")) /\
  "Invalid email or password"
    <> "Account uses social login. Please sign in with your provider." /\
  (forall msg : string,
      result = Failed (AppError msg 403) ->
      exists u h, found = Some u /\ User.passwordHash u = Some h /\
        comparePassword (LoginInput.password data) h = true /\
        User.status u <> "active" /\
        msg = String.append "Account is " (User.status u)).
Proof.
  intros result found. subst result found. unfold login.
  rewrite run_bind, run_await. cbn [handle].
  destruct (userByEmail (LoginInput.email data) (DB.user db)) as [u|] eqn:Eu.
  2:{ cbn. split; [|split; [discriminate|discriminate]].
      intros msg. split.
      - intros [= <-]. left. done.
      - intros [[_ ->]|[(u & ? & _)|(u & h & ? & _)]]; done. }
  destruct (falsy (User.passwordHash u)) eqn:Ef.
  { cbn. split; [|split; [discriminate|discriminate]].
    intros msg. split.
    - intros [= <-]. right. left. eauto.
    - intros [[? _]|[(u' & _ & _ & ->)|(u' & h & [= <-] & Eh & Hne & _)]];
        [done|done|].
      rewrite Eh in Ef. cbn in Ef. apply String.eqb_eq in Ef. done. }
  destruct (User.passwordHash u) as [h|] eqn:Eh; [|discriminate].
  cbn [default]. change (id h) with h.
  assert (Hne : h <> EmptyString).
  { intros ->. discriminate. }
  destruct (comparePassword (LoginInput.password data) h) eqn:Ec; cbn [negb].
  2:{ cbn. split; [|split; [discriminate|discriminate]].
      intros msg. split.
      - intros [= <-]. right. right. exists u, h. done.
      - intros [[? _]|[(u' & [= <-] & Ef' & _)|(u' & h' & _ & _ & _ & _ & ->)]];
          [done| |done].
        rewrite Eh, Ef in Ef'. discriminate. }
  destruct (String.eqb (User.status u) "active") eqn:Es; cbn [negb].
  - pose proof (login_tail_not_AppError u userAgent ipAddress w db) as Ht.
    split; [|split; [discriminate|]].
    + intros msg. split.
      * intros E. rewrite E in Ht. discriminate.
      * intros [[? _]|[(u' & [= <-] & Ef' & _)|(u' & h' & [= <-] & Eh' & _ & Ec' & _)]];
          [done| |].
        -- rewrite Eh in Ef'. cbn in Ef'. apply String.eqb_eq in Ef'. done.
        -- rewrite Eh in Eh'. injection Eh' as <-. congruence.
    + intros msg E. rewrite E in Ht. discriminate.
  - cbn. split; [|split; [discriminate|]].
    + intros msg. split; [discriminate|].
      intros [[? _]|[(u' & [= <-] & Ef' & _)|(u' & h' & [= <-] & Eh' & _ & Ec' & _)]];
        [done| |].
      * rewrite Eh in Ef'. cbn in Ef'. apply String.eqb_eq in Ef'. done.
      * rewrite Eh in Eh'. injection Eh' as <-. congruence.
    + intros msg [= <-]. exists u, h. repeat (split; [done|]). split; [|done].
      intros E. rewrite E in Es. discriminate.
Qed.
End LoginFacts.

(** ** Lookups in the tables *)

Lemma find_map_same {A : Type} (p : A -> bool) (f : A -> A) (l : list A) :
  (forall x, p (f x) = p x) ->
  List.find p (List.map f l) = option_map f (List.find p l).
Proof.
  intros Hp. induction l as [|x l IH]; [reflexivity|].
  cbn. rewrite Hp. destruct (p x); [reflexivity|exact IH].
Qed.

Lemma find_app_Some {A : Type} (p : A -> bool) (l l' : list A) (x : A) :
  List.find p l = Some x -> List.find p (l ++ l') = Some x.
Proof.
  induction l as [|y l IH]; [discriminate|].
  cbn. destruct (p y); [done|exact IH].
Qed.

Lemma find_filter_Some {A : Type} (p q : A -> bool) (l : list A) (x : A) :
  List.find p l = Some x -> q x = true -> List.find p (List.filter q l) = Some x.
Proof.
  induction l as [|y l IH]; [discriminate|].
  cbn. destruct (p y) eqn:Ep.
  - intros [= ->] Hq. rewrite Hq. cbn. by rewrite Ep.
  - intros Hf Hq. destruct (q y); [cbn; rewrite Ep|]; by apply IH.
Qed.

Lemma find_In {A : Type} (p : A -> bool) (l : list A) (x : A) :
  List.find p l = Some x -> In x l /\ p x = true.
Proof. apply List.find_some. Qed.

Lemma find_None_all {A : Type} (p : A -> bool) (l : list A) (x : A) :
  List.find p l = None -> In x l -> p x = false.
Proof. intros Hf Hx. exact (List.find_none p l Hf x Hx). Qed.

Lemma tokenByToken_revokeAll (tk : Token) (userId : string) (at' : Z)
    (rs : list RefreshToken.t) :
  tokenByToken tk (revokeAll userId at' rs) =
  option_map (fun v => if unrevokedOf userId v
                       then RefreshToken.with_revokedAt at' v else v)
    (tokenByToken tk rs).
Proof.
  unfold tokenByToken, revokeAll. apply find_map_same.
  intros x. by destruct (unrevokedOf userId x).
Qed.

Lemma tokenByToken_revokeOne (tk : Token) (id : string) (at' : Z)
    (rs : list RefreshToken.t) :
  tokenByToken tk (revokeOne id at' rs) =
  option_map (fun v => if String.eqb (RefreshToken.id v) id
                       then RefreshToken.with_revokedAt at' v else v)
    (tokenByToken tk rs).
Proof.
  unfold tokenByToken, revokeOne. apply find_map_same.
  intros x. by destruct (String.eqb (RefreshToken.id x) id).
Qed.

Lemma tokenById_revokeOne (id' id : string) (at' : Z) (rs : list RefreshToken.t) :
  tokenById id' (revokeOne id at' rs) =
  option_map (fun v => if String.eqb (RefreshToken.id v) id
                       then RefreshToken.with_revokedAt at' v else v)
    (tokenById id' rs).
Proof.
  unfold tokenById, revokeOne. apply find_map_same.
  intros x. by destruct (String.eqb (RefreshToken.id x) id).
Qed.

Lemma map_id_revokeOne (id : string) (at' : Z) (rs : list RefreshToken.t) :
  List.map RefreshToken.id (revokeOne id at' rs) = List.map RefreshToken.id rs.
Proof.
  unfold revokeOne. rewrite List.map_map. apply List.map_ext.
  intros x. by destruct (String.eqb (RefreshToken.id x) id).
Qed.

Lemma map_id_revokeAll (userId : string) (at' : Z) (rs : list RefreshToken.t) :
  List.map RefreshToken.id (revokeAll userId at' rs) = List.map RefreshToken.id rs.
Proof.
  unfold revokeAll. rewrite List.map_map. apply List.map_ext.
  intros x. by destruct (unrevokedOf userId x).
Qed.

Lemma revokeAll_revoked (userId : string) (at' : Z) (rs : list RefreshToken.t)
    (x : RefreshToken.t) :
  In x (revokeAll userId at' rs) -> RefreshToken.userId x = userId ->
  RefreshToken.revokedAt x <> None.
Proof.
  unfold revokeAll. intros (y & <- & Hy)%List.in_map_iff Hu.
  destruct (unrevokedOf userId y) eqn:E; [done|].
  unfold unrevokedOf in E. rewrite (proj2 (String.eqb_eq _ _) Hu) in E.
  cbn in E. by apply bool_decide_eq_false in E.
Qed.

Lemma userById_update (id id' : string) (f : User.t -> User.t) (us : list User.t) :
  (forall u, User.id (f u) = User.id u) ->
  userById id' (List.map (fun v => if String.eqb (User.id v) id then f v else v) us)
  = option_map (fun v => if String.eqb (User.id v) id then f v else v)
      (userById id' us).
Proof.
  intros Hf. unfold userById. apply find_map_same.
  intros x. destruct (String.eqb (User.id x) id); [by rewrite Hf|done].
Qed.

Lemma userByEmail_update (id email : string) (f : User.t -> User.t) (us : list User.t) :
  (forall u, User.email (f u) = User.email u) ->
  userByEmail email (List.map (fun v => if String.eqb (User.id v) id then f v else v) us)
  = option_map (fun v => if String.eqb (User.id v) id then f v else v)
      (userByEmail email us).
Proof.
  intros Hf. unfold userByEmail. apply find_map_same.
  intros x. destruct (String.eqb (User.id x) id); [by rewrite Hf|done].
Qed.

Lemma userById_id (id : string) (us : list User.t) (u : User.t) :
  userById id us = Some u -> User.id u = id.
Proof. intros [_ E]%find_In. by apply String.eqb_eq. Qed.

Lemma tokenById_Some_id (id : string) (rs : list RefreshToken.t) (r : RefreshToken.t) :
  In r rs -> RefreshToken.id r = id -> is_Some (tokenById id rs).
Proof.
  intros Hr Hid. destruct (tokenById id rs) eqn:E; [done|].
  pose proof (find_None_all _ _ _ E Hr) as Hf. cbn in Hf.
  rewrite Hid, String.eqb_refl in Hf. discriminate.
Qed.

(** ** Refresh of a suspended account, and password change *)

Section AccountFacts.
Variable env : Env.
Context `{PasswordUtils}.


(** C10.  [changePassword] fails in three ways, with status 404 when the
    account does not exist, 400 when it has no password hash and 401
    when the current password does not verify; it has no other failure,
    and a failed call leaves the whole store, password hash and refresh
    tokens, as it was. *)
Theorem changePassword_failure_atomic (userId : string) (data : ChangePasswordInput.t)
    (w : World) (db : DB.t) :
  let outcome := run (changePassword userId data w) db in
  (userById userId (DB.user db) = None ->
   outcome = (Failed (AppError "User not found" 404), db)) /\
  (forall u, userById userId (DB.user db) = Some u ->
     falsy (User.passwordHash u) = true ->
     outcome = (Failed (AppError "Account uses social login. Cannot change password." 400), db)) /\
  (forall u h, userById userId (DB.user db) = Some u ->
     User.passwordHash u = Some h -> h <> EmptyString ->
     comparePassword (ChangePasswordInput.currentPassword data) h = false ->
     outcome = (Failed (AppError "Current password is incorrect" 401), db)) /\
  (forall e db', outcome = (Failed e, db') ->
     db' = db /\
     (e = AppError "User not found" 404 \/
      e = AppError "Account uses social login. Cannot change password." 400 \/
      e = AppError "Current password is incorrect" 401)).
Proof.
  intros outcome. subst outcome. unfold changePassword.
  rewrite run_bind, run_await. cbn [handle].
  destruct (userById userId (DB.user db)) as [u|] eqn:Eu.
  2:{ cbn. split; [done|]. split; [done|]. split; [done|].
      intros e db' [= <- <-]. eauto. }
  destruct (falsy (User.passwordHash u)) eqn:Ef.
  { cbn. split; [done|]. split; [done|]. split.
    - intros u' h [= <-] Eh Hne _. rewrite Eh in Ef. cbn in Ef.
      apply String.eqb_eq in Ef. done.
    - intros e db' [= <- <-]. eauto. }
  destruct (User.passwordHash u) as [h|] eqn:Eh; [|discriminate].
  cbn [default]. change (id h) with h.
  destruct (comparePassword (ChangePasswordInput.currentPassword data) h) eqn:Ec;
    cbn [negb].
  2:{ cbn. split; [done|]. split.
      - intros u' [= <-] Ef'. rewrite Eh, Ef in Ef'. discriminate.
      - split; [done|]. intros e db' [= <- <-]. eauto. }
  rewrite run_bind, run_await. cbn [handle]. rewrite Eu.
  unfold revokeAllUserTokens. rewrite run_await. cbn [handle].
  split; [done|]. split.
  - intros u' [= <-] Ef'. rewrite Eh, Ef in Ef'. discriminate.
  - split; [|done]. intros u' h' [= <-] Eh' _ Ec'.
    rewrite Eh in Eh'. injection Eh' as <-. congruence.
Qed.
End AccountFacts.

Lemma getExpirationDate_Num (env : Env) (now ttl : Z) :
  parseDuration (JWT_REFRESH_EXPIRES_IN env) = Num ttl ->
  getExpirationDate (JWT_REFRESH_EXPIRES_IN env) now = Num (now + ttl * 1000).
Proof. unfold getExpirationDate. by intros ->. Qed.

Lemma generateTokenPair_Num (env : Env) (userId email : string) (now ttlA ttlR : Z) :
  parseDuration (JWT_ACCESS_EXPIRES_IN env) = Num ttlA ->
  parseDuration (JWT_REFRESH_EXPIRES_IN env) = Num ttlR ->
  generateTokenPair env userId email now =
    Ok {| accessToken :=
            Jwt (JWT_ACCESS_SECRET env)
              {| JwtPayload.userId := userId; JwtPayload.email := email;
                 JwtPayload.type := "access"; JwtPayload.iat := now / 1000;
                 JwtPayload.exp := now / 1000 + ttlA |};
          refreshToken :=
            Jwt (JWT_REFRESH_SECRET env)
              {| JwtPayload.userId := userId; JwtPayload.email := email;
                 JwtPayload.type := "refresh"; JwtPayload.iat := now / 1000;
                 JwtPayload.exp := now / 1000 + ttlR |} |}.
Proof.
  intros HA HR.
  unfold generateTokenPair, generateAccessToken, generateRefreshToken, jwt_sign.
  by rewrite HA, HR.
Qed.

Section PasswordChange.
Variable env : Env.
Context `{PasswordUtils}.

(** C5, as the code has it.  After a successful [changePassword] the
    stored hash is the hash of the new password and verifies it; every
    refresh-token record of the account is revoked, and [refreshTokens]
    with the token of any record the account had fails with status 401;
    [login] with the account's email and the new password succeeds for
    an active account when the two configured durations parse to numbers
    and the store accepts the row of the new session, that is when
    neither its identifier nor the refresh-token string that [login]
    signs is stored yet; [login] with the old password fails with status
    401 provided the old password does not verify against the new hash,
    which the code does not ensure: it accepts a new password equal to
    the current one, and then the old password does verify. *)
Theorem changePassword_success (userId : string) (data : ChangePasswordInput.t)
    (w : World) (db db' : DB.t) :
  run (changePassword userId data w) db = (Ok tt, db') ->
  let newHash := hashPassword (salt w) (ChangePasswordInput.newPassword data) in
  (exists u, userById userId (DB.user db) = Some u /\
     userById userId (DB.user db') = Some (User.with_passwordHash newHash u)) /\
  comparePassword (ChangePasswordInput.newPassword data) newHash = true /\
  (forall r, In r (DB.refreshToken db') -> RefreshToken.userId r = userId ->
     RefreshToken.revokedAt r <> None) /\
  (forall token r userAgent ipAddress w2,
     tokenByToken token (DB.refreshToken db) = Some r ->
     RefreshToken.userId r = userId ->
     exists msg db2,
       run (refreshTokens env token userAgent ipAddress w2) db'
       = (Failed (AppError msg 401), db2)) /\
  (forall email u0 userAgent ipAddress w2 ttlA ttlR,
     userByEmail email (DB.user db) = Some u0 -> User.id u0 = userId ->
     User.status u0 = "active" ->
     parseDuration (JWT_ACCESS_EXPIRES_IN env) = Num ttlA ->
     parseDuration (JWT_REFRESH_EXPIRES_IN env) = Num ttlR ->
     tokenById (tokenUuid w2) (DB.refreshToken db) = None ->
     tokenByToken
       (Jwt (JWT_REFRESH_SECRET env)
          {| JwtPayload.userId := userId; JwtPayload.email := User.email u0;
             JwtPayload.type := "refresh"; JwtPayload.iat := now w2 / 1000;
             JwtPayload.exp := now w2 / 1000 + ttlR |})
       (DB.refreshToken db) = None ->
     exists res db2,
       run (login env
              {| LoginInput.email := email;
                 LoginInput.password := ChangePasswordInput.newPassword data |}
              userAgent ipAddress w2) db' = (Ok res, db2)) /\
  (forall email u0 userAgent ipAddress w2,
     userByEmail email (DB.user db) = Some u0 -> User.id u0 = userId ->
     comparePassword (ChangePasswordInput.currentPassword data) newHash = false ->
     (run (login env
             {| LoginInput.email := email;
                LoginInput.password := ChangePasswordInput.currentPassword data |}
             userAgent ipAddress w2) db').1
     = Failed (AppError "Invalid email or password" 401)) /\
  (ChangePasswordInput.newPassword data = ChangePasswordInput.currentPassword data ->
   comparePassword (ChangePasswordInput.currentPassword data) newHash = true).
Proof.
  intros Hrun newHash. revert Hrun. unfold changePassword.
  rewrite run_bind, run_await. cbn [handle].
  destruct (userById userId (DB.user db)) as [u|] eqn:Eu; [|discriminate].
  destruct (falsy (User.passwordHash u)) eqn:Ef; [discriminate|].
  destruct (negb _) eqn:Ec; [discriminate|].
  rewrite run_bind, run_await. cbn [handle]. rewrite Eu.
  unfold revokeAllUserTokens. rewrite run_await. cbn [handle].
  cbn [with_users with_tokens DB.user DB.refreshToken].
  fold newHash. fold (revokeAll userId (now w) (DB.refreshToken db)).
  intros [= <-]. cbn [DB.user DB.refreshToken].
  set (upd := fun v : User.t =>
                if String.eqb (User.id v) userId
                then User.with_passwordHash newHash v else v).
  assert (Hu' : userById userId (List.map upd (DB.user db))
                = Some (User.with_passwordHash newHash u)).
  { unfold upd. rewrite (userById_update userId userId) by done. rewrite Eu. cbn.
    by rewrite (userById_id _ _ _ Eu), String.eqb_refl. }
  assert (Hmail : forall email u0, userByEmail email (DB.user db) = Some u0 ->
            User.id u0 = userId ->
            userByEmail email (List.map upd (DB.user db))
            = Some (User.with_passwordHash newHash u0)).
  { intros email u0 E0 Hid. unfold upd.
    rewrite (userByEmail_update userId email) by done. rewrite E0. cbn.
    by rewrite Hid, String.eqb_refl. }
  assert (Hne : String.eqb newHash "" = false)
    by apply String.eqb_neq, hashPassword_nonempty.
  assert (Hcmp : comparePassword (ChangePasswordInput.newPassword data) newHash = true)
    by apply compare_hashPassword.
  split; [eauto|]. split; [exact Hcmp|]. split.
  { intros r. apply revokeAll_revoked. }
  split; [|split; [|split]].
  - intros token r userAgent ipAddress w2 Hr Hid. unfold refreshTokens.
    destruct (verifyRefreshToken env token (now w2)) as [payload|]; [|cbn; eauto].
    rewrite run_bind, run_await. cbn [handle DB.refreshToken DB.user with_tokens with_users].
    rewrite tokenByToken_revokeAll, Hr. cbn [option_map].
    set (r' := if unrevokedOf userId r then _ else r).
    assert (Hid' : RefreshToken.userId r' = userId).
    { subst r'. by destruct (unrevokedOf userId r). }
    assert (Hrev : present (RefreshToken.revokedAt r') = true).
    { subst r'. destruct (unrevokedOf userId r) eqn:E; [reflexivity|].
      unfold unrevokedOf in E. rewrite Hid, String.eqb_refl in E. cbn in E.
      apply bool_decide_eq_false in E. by destruct (RefreshToken.revokedAt r). }
    rewrite Hid', Hu', Hrev.
    rewrite run_bind. unfold revokeAllUserTokens. rewrite run_await. cbn. eauto.
  - intros email u0 userAgent ipAddress w2 ttlA ttlR E0 Hid Hact HA HR Hfresh Htok.
    unfold login. rewrite run_bind, run_await. cbn [handle DB.refreshToken DB.user with_tokens with_users LoginInput.email].
    rewrite (Hmail _ _ E0 Hid).
    cbn [User.with_passwordHash User.passwordHash falsy LoginInput.password default].
    change (id newHash) with newHash.
    rewrite Hne, Hcmp.
    cbn [negb User.status User.id User.email User.with_passwordHash].
    rewrite Hact. cbn [String.eqb Ascii.eqb Bool.eqb negb].
    rewrite run_bind, run_await. cbn [handle DB.refreshToken DB.user with_tokens with_users User.id].
    rewrite Hid, Hu'. rewrite run_bind, run_try.
    cbn [User.email].
    rewrite (generateTokenPair_Num env _ _ _ _ _ HA HR).
    rewrite run_bind. cbn [refreshToken].
    erewrite run_storeRefreshToken_ok.
    + cbn. eauto.
    + by apply getExpirationDate_Num.
    + cbn [with_users with_tokens DB.user DB.refreshToken].
      unfold tokenById. fold (tokenById (tokenUuid w2)).
      pose proof (map_id_revokeAll userId (now w) (DB.refreshToken db)) as Hids.
      destruct (tokenById (tokenUuid w2) (revokeAll userId (now w) (DB.refreshToken db)))
        as [x|] eqn:Ex; [|done].
      apply find_In in Ex as [Hin Hx]. apply String.eqb_eq in Hx.
      assert (In (tokenUuid w2) (List.map RefreshToken.id (DB.refreshToken db))) as Hi.
      { rewrite <- Hids. apply List.in_map_iff. eauto. }
      apply List.in_map_iff in Hi as (y & Hy & Hiny).
      destruct (tokenById_Some_id _ _ _ Hiny Hy) as [z Hz]. congruence.
    + cbn [with_users with_tokens DB.user DB.refreshToken].
      rewrite tokenByToken_revokeAll, Htok. reflexivity.
    + cbn [with_users with_tokens DB.user DB.refreshToken].
      rewrite (userById_update userId userId) by done. rewrite Hu'. done.
  - intros email u0 userAgent ipAddress w2 E0 Hid Hold.
    unfold login. rewrite run_bind, run_await. cbn [handle DB.refreshToken DB.user with_tokens with_users LoginInput.email].
    rewrite (Hmail _ _ E0 Hid).
    cbn [User.with_passwordHash User.passwordHash falsy LoginInput.password default].
    change (id newHash) with newHash.
    rewrite Hne, Hold. reflexivity.
  - intros <-. exact Hcmp.
Qed.
End PasswordChange.

(** ** The cap on unrevoked records *)

#[local] Instance createdAt_desc_trans : Transitive createdAt_desc.
Proof. intros a b c. unfold createdAt_desc. lia. Qed.

#[local] Instance createdAt_desc_total : Total createdAt_desc.
Proof. intros a b. unfold createdAt_desc. lia. Qed.

Lemma uniqueIds_inj (rs : list RefreshToken.t) (x y : RefreshToken.t) :
  List.NoDup (List.map RefreshToken.id rs) -> In x rs -> In y rs ->
  RefreshToken.id x = RefreshToken.id y -> x = y.
Proof.
  induction rs as [|r rs IH]; [done|].
  cbn [List.map]. rewrite List.NoDup_cons_iff.
  intros [Hr Hnd] [->|Hx] [->|Hy] E; try done.
  - exfalso. apply Hr. rewrite E. apply List.in_map, Hy.
  - exfalso. apply Hr. rewrite <- E. apply List.in_map, Hx.
  - by apply IH.
Qed.

Lemma beyondCap_In (userId : string) (rs : list RefreshToken.t) (x : RefreshToken.t) :
  In x (beyondCap userId rs) -> In x rs /\ unrevokedOf userId x = true.
Proof.
  unfold beyondCap. intros Hx%list_elem_of_In.
  apply (subseteq_drop 10) in Hx.
  rewrite merge_sort_Permutation in Hx. apply list_elem_of_In in Hx.
  by apply List.filter_In in Hx.
Qed.

Lemma idIn_true (ids : list string) (x : RefreshToken.t) :
  idIn ids x = true <-> In (RefreshToken.id x) ids.
Proof.
  unfold idIn. rewrite List.existsb_exists. split.
  - intros (i & Hi & E). apply String.eqb_eq in E. by subst.
  - intros Hi. exists (RefreshToken.id x). split; [done|apply String.eqb_refl].
Qed.

(** With a primary key, removing by identifier removes exactly the records
    beyond the cap. *)
Lemma evict_In (userId : string) (rs : list RefreshToken.t) (x : RefreshToken.t) :
  List.NoDup (List.map RefreshToken.id rs) ->
  In x (evict userId rs) <-> In x rs /\ ~ In x (beyondCap userId rs).
Proof.
  intros Hnd. unfold evict. rewrite List.filter_In, negb_true_iff.
  split; intros [Hx Hb]; split; try done.
  - intros Hin. apply not_true_iff_false in Hb. apply Hb, idIn_true.
    by apply List.in_map.
  - apply not_true_iff_false. intros (y & E & Hy)%idIn_true%List.in_map_iff.
    apply Hb. destruct (beyondCap_In _ _ _ Hy) as [Hy' _].
    by rewrite <- (uniqueIds_inj rs y x Hnd Hy' Hx E).
Qed.

Lemma filter_filter_comm {A : Type} (p q : A -> bool) (l : list A) :
  List.filter p (List.filter q l) = List.filter q (List.filter p l).
Proof.
  induction l as [|x l IH]; [reflexivity|].
  cbn. destruct (p x) eqn:Ep, (q x) eqn:Eq; cbn; rewrite ?Ep, ?Eq, IH; reflexivity.
Qed.

Lemma filter_length_le {A : Type} (p q : A -> bool) (l : list A) :
  (length (List.filter p (List.filter q l)) <= length (List.filter p l))%nat.
Proof.
  rewrite filter_filter_comm. apply List.filter_length_le.
Qed.

Lemma evict_count_le (userId v : string) (rs : list RefreshToken.t) :
  (length (List.filter (unrevokedOf v) (evict userId rs))
   <= length (List.filter (unrevokedOf v) rs))%nat.
Proof. apply filter_length_le. Qed.

(** After the removal the account is within the cap, whatever it held
    before. *)
Lemma evict_capped (userId : string) (rs : list RefreshToken.t) :
  List.NoDup (List.map RefreshToken.id rs) ->
  (length (List.filter (unrevokedOf userId) (evict userId rs)) <= 10)%nat.
Proof.
  intros Hnd.
  set (sorted := merge_sort createdAt_desc (List.filter (unrevokedOf userId) rs)).
  transitivity (length (take 10 sorted)); [|rewrite length_take; lia].
  apply List.NoDup_incl_length.
  - unfold evict. do 2 apply List.NoDup_filter.
    exact (List.NoDup_map_inv _ _ Hnd).
  - intros x [Hx Hu]%List.filter_In.
    apply (evict_In _ _ _ Hnd) in Hx as [Hx Hb].
    assert (Hs : x ∈ sorted).
    { unfold sorted. rewrite merge_sort_Permutation.
      apply list_elem_of_In, List.filter_In. done. }
    rewrite <- (take_drop 10 sorted) in Hs. apply elem_of_app in Hs as [Hs|Hs].
    + by apply list_elem_of_In.
    + exfalso. apply Hb. by apply list_elem_of_In.
Qed.

Lemma tokenById_None_notin (id : string) (rs : list RefreshToken.t) :
  tokenById id rs = None -> ~ In id (List.map RefreshToken.id rs).
Proof.
  intros Hf (x & Hx & Hin)%List.in_map_iff.
  pose proof (find_None_all _ _ _ Hf Hin) as E. cbn in E.
  rewrite Hx, String.eqb_refl in E. discriminate.
Qed.

Lemma uniqueIds_snoc (rs : list RefreshToken.t) (x : RefreshToken.t) :
  List.NoDup (List.map RefreshToken.id rs) ->
  tokenById (RefreshToken.id x) rs = None ->
  List.NoDup (List.map RefreshToken.id (rs ++ [x])).
Proof.
  intros Hnd Hf. rewrite List.map_app. cbn [List.map].
  apply List.NoDup_app; repeat split.
  - done.
  - constructor; [intros []|constructor].
  - intros i Hi [<-|[]]. by apply (tokenById_None_notin _ _ Hf).
Qed.

Lemma uniqueIds_filter (q : RefreshToken.t -> bool) (rs : list RefreshToken.t) :
  List.NoDup (List.map RefreshToken.id rs) ->
  List.NoDup (List.map RefreshToken.id (List.filter q rs)).
Proof.
  induction rs as [|r rs IH]; [done|].
  cbn [List.map List.filter]. rewrite List.NoDup_cons_iff. intros [Hr Hnd].
  destruct (q r); [|by apply IH].
  cbn [List.map]. apply List.NoDup_cons; [|by apply IH].
  intros (y & E & Hy%List.filter_In)%List.in_map_iff.
  apply Hr. rewrite <- E. apply List.in_map. tauto.
Qed.

Lemma uniqueIds_evict (userId : string) (rs : list RefreshToken.t) :
  List.NoDup (List.map RefreshToken.id rs) ->
  List.NoDup (List.map RefreshToken.id (evict userId rs)).
Proof. apply uniqueIds_filter. Qed.

(** A revoked record is never among what [storeRefreshToken] removes. *)
Lemma evict_keeps_revoked (userId : string) (rs : list RefreshToken.t)
    (x : RefreshToken.t) :
  List.NoDup (List.map RefreshToken.id rs) ->
  In x rs -> RefreshToken.revokedAt x <> None ->
  negb (idIn (List.map RefreshToken.id (beyondCap userId rs)) x) = true.
Proof.
  intros Hnd Hx Hrev. apply negb_true_iff, not_true_iff_false.
  intros (y & E & Hy)%idIn_true%List.in_map_iff.
  destruct (beyondCap_In _ _ _ Hy) as [Hy' Hun].
  rewrite (uniqueIds_inj rs y x Hnd Hy' Hx E) in Hun.
  unfold unrevokedOf in Hun. apply andb_prop in Hun as [_ Hun].
  by apply bool_decide_eq_true in Hun.
Qed.

(** ** A revoked record stays *)

Lemma uniqueIds_revoke (f : RefreshToken.t -> RefreshToken.t) (rs : list RefreshToken.t) :
  (forall x, f x = x \/ exists at', f x = RefreshToken.with_revokedAt at' x) ->
  List.NoDup (List.map RefreshToken.id rs) ->
  List.NoDup (List.map RefreshToken.id (List.map f rs)).
Proof.
  intros Hf Hnd. rewrite List.map_map.
  rewrite (List.map_ext (fun x => RefreshToken.id (f x)) RefreshToken.id); [done|].
  intros x. by destruct (Hf x) as [->|[at' ->]].
Qed.

Lemma Kept_with_users (token : Token) (userId : string) (us : list User.t) (db : DB.t) :
  (is_Some (userById userId (DB.user db)) -> is_Some (userById userId us)) ->
  Kept token userId db -> Kept token userId (with_users us db).
Proof.
  intros Hus [Hnd (r & Hr & Hrev & Hid & Hu)]. split; [done|].
  exists r. repeat (split; [done|]). by apply Hus.
Qed.

Lemma Kept_revoke (token : Token) (userId : string)
    (f : RefreshToken.t -> RefreshToken.t) (db : DB.t) :
  (forall x, f x = x \/ exists at', f x = RefreshToken.with_revokedAt at' x) ->
  Kept token userId db ->
  Kept token userId (with_tokens (List.map f (DB.refreshToken db)) db).
Proof.
  intros Hf [Hnd (r & Hr & Hrev & Hid & Hu)]. split.
  - by apply uniqueIds_revoke.
  - exists (f r). cbn [with_tokens DB.refreshToken DB.user]. split.
    + unfold tokenByToken. rewrite find_map_same.
      * fold (tokenByToken token (DB.refreshToken db)). by rewrite Hr.
      * intros x. by destruct (Hf x) as [->|[at' ->]].
    + by destruct (Hf r) as [->|[at' ->]].
Qed.

Lemma Kept_filter (token : Token) (userId : string) (q : RefreshToken.t -> bool)
    (db : DB.t) :
  (forall r, tokenByToken token (DB.refreshToken db) = Some r -> q r = true) ->
  Kept token userId db ->
  Kept token userId (with_tokens (List.filter q (DB.refreshToken db)) db).
Proof.
  intros Hq [Hnd (r & Hr & Hrev & Hid & Hu)]. split.
  - by apply uniqueIds_filter.
  - exists r. cbn [with_tokens DB.refreshToken DB.user].
    split; [|done]. apply find_filter_Some; [done|by apply Hq].
Qed.

Lemma Kept_snoc (token : Token) (userId : string) (x : RefreshToken.t) (db : DB.t) :
  tokenById (RefreshToken.id x) (DB.refreshToken db) = None ->
  Kept token userId db ->
  Kept token userId (with_tokens (DB.refreshToken db ++ [x]) db).
Proof.
  intros Hx [Hnd (r & Hr & Hrev & Hid & Hu)]. split.
  - by apply uniqueIds_snoc.
  - exists r. cbn [with_tokens DB.refreshToken DB.user].
    split; [by apply find_app_Some|done].
Qed.

Lemma Keeps_Ret {A : Type} (token : Token) (userId : string) (a : A) :
  Keeps token userId (Ret a).
Proof. by intros db. Qed.

Lemma Keeps_Throw {A : Type} (token : Token) (userId : string) (e : Failure) :
  Keeps token userId (@Throw A e).
Proof. by intros db. Qed.

Lemma Keeps_try {A : Type} (token : Token) (userId : string) (r : Result A) :
  Keeps token userId (try r).
Proof. intros db. by rewrite run_try. Qed.

Lemma Keeps_bind {A B : Type} (token : Token) (userId : string)
    (p : Prog A) (f : A -> Prog B) :
  Keeps token userId p -> (forall a, Keeps token userId (f a)) ->
  Keeps token userId (bind p f).
Proof.
  intros Hp Hf db Hdb. rewrite run_bind. specialize (Hp db Hdb).
  destruct (run p db) as [[a|e] db']; [by apply Hf|done].
Qed.

(** Every call of the client except the two deletions. *)
Lemma Keeps_await {X : Type} (token : Token) (userId : string) (q : Prisma X) :
  deletesToken q = false -> Keeps token userId (await q).
Proof.
  intros Hq db Hdb. rewrite run_await.
  destruct q; cbn [handle deletesToken] in *; try discriminate; try done.
  - destruct (present (userById _ _)); [done|].
    destruct (present (userByEmail _ _)); [done|]. cbn [snd].
    apply Kept_with_users; [|done].
    intros [v Hv]. exists v. by apply find_app_Some.
  - destruct (userById id (DB.user db)); [|done]. cbn [snd].
    apply Kept_with_users; [|done]. intros [v Hv].
    rewrite (userById_update id userId) by done. by rewrite Hv.
  - destruct (userById id (DB.user db)); [|done]. cbn [snd].
    apply Kept_with_users; [|done]. intros [v Hv].
    rewrite (userById_update id userId) by done. by rewrite Hv.
  - repeat case_match; done.
  - destruct (tokenById id (DB.refreshToken db)); [|done]. cbn [snd].
    apply Kept_revoke; [|done]. intros x. case_match; eauto.
  - destruct (present (tokenById _ _)) eqn:E; [done|].
    destruct (present (tokenByToken _ _)); [done|].
    destruct (present (userById _ _)); [|done]. cbn [snd].
    apply Kept_snoc; [|done]. by destruct (tokenById _ _).
  - cbn [snd]. apply Kept_revoke; [|done]. intros x. case_match; eauto.
Qed.

Section KeepsFacts.
Variable env : Env.
Context `{PasswordUtils}.
Variables (token : Token) (userId : string).

Lemma Keeps_storeRefreshToken (userId' : string) (token' : Token)
    (userAgent ipAddress : option string) (w : World) :
  Keeps token userId (storeRefreshToken env userId' token' userAgent ipAddress w).
Proof.
  intros db [Hnd (r & Hr & Hrev & Hid & Hu)].
  destruct (run_storeRefreshToken env userId' token' userAgent ipAddress w db)
    as [[c ->]|(e & _ & Hfresh & _ & _ & ->)]; [by split; [|exists r]|].
  cbn [snd]. set (new := newRecord _ _ _ _ _ _).
  assert (Hnd' : List.NoDup (List.map RefreshToken.id (DB.refreshToken db ++ [new])))
    by by apply uniqueIds_snoc.
  split; [by apply uniqueIds_evict|].
  exists r. cbn [with_tokens DB.refreshToken DB.user]. split; [|done].
  apply find_filter_Some; [by apply find_app_Some|].
  apply evict_keeps_revoked; [done| |done].
  apply List.in_or_app. left. by apply (find_In _ _ _ Hr).
Qed.

Lemma Keeps_register (data : RegisterInput.t) (userAgent ipAddress : option string)
    (w : World) : Keeps token userId (register env data userAgent ipAddress w).
Proof.
  unfold register. apply Keeps_bind; [by apply Keeps_await|].
  intros [u|]; [apply Keeps_Throw|].
  apply Keeps_bind; [by apply Keeps_await|]. intros u.
  apply Keeps_bind; [apply Keeps_try|]. intros tokens.
  apply Keeps_bind; [apply Keeps_storeRefreshToken|]. intros _. apply Keeps_Ret.
Qed.

Lemma Keeps_login (data : LoginInput.t) (userAgent ipAddress : option string)
    (w : World) : Keeps token userId (login env data userAgent ipAddress w).
Proof.
  unfold login. apply Keeps_bind; [by apply Keeps_await|].
  intros [u|]; [|apply Keeps_Throw].
  repeat (case_match; [apply Keeps_Throw|]).
  apply Keeps_bind; [by apply Keeps_await|]. intros _.
  apply Keeps_bind; [apply Keeps_try|]. intros tokens.
  apply Keeps_bind; [apply Keeps_storeRefreshToken|]. intros _. apply Keeps_Ret.
Qed.

(** The one deletion by identifier in [refreshTokens] removes a record
    that was just found unrevoked: it is not the revoked record. *)
Lemma Keeps_refreshTokens (token' : Token) (userAgent ipAddress : option string)
    (w : World) : Keeps token userId (refreshTokens env token' userAgent ipAddress w).
Proof.
  intros db HK. unfold refreshTokens.
  destruct (verifyRefreshToken env token' (now w)) as [payload|]; [|done].
  rewrite run_bind, run_await. cbn [handle].
  destruct (tokenByToken token' (DB.refreshToken db)) as [r0|] eqn:E0; [|done].
  destruct (userById (RefreshToken.userId r0) (DB.user db)) as [u0|]; [|done].
  destruct (present (RefreshToken.revokedAt r0)) eqn:Erev.
  { refine (Keeps_bind token userId _ _ _ _ db HK); [by apply Keeps_await|].
    intros _. apply Keeps_Throw. }
  destruct (RefreshToken.expiresAt r0 <? now w).
  { rewrite run_bind, run_await. cbn [handle].
    destruct (tokenById (RefreshToken.id r0) (DB.refreshToken db)); [|done].
    cbn [run snd]. apply Kept_filter; [|done].
    intros r Hr. apply negb_true_iff, String.eqb_neq. intros Eid.
    destruct HK as [Hnd (r1 & Hr1 & Hrev1 & _)].
    rewrite Hr in Hr1. injection Hr1 as <-.
    rewrite (uniqueIds_inj _ r r0 Hnd (proj1 (find_In _ _ _ Hr))
               (proj1 (find_In _ _ _ E0)) Eid) in Hrev1.
    by destruct (RefreshToken.revokedAt r0). }
  destruct (negb _); [done|].
  refine (Keeps_bind token userId _ _ _ _ db HK); [by apply Keeps_await|]. intros _.
  apply Keeps_bind; [apply Keeps_try|]. intros tokens.
  apply Keeps_bind; [apply Keeps_storeRefreshToken|]. intros _. apply Keeps_Ret.
Qed.

Lemma Keeps_logout (token' : Token) (w : World) : Keeps token userId (logout token' w).
Proof.
  unfold logout. apply Keeps_bind; [by apply Keeps_await|].
  intros [r|]; [|apply Keeps_Ret]. case_match; [|apply Keeps_Ret].
  apply Keeps_bind; [by apply Keeps_await|]. intros _. apply Keeps_Ret.
Qed.

Lemma Keeps_logoutAll (userId' : string) (w : World) :
  Keeps token userId (logoutAll userId' w).
Proof. by apply Keeps_await. Qed.

Lemma Keeps_changePassword (userId' : string) (data : ChangePasswordInput.t)
    (w : World) : Keeps token userId (changePassword userId' data w).
Proof.
  unfold changePassword. apply Keeps_bind; [by apply Keeps_await|].
  intros [u|]; [|apply Keeps_Throw].
  repeat (case_match; [apply Keeps_Throw|]).
  apply Keeps_bind; [by apply Keeps_await|]. intros _. by apply Keeps_await.
Qed.

Lemma Keeps_revokeSession (userId' sessionId : string) (w : World) :
  Keeps token userId (revokeSession userId' sessionId w).
Proof.
  unfold revokeSession. apply Keeps_bind; [by apply Keeps_await|].
  intros [r|]; [|apply Keeps_Throw].
  apply Keeps_bind; [by apply Keeps_await|]. intros _. apply Keeps_Ret.
Qed.

(** No call of the session manager deletes or un-revokes a revoked record,
    and none removes an account. *)
Lemma Kept_afterAll (history : list Call) (db : DB.t) :
  Kept token userId db -> Kept token userId (afterAll env history db).
Proof.
  revert db. induction history as [|c history IH]; intros db HK; [done|].
  cbn [afterAll fold_left]. apply IH.
  destruct c; cbn [after].
  - by apply Keeps_register.
  - by apply Keeps_login.
  - by apply Keeps_refreshTokens.
  - by apply Keeps_logout.
  - by apply Keeps_logoutAll.
  - by apply Keeps_changePassword.
  - by apply Keeps_revokeSession.
Qed.
End KeepsFacts.

(** ** Rotation and replay *)

Section Rotation.
Variable env : Env.
Context `{PasswordUtils}.

(** A replay: the token of a revoked record, presented while the codec
    accepts it, takes the theft-detection branch. *)
Lemma replay_detected (token : Token) (userId : string)
    (userAgent ipAddress : option string) (w : World) (db : DB.t) :
  revokedRecord token userId db ->
  verifyRefreshToken env token (now w) <> None ->
  exists db2 : DB.t,
    run (refreshTokens env token userAgent ipAddress w) db
    = (Failed (AppError "Refresh token has been revoked" 401), db2) /\
    forall x, In x (DB.refreshToken db2) ->
      RefreshToken.userId x = userId -> RefreshToken.revokedAt x <> None.
Proof.
  intros (r & Hr & Hrev & Hid & [u Hu]) Hv. unfold refreshTokens.
  destruct (verifyRefreshToken env token (now w)) as [payload|]; [|done].
  rewrite run_bind, run_await. cbn [handle]. rewrite Hr, Hid, Hu.
  destruct (RefreshToken.revokedAt r) as [at'|] eqn:E; [|done]. cbn [present].
  rewrite run_bind. unfold revokeAllUserTokens. rewrite run_await.
  cbn [handle with_tokens DB.refreshToken DB.user run].
  eexists. split; [reflexivity|].
  cbn [DB.refreshToken]. rewrite Hid. intros x. apply revokeAll_revoked.
Qed.

(** The codec's answer for one token at two instants: once it has
    returned claims, it returns the same claims until the signed expiry
    and nothing from then on. *)
Lemma verifyRefreshToken_later (token : Token) (payload : JwtPayload.t)
    (now1 now2 : Z) :
  verifyRefreshToken env token now1 = Some payload ->
  verifyRefreshToken env token now2
  = if JwtPayload.exp payload <=? now2 / 1000 then None else Some payload.
Proof.
  unfold verifyRefreshToken, jwt_verify. destruct token as [key q|raw]; [|done].
  destruct (String.eqb key (JWT_REFRESH_SECRET env)); [|done].
  destruct (JwtPayload.exp q <=? now1 / 1000); [done|].
  destruct (negb (String.eqb (JwtPayload.type q) "refresh")) eqn:Et; [done|].
  intros [= <-]. destruct (JwtPayload.exp q <=? now2 / 1000); [done|].
  by rewrite Et.
Qed.

(** C1, as the code has it.  A refresh token that the codec accepts,
    stored in a live record of an active account: the first
    [refreshTokens] succeeds when the store accepts the replacement row,
    that is when the replacement token string and the new identifier
    are not already stored; the pair it returns carries a refresh token
    different from the one presented.  After that call and any further
    calls of the session manager, every [refreshTokens] with the same
    token, made while the codec still accepts it, fails with status 401
    after revoking every record of the account.  The codec accepts the
    token exactly until its signed expiry; a replay from then on fails
    with status 401 at the codec check and writes nothing. *)
Theorem refresh_rotates_then_detects_replay (token : Token)
    (userAgent ipAddress : option string) (w1 : World) (db : DB.t)
    (payload : JwtPayload.t) (r : RefreshToken.t) (u : User.t) (ttlA ttlR : Z) :
  uniqueIds db ->
  verifyRefreshToken env token (now w1) = Some payload ->
  tokenByToken token (DB.refreshToken db) = Some r ->
  RefreshToken.revokedAt r = None ->
  now w1 < RefreshToken.expiresAt r ->
  RefreshToken.userId r = JwtPayload.userId payload ->
  userById (RefreshToken.userId r) (DB.user db) = Some u ->
  User.status u = "active" ->
  parseDuration (JWT_ACCESS_EXPIRES_IN env) = Num ttlA ->
  parseDuration (JWT_REFRESH_EXPIRES_IN env) = Num ttlR ->
  tokenById (tokenUuid w1) (DB.refreshToken db) = None ->
  tokenByToken
    (Jwt (JWT_REFRESH_SECRET env)
       {| JwtPayload.userId := JwtPayload.userId payload;
          JwtPayload.email := JwtPayload.email payload;
          JwtPayload.type := "refresh"; JwtPayload.iat := now w1 / 1000;
          JwtPayload.exp := now w1 / 1000 + ttlR |})
    (DB.refreshToken db) = None ->
  exists (pair : TokenPair) (db1 : DB.t),
    run (refreshTokens env token userAgent ipAddress w1) db = (Ok pair, db1) /\
    refreshToken pair <> token /\
    forall (history : list Call) (userAgent2 ipAddress2 : option string) (w2 : World),
      (verifyRefreshToken env token (now w2) <> None <->
       now w2 / 1000 < JwtPayload.exp payload) /\
      (verifyRefreshToken env token (now w2) <> None ->
       exists db2 : DB.t,
         run (refreshTokens env token userAgent2 ipAddress2 w2)
           (afterAll env history db1)
         = (Failed (AppError "Refresh token has been revoked" 401), db2) /\
         forall x, In x (DB.refreshToken db2) ->
           RefreshToken.userId x = RefreshToken.userId r ->
           RefreshToken.revokedAt x <> None) /\
      (JwtPayload.exp payload <= now w2 / 1000 ->
       run (refreshTokens env token userAgent2 ipAddress2 w2)
         (afterAll env history db1)
       = (Failed (AppError "Invalid or expired refresh token" 401),
          afterAll env history db1)).
Proof.
  intros Hnd Hv Hr Hrev Hexp Hown Hu Hact HA HR Hfresh Hnew.
  set (token' := Jwt _ _) in Hnew.
  set (r' := RefreshToken.with_revokedAt (now w1) r).
  set (rs1 := revokeOne (RefreshToken.id r) (now w1) (DB.refreshToken db)).
  set (new := newRecord (JwtPayload.userId payload) token' userAgent ipAddress w1
                (now w1 + ttlR * 1000)).
  set (db1 := with_tokens (evict (JwtPayload.userId payload) (rs1 ++ [new]))
                (with_tokens rs1 db)).
  assert (Hrid : tokenById (RefreshToken.id r) (DB.refreshToken db) <> None).
  { destruct (find_In _ _ _ Hr) as [Hin _].
    destruct (tokenById_Some_id (RefreshToken.id r) _ r Hin eq_refl) as [z ->]. done. }
  assert (Hr1 : tokenByToken token rs1 = Some r').
  { unfold rs1. rewrite tokenByToken_revokeOne, Hr. cbn [option_map].
    by rewrite String.eqb_refl. }
  assert (Hnd1 : List.NoDup (List.map RefreshToken.id (rs1 ++ [new]))).
  { apply uniqueIds_snoc.
    - unfold rs1. by rewrite map_id_revokeOne.
    - unfold rs1. rewrite tokenById_revokeOne. cbn [new newRecord RefreshToken.id].
      by rewrite Hfresh. }
  assert (Hkept : Kept token (RefreshToken.userId r) db1).
  { split; [by apply uniqueIds_evict|].
    exists r'. cbn [db1 with_tokens DB.refreshToken DB.user].
    split; [|by rewrite Hu].
    unfold evict. apply find_filter_Some; [by apply find_app_Some|].
    apply evict_keeps_revoked; [done| |done].
    apply List.in_or_app. left. by apply (find_In _ _ _ Hr1). }
  exists {| accessToken :=
              Jwt (JWT_ACCESS_SECRET env)
                {| JwtPayload.userId := JwtPayload.userId payload;
                   JwtPayload.email := JwtPayload.email payload;
                   JwtPayload.type := "access"; JwtPayload.iat := now w1 / 1000;
                   JwtPayload.exp := now w1 / 1000 + ttlA |};
            refreshToken := token' |}, db1.
  split; [|split].
  - unfold refreshTokens. rewrite Hv. rewrite run_bind, run_await. cbn [handle].
    rewrite Hr, Hu, Hrev. cbn [present].
    destruct (Z.ltb_spec (RefreshToken.expiresAt r) (now w1)); [lia|].
    rewrite Hact. cbn [String.eqb Ascii.eqb Bool.eqb negb].
    rewrite run_bind, run_await. cbn [handle].
    destruct (tokenById (RefreshToken.id r) (DB.refreshToken db)); [|done].
    fold (revokeOne (RefreshToken.id r) (now w1) (DB.refreshToken db)). fold rs1.
    rewrite run_bind, run_try.
    rewrite (generateTokenPair_Num env _ _ _ _ _ HA HR).
    rewrite run_bind. cbn [refreshToken]. fold token'.
    erewrite run_storeRefreshToken_ok.
    + cbn [run]. reflexivity.
    + by apply getExpirationDate_Num.
    + cbn [with_tokens DB.refreshToken]. unfold rs1.
      rewrite tokenById_revokeOne. by rewrite Hfresh.
    + cbn [with_tokens DB.refreshToken]. unfold rs1.
      rewrite tokenByToken_revokeOne. by rewrite Hnew.
    + cbn [with_tokens DB.user]. rewrite <- Hown, Hu. done.
  - cbn [refreshToken]. intros E. rewrite <- E in Hr. congruence.
  - intros history userAgent2 ipAddress2 w2.
    pose proof (verifyRefreshToken_later token payload (now w1) (now w2) Hv) as Hlater.
    split; [|split].
    + rewrite Hlater.
      destruct (Z.leb_spec (JwtPayload.exp payload) (now w2 / 1000));
        split; try done; lia.
    + intros Hv2. apply replay_detected; [|done].
      by apply (Kept_afterAll env token (RefreshToken.userId r) history db1).
    + intros Hpast. unfold refreshTokens. rewrite Hlater.
      destruct (Z.leb_spec (JwtPayload.exp payload) (now w2 / 1000)); [|lia].
      reflexivity.
Qed.
End Rotation.

(** ** The cap is an invariant *)

Lemma filter_map_length_le {A : Type} (p : A -> bool) (f : A -> A) (l : list A) :
  (forall x, p (f x) = true -> p x = true) ->
  (length (List.filter p (List.map f l)) <= length (List.filter p l))%nat.
Proof.
  intros Hf. induction l as [|x l IH]; [done|].
  cbn. destruct (p (f x)) eqn:E.
  - rewrite (Hf _ E). cbn. lia.
  - destruct (p x); cbn; lia.
Qed.

Lemma Inv_revoke (f : RefreshToken.t -> RefreshToken.t) (db : DB.t) :
  (forall x, f x = x \/ exists at', f x = RefreshToken.with_revokedAt at' x) ->
  Inv db -> Inv (with_tokens (List.map f (DB.refreshToken db)) db).
Proof.
  intros Hf [Hnd Hcap]. split.
  - by apply uniqueIds_revoke.
  - intros v. cbn [with_tokens DB.refreshToken].
    etransitivity; [|apply (Hcap v)].
    apply filter_map_length_le. intros x.
    destruct (Hf x) as [->|[at' ->]]; [done|].
    unfold unrevokedOf. cbn. rewrite andb_false_r. discriminate.
Qed.

Lemma Inv_filter (q : RefreshToken.t -> bool) (db : DB.t) :
  Inv db -> Inv (with_tokens (List.filter q (DB.refreshToken db)) db).
Proof.
  intros [Hnd Hcap]. split.
  - by apply uniqueIds_filter.
  - intros v. cbn [with_tokens DB.refreshToken].
    etransitivity; [apply filter_length_le|apply (Hcap v)].
Qed.

Lemma Safe_Ret {A : Type} (a : A) : Safe (Ret a).
Proof. by intros db. Qed.

Lemma Safe_Throw {A : Type} (e : Failure) : Safe (@Throw A e).
Proof. by intros db. Qed.

Lemma Safe_try {A : Type} (r : Result A) : Safe (try r).
Proof. intros db. by rewrite run_try. Qed.

Lemma Safe_bind {A B : Type} (p : Prog A) (f : A -> Prog B) :
  Safe p -> (forall a, Safe (f a)) -> Safe (bind p f).
Proof.
  intros Hp Hf db Hdb. rewrite run_bind. specialize (Hp db Hdb).
  destruct (run p db) as [[a|e] db']; [by apply Hf|done].
Qed.

(** Every call of the client except the insertion of a refresh token. *)
Lemma Safe_await {X : Type} (q : Prisma X) :
  insertsToken q = false -> Safe (await q).
Proof.
  intros Hq db Hdb. rewrite run_await.
  destruct q; cbn [handle insertsToken] in *; try discriminate;
    repeat case_match; cbn [snd]; try done;
    first [ by apply Inv_filter
          | apply Inv_revoke; [|done]; intros x; case_match; eauto ].
Qed.

Lemma filter_app_snoc {A : Type} (p : A -> bool) (l : list A) (x : A) :
  List.filter p (l ++ [x]) = (List.filter p l ++ (if p x then [x] else []))%list.
Proof. rewrite List.filter_app. reflexivity. Qed.

Lemma liveOf_unrevokedOf (userId : string) (now : Z) (x : RefreshToken.t) :
  liveOf userId now x = unrevokedOf userId x && (now <? RefreshToken.expiresAt x).
Proof. unfold liveOf, unrevokedOf, live. by rewrite andb_assoc. Qed.

Lemma live_count_le (userId : string) (now : Z) (rs : list RefreshToken.t) :
  (length (List.filter (liveOf userId now) rs)
   <= length (List.filter (unrevokedOf userId) rs))%nat.
Proof.
  induction rs as [|x rs IH]; [done|].
  cbn. rewrite liveOf_unrevokedOf.
  destruct (unrevokedOf userId x), (now <? RefreshToken.expiresAt x); cbn; lia.
Qed.

Section CapFacts.
Variable env : Env.
Context `{PasswordUtils}.

Lemma Safe_storeRefreshToken (userId : string) (token : Token)
    (userAgent ipAddress : option string) (w : World) :
  Safe (storeRefreshToken env userId token userAgent ipAddress w).
Proof.
  intros db [Hnd Hcap].
  destruct (run_storeRefreshToken env userId token userAgent ipAddress w db)
    as [[c ->]|(e & _ & Hid & _ & _ & ->)]; [done|].
  cbn [snd]. set (new := newRecord _ _ _ _ _ _).
  assert (Hnd' : List.NoDup (List.map RefreshToken.id (DB.refreshToken db ++ [new])))
    by by apply uniqueIds_snoc.
  split.
  - by apply uniqueIds_evict.
  - intros v. cbn [with_tokens DB.refreshToken].
    destruct (String.eqb userId v) eqn:E.
    + apply String.eqb_eq in E as <-. by apply evict_capped.
    + etransitivity; [apply evict_count_le|].
      rewrite filter_app_snoc.
      replace (unrevokedOf v new) with false.
      * rewrite List.app_nil_r. apply Hcap.
      * unfold unrevokedOf. cbn [new newRecord RefreshToken.userId]. by rewrite E.
Qed.

Lemma Safe_register (data : RegisterInput.t) (userAgent ipAddress : option string)
    (w : World) : Safe (register env data userAgent ipAddress w).
Proof.
  unfold register. apply Safe_bind; [by apply Safe_await|].
  intros [u|]; [apply Safe_Throw|].
  apply Safe_bind; [by apply Safe_await|]. intros u.
  apply Safe_bind; [apply Safe_try|]. intros tokens.
  apply Safe_bind; [apply Safe_storeRefreshToken|]. intros _. apply Safe_Ret.
Qed.

Lemma Safe_login (data : LoginInput.t) (userAgent ipAddress : option string)
    (w : World) : Safe (login env data userAgent ipAddress w).
Proof.
  unfold login. apply Safe_bind; [by apply Safe_await|].
  intros [u|]; [|apply Safe_Throw].
  repeat (case_match; [apply Safe_Throw|]).
  apply Safe_bind; [by apply Safe_await|]. intros _.
  apply Safe_bind; [apply Safe_try|]. intros tokens.
  apply Safe_bind; [apply Safe_storeRefreshToken|]. intros _. apply Safe_Ret.
Qed.

Lemma Safe_refreshTokens (token : Token) (userAgent ipAddress : option string)
    (w : World) : Safe (refreshTokens env token userAgent ipAddress w).
Proof.
  unfold refreshTokens. case_match; [|apply Safe_Throw].
  apply Safe_bind; [by apply Safe_await|].
  intros [[r u]|]; [|apply Safe_Throw].
  case_match.
  { apply Safe_bind; [by apply Safe_await|]. intros _. apply Safe_Throw. }
  case_match.
  { apply Safe_bind; [by apply Safe_await|]. intros _. apply Safe_Throw. }
  case_match; [apply Safe_Throw|].
  apply Safe_bind; [by apply Safe_await|]. intros _.
  apply Safe_bind; [apply Safe_try|]. intros tokens.
  apply Safe_bind; [apply Safe_storeRefreshToken|]. intros _. apply Safe_Ret.
Qed.
End CapFacts.

(** ** The eleventh token *)

Lemma filter_same_count {A : Type} (p q : A -> bool) (l : list A) :
  (forall x, p x = true -> q x = true) ->
  length (List.filter p l) = length (List.filter q l) ->
  forall x, In x l -> q x = true -> p x = true.
Proof.
  intros Hpq. induction l as [|y l IH]; [done|].
  assert (Hle : (length (List.filter p l) <= length (List.filter q l))%nat).
  { clear IH. induction l as [|z l IHl]; [done|].
    cbn. destruct (p z) eqn:Ep.
    - rewrite (Hpq _ Ep). cbn. lia.
    - destruct (q z); cbn; lia. }
  cbn. destruct (p y) eqn:Ep.
  - rewrite (Hpq _ Ep). cbn. intros [= E] x [<-|Hx] Hq; [done|by apply IH].
  - destruct (q y) eqn:Eq; cbn.
    + intros E. exfalso. lia.
    + intros E x [<-|Hx] Hq; [congruence|by apply IH].
Qed.

Lemma count_without_id (p : RefreshToken.t -> bool) (rs : list RefreshToken.t)
    (v : RefreshToken.t) :
  List.NoDup (List.map RefreshToken.id rs) -> In v rs -> p v = true ->
  (length (List.filter p
     (List.filter (fun x => negb (String.eqb (RefreshToken.id x) (RefreshToken.id v))) rs))
   + 1 = length (List.filter p rs))%nat.
Proof.
  induction rs as [|y rs IH]; [done|].
  cbn [List.map]. rewrite List.NoDup_cons_iff. intros [Hy Hnd] [->|Hv] Hp.
  - cbn [List.filter]. rewrite String.eqb_refl, Hp. cbn [negb length].
    rewrite (List.filter_ext_in
               (fun x => negb (String.eqb (RefreshToken.id x) (RefreshToken.id v)))
               (fun _ => true) rs).
    + rewrite List.filter_true. lia.
    + intros x Hx. apply negb_true_iff, String.eqb_neq. intros E.
      apply Hy. rewrite <- E. by apply List.in_map.
  - cbn [List.filter].
    assert (Hne : String.eqb (RefreshToken.id y) (RefreshToken.id v) = false).
    { apply String.eqb_neq. intros E. apply Hy. rewrite E. by apply List.in_map. }
    rewrite Hne. cbn [negb List.filter].
    specialize (IH Hnd Hv Hp). destruct (p y); cbn [length]; lia.
Qed.

Lemma sorted_last_least (sorted : list RefreshToken.t) (v : RefreshToken.t) :
  StronglySorted createdAt_desc sorted -> drop 10 sorted = [v] ->
  forall x, In x sorted -> RefreshToken.createdAt v <= RefreshToken.createdAt x.
Proof.
  intros Hs Hd x Hx. rewrite <- (take_drop 10 sorted), Hd in Hs, Hx.
  apply List.in_app_or in Hx as [Hx|[<-|[]]]; [|lia].
  apply (StronglySorted_app_1_elem_of _ _ _ x v Hs); [by apply list_elem_of_In|].
  apply list_elem_of_In. by left.
Qed.

Section Eleventh.
Variable env : Env.

Lemma storeRefreshToken_eleventh (userId : string) (token : Token)
    (userAgent ipAddress : option string) (w : World) (db db' : DB.t) (ttl : Z) :
  Inv db ->
  parseDuration (JWT_REFRESH_EXPIRES_IN env) = Num ttl -> 0 < ttl ->
  length (List.filter (liveOf userId (now w)) (DB.refreshToken db)) = 10%nat ->
  run (storeRefreshToken env userId token userAgent ipAddress w) db = (Ok tt, db') ->
  let new := newRecord userId token userAgent ipAddress w (now w + ttl * 1000) in
  length (List.filter (liveOf userId (now w)) (DB.refreshToken db')) = 10%nat /\
  exists victim : RefreshToken.t,
    In victim (DB.refreshToken db ++ [new]) /\
    RefreshToken.userId victim = userId /\
    RefreshToken.revokedAt victim = None /\
    (forall x, In x (DB.refreshToken db ++ [new]) -> unrevokedOf userId x = true ->
       RefreshToken.createdAt victim <= RefreshToken.createdAt x) /\
    DB.refreshToken db' =
      List.filter
        (fun x => negb (String.eqb (RefreshToken.id x) (RefreshToken.id victim)))
        (DB.refreshToken db ++ [new]).
Proof.
  intros [Hnd Hcap] Httl Hpos Hten Hrun new.
  destruct (run_storeRefreshToken env userId token userAgent ipAddress w db)
    as [[c Hc]|(e & He & Hid & _ & _ & Hok)]; [congruence|].
  rewrite (getExpirationDate_Num env _ _ Httl) in He. injection He as <-.
  fold new in Hok. rewrite Hok in Hrun. injection Hrun as <-.
  cbn [with_tokens DB.refreshToken].
  set (rs := DB.refreshToken db) in *. set (L := (rs ++ [new])%list).
  assert (HndL : List.NoDup (List.map RefreshToken.id L)) by by apply uniqueIds_snoc.
  assert (Hnew_un : unrevokedOf userId new = true).
  { unfold unrevokedOf. cbn. by rewrite String.eqb_refl. }
  assert (Hnew_live : liveOf userId (now w) new = true).
  { rewrite liveOf_unrevokedOf, Hnew_un. cbn. apply Z.ltb_lt. lia. }
  assert (Hun_ten : length (List.filter (unrevokedOf userId) rs) = 10%nat).
  { pose proof (Hcap userId). pose proof (live_count_le userId (now w) rs).
    fold rs in H. lia. }
  assert (Hall_live : forall x, In x L -> unrevokedOf userId x = true ->
            liveOf userId (now w) x = true).
  { intros x [Hx|[<-|[]]]%List.in_app_or Hun; [|done].
    apply (filter_same_count (liveOf userId (now w)) (unrevokedOf userId) rs);
      try done; [|lia].
    intros y. rewrite liveOf_unrevokedOf. by intros [? _]%andb_prop. }
  set (sorted := merge_sort createdAt_desc (List.filter (unrevokedOf userId) L)).
  assert (Hlen : length sorted = 11%nat).
  { unfold sorted. rewrite merge_sort_Permutation. unfold L.
    rewrite filter_app_snoc, Hnew_un, length_app, Hun_ten. reflexivity. }
  assert (Hdrop : exists v, drop 10 sorted = [v]).
  { pose proof (length_drop sorted 10) as Hl. rewrite Hlen in Hl.
    destruct (drop 10 sorted) as [|v [|v' t]]; try discriminate. eauto. }
  destruct Hdrop as [v Hv].
  assert (Hbeyond : beyondCap userId L = [v]) by exact Hv.
  assert (Hv_in : In v L /\ unrevokedOf userId v = true).
  { apply (beyondCap_In userId). rewrite Hbeyond. by left. }
  destruct Hv_in as [Hv_in Hv_un].
  assert (Hevict : evict userId L =
            List.filter
              (fun x => negb (String.eqb (RefreshToken.id x) (RefreshToken.id v))) L).
  { unfold evict. rewrite Hbeyond. apply List.filter_ext.
    intros x. unfold idIn. cbn. by rewrite orb_false_r. }
  rewrite Hevict. split.
  - pose proof (count_without_id (liveOf userId (now w)) L v HndL Hv_in
                  (Hall_live v Hv_in Hv_un)) as Hc.
    assert (length (List.filter (liveOf userId (now w)) L) = 11%nat).
    { unfold L. rewrite filter_app_snoc, Hnew_live, length_app, Hten. reflexivity. }
    lia.
  - exists v. split; [done|].
    unfold unrevokedOf in Hv_un. apply andb_prop in Hv_un as [Hu Hr].
    split; [by apply String.eqb_eq|]. split; [by apply bool_decide_eq_true in Hr|].
    split; [|done]. intros x Hx Hun.
    apply (sorted_last_least sorted v); [apply StronglySorted_merge_sort; apply _|done|].
    apply list_elem_of_In. unfold sorted. rewrite merge_sort_Permutation.
    apply list_elem_of_In, List.filter_In. done.
Qed.
End Eleventh.

Lemma Inv_live_capped (db : DB.t) (userId : string) (now : Z) :
  Inv db ->
  (length (List.filter (liveOf userId now) (DB.refreshToken db)) <= 10)%nat.
Proof.
  intros [_ Hcap]. etransitivity; [apply live_count_le|apply Hcap].
Qed.

Lemma Inv_emptyDB : Inv emptyDB.
Proof. split; [constructor|]. intros u. cbn. lia. Qed.

Section OtherCalls.
Context `{PasswordUtils}.

Lemma Safe_logout (token : Token) (w : World) : Safe (logout token w).
Proof.
  unfold logout. apply Safe_bind; [by apply Safe_await|].
  intros [r|]; [|apply Safe_Ret]. case_match; [|apply Safe_Ret].
  apply Safe_bind; [by apply Safe_await|]. intros _. apply Safe_Ret.
Qed.

Lemma Safe_logoutAll (userId : string) (w : World) : Safe (logoutAll userId w).
Proof. by apply Safe_await. Qed.

Lemma Safe_changePassword (userId : string) (data : ChangePasswordInput.t)
    (w : World) : Safe (changePassword userId data w).
Proof.
  unfold changePassword. apply Safe_bind; [by apply Safe_await|].
  intros [u|]; [|apply Safe_Throw].
  repeat (case_match; [apply Safe_Throw|]).
  apply Safe_bind; [by apply Safe_await|]. intros _. by apply Safe_await.
Qed.

Lemma Safe_revokeSession (userId sessionId : string) (w : World) :
  Safe (revokeSession userId sessionId w).
Proof.
  unfold revokeSession. apply Safe_bind; [by apply Safe_await|].
  intros [r|]; [|apply Safe_Throw].
  apply Safe_bind; [by apply Safe_await|]. intros _. apply Safe_Ret.
Qed.
End OtherCalls.

Section Cap.
Variable env : Env.
Context `{PasswordUtils}.

Lemma Inv_afterAll (history : list Call) (db : DB.t) :
  Inv db -> Inv (afterAll env history db).
Proof.
  revert db. induction history as [|c history IH]; intros db Hdb; [done|].
  cbn [afterAll fold_left]. apply IH.
  destruct c; cbn [after].
  - by apply Safe_register.
  - by apply Safe_login.
  - by apply Safe_refreshTokens.
  - by apply Safe_logout.
  - by apply Safe_logoutAll.
  - by apply Safe_changePassword.
  - by apply Safe_revokeSession.
Qed.

(** C6.  In a store where identifiers are unique and no account holds
    more than ten unrevoked records, after [register], [login] or
    [refreshTokens], whatever they return, no account holds more than ten
    unrevoked records, hence no more than ten live ones at any instant;
    every store that calls of the session manager build from the empty
    one is such a store; and whatever an account held before, it holds at
    most ten live records once [storeRefreshToken] has succeeded for it.
    When [storeRefreshToken] succeeds for an account that holds ten live
    records, with a positive refresh duration, the account holds exactly
    ten live records afterwards: the new row was added and one unrevoked
    record of the account, of the least creation time, was removed. *)
Theorem refresh_token_cap :
  (forall (db : DB.t) (userAgent ipAddress : option string) (w : World),
      Inv db ->
      forall db' : DB.t,
        (exists data, db' = (run (register env data userAgent ipAddress w) db).2) \/
        (exists data, db' = (run (login env data userAgent ipAddress w) db).2) \/
        (exists token, db' = (run (refreshTokens env token userAgent ipAddress w) db).2) ->
        Inv db' /\
        forall (userId : string) (t : Z),
          (length (List.filter (liveOf userId t) (DB.refreshToken db')) <= 10)%nat) /\
  (forall (history : list Call) (userId : string) (t : Z),
      (length (List.filter (liveOf userId t)
                 (DB.refreshToken (afterAll env history emptyDB))) <= 10)%nat) /\
  (forall (userId : string) (token : Token) (userAgent ipAddress : option string)
          (w : World) (db db' : DB.t) (t : Z),
      uniqueIds db ->
      run (storeRefreshToken env userId token userAgent ipAddress w) db = (Ok tt, db') ->
      (length (List.filter (liveOf userId t) (DB.refreshToken db')) <= 10)%nat) /\
  (forall (userId : string) (token : Token) (userAgent ipAddress : option string)
          (w : World) (db db' : DB.t) (ttl : Z),
      Inv db ->
      parseDuration (JWT_REFRESH_EXPIRES_IN env) = Num ttl -> 0 < ttl ->
      length (List.filter (liveOf userId (now w)) (DB.refreshToken db)) = 10%nat ->
      run (storeRefreshToken env userId token userAgent ipAddress w) db = (Ok tt, db') ->
      let new := newRecord userId token userAgent ipAddress w (now w + ttl * 1000) in
      length (List.filter (liveOf userId (now w)) (DB.refreshToken db')) = 10%nat /\
      exists victim : RefreshToken.t,
        In victim (DB.refreshToken db ++ [new]) /\
        RefreshToken.userId victim = userId /\
        RefreshToken.revokedAt victim = None /\
        (forall x, In x (DB.refreshToken db ++ [new]) ->
           unrevokedOf userId x = true ->
           RefreshToken.createdAt victim <= RefreshToken.createdAt x) /\
        DB.refreshToken db' =
          List.filter
            (fun x => negb (String.eqb (RefreshToken.id x) (RefreshToken.id victim)))
            (DB.refreshToken db ++ [new])).
Proof.
  split; [|split; [|split]].
  - intros db userAgent ipAddress w Hdb db' Hcall.
    assert (Hdb' : Inv db').
    { destruct Hcall as [[data ->]|[[data ->]|[token ->]]].
      - by apply Safe_register.
      - by apply Safe_login.
      - by apply Safe_refreshTokens. }
    split; [done|]. intros userId t. by apply Inv_live_capped.
  - intros history userId t. apply Inv_live_capped, Inv_afterAll, Inv_emptyDB.
  - intros userId token userAgent ipAddress w db db' t Hnd Hrun.
    destruct (run_storeRefreshToken env userId token userAgent ipAddress w db)
      as [[c Hc]|(e & _ & Hid & _ & _ & Hok)]; [congruence|].
    rewrite Hok in Hrun. injection Hrun as <-.
    etransitivity; [apply live_count_le|].
    cbn [with_tokens DB.refreshToken]. apply evict_capped. by apply uniqueIds_snoc.
  - intros userId token userAgent ipAddress w db db' ttl.
    apply storeRefreshToken_eleventh.
Qed.
End Cap.

(** ** Concurrent refresh *)

(** C2 (the code departs from it).  Two [refreshTokens] calls present the
    same live token, and the store serves their awaits in turn: both find
    the record unrevoked, both mark it revoked, both insert a replacement.
    Both calls complete as successful rotations, with two different
    refresh tokens that are both live afterwards; neither takes the
    theft-detection branch. *)
Theorem concurrent_refresh_both_rotate :
  exists (pair1 pair2 : TokenPair) (db' : DB.t),
    interleave raceSchedule
      (refreshTokens exampleEnv aliceToken None None (world 2000500 "2"))
      (refreshTokens exampleEnv aliceToken None None (world 2001200 "3"))
      aliceDB
    = (Ret pair1, Ret pair2, db') /\
    refreshToken pair1 <> refreshToken pair2 /\
    List.map RefreshToken.token
      (List.filter (liveOf "u-1" 2001200) (DB.refreshToken db'))
    = [refreshToken pair1; refreshToken pair2].
Proof.
  eexists _, _, _. split; [vm_compute; reflexivity|].
  split; [discriminate|vm_compute; reflexivity].
Qed.

(** The same two calls one after the other: the second is a replay and
    takes the theft-detection branch. *)
Lemma serial_refresh_detects_replay :
  exists (pair1 : TokenPair) (db1 db2 : DB.t),
    run (refreshTokens exampleEnv aliceToken None None (world 2000500 "2")) aliceDB
    = (Ok pair1, db1) /\
    run (refreshTokens exampleEnv aliceToken None None (world 2001200 "3")) db1
    = (Failed (AppError "Refresh token has been revoked" 401), db2) /\
    List.filter (liveOf "u-1" 2001200) (DB.refreshToken db2) = [].
Proof.
  eexists _, _, _. split; [vm_compute; reflexivity|].
  split; vm_compute; reflexivity.
Qed.

(** ** Rate limiter *)

Lemma rateLimit_fresh (options : RateLimitOptions) (req : Request) (now : Z)
    (store : gmap string RateLimitEntry.t) :
  (forall e, store !! keyOf options req = Some e -> RateLimitEntry.resetTime e <= now) ->
  exists reply,
    rateLimit options req now store =
      (reply,
       <[keyOf options req :=
           {| RateLimitEntry.count := 1;
              RateLimitEntry.resetTime := now + windowOf options |}]> store) /\
    outcome reply = verdict options 1 /\
    X_RateLimit_Reset reply = now + windowOf options.
Proof.
  intros Hkey. unfold rateLimit. fold (keyOf options req).
  fold (limitOf options) (windowOf options) (messageOf options).
  assert (E :
    match store !! keyOf options req with
    | Some entry =>
        if RateLimitEntry.resetTime entry <=? now
        then ({| RateLimitEntry.count := 1;
                 RateLimitEntry.resetTime := now + windowOf options |},
              <[keyOf options req :=
                  {| RateLimitEntry.count := 1;
                     RateLimitEntry.resetTime := now + windowOf options |}]> store)
        else ({| RateLimitEntry.count := RateLimitEntry.count entry + 1;
                 RateLimitEntry.resetTime := RateLimitEntry.resetTime entry |},
              <[keyOf options req :=
                  {| RateLimitEntry.count := RateLimitEntry.count entry + 1;
                     RateLimitEntry.resetTime := RateLimitEntry.resetTime entry |}]> store)
    | None =>
        ({| RateLimitEntry.count := 1;
            RateLimitEntry.resetTime := now + windowOf options |},
         <[keyOf options req :=
             {| RateLimitEntry.count := 1;
                RateLimitEntry.resetTime := now + windowOf options |}]> store)
    end
    = ({| RateLimitEntry.count := 1;
          RateLimitEntry.resetTime := now + windowOf options |},
       <[keyOf options req :=
           {| RateLimitEntry.count := 1;
              RateLimitEntry.resetTime := now + windowOf options |}]> store)).
  { destruct (store !! keyOf options req) as [e|] eqn:Ee; [|done].
    specialize (Hkey e eq_refl). by rewrite (proj2 (Z.leb_le _ _) Hkey). }
  rewrite E. cbn [RateLimitEntry.count RateLimitEntry.resetTime].
  unfold verdict. destruct (limitOf options <? 1); eexists; done.
Qed.

Lemma rateLimit_within (options : RateLimitOptions) (req : Request) (now : Z)
    (store : gmap string RateLimitEntry.t) (e : RateLimitEntry.t) :
  store !! keyOf options req = Some e -> now < RateLimitEntry.resetTime e ->
  exists reply,
    rateLimit options req now store =
      (reply,
       <[keyOf options req :=
           {| RateLimitEntry.count := RateLimitEntry.count e + 1;
              RateLimitEntry.resetTime := RateLimitEntry.resetTime e |}]> store) /\
    outcome reply = verdict options (RateLimitEntry.count e + 1) /\
    (limitOf options < RateLimitEntry.count e + 1 ->
     Retry_After reply = Some (ceil_seconds (RateLimitEntry.resetTime e - now))).
Proof.
  intros He Hlt. unfold rateLimit. fold (keyOf options req). rewrite He.
  fold (limitOf options) (windowOf options) (messageOf options).
  destruct (Z.leb_spec (RateLimitEntry.resetTime e) now); [lia|].
  cbn [RateLimitEntry.count RateLimitEntry.resetTime].
  unfold verdict. destruct (Z.ltb_spec (limitOf options) (RateLimitEntry.count e + 1));
    eexists; (split; [reflexivity|]); split; try done; lia.
Qed.

(** A limiter that has the entry of its key to itself: after the request
    that opens a window, the requests that arrive before the reset time
    are counted one by one; the [n]-th request of the window passes
    exactly when [n] is at most [maxRequests]. *)
Lemma rateLimit_alone (options : RateLimitOptions) (req : Request) (times : list Z)
    (store : gmap string RateLimitEntry.t) (c r : Z) :
  store !! keyOf options req =
    Some {| RateLimitEntry.count := c; RateLimitEntry.resetTime := r |} ->
  Forall (fun t => t < r) times ->
  List.map outcome
    (serve (rateLimit options) (List.map (fun t => (req, t)) times) store).1
  = List.map (fun i => verdict options (c + 1 + Z.of_nat i)) (seq 0 (length times)).
Proof.
  revert store c. induction times as [|t times IH]; intros store c Hc Hall; [done|].
  apply Forall_cons in Hall as [Ht Hall].
  cbn [List.map serve length seq].
  destruct (rateLimit_within options req t store _ Hc Ht) as (reply & -> & Ho & _).
  cbn [RateLimitEntry.count RateLimitEntry.resetTime] in *.
  specialize (IH (<[keyOf options req :=
                      {| RateLimitEntry.count := c + 1;
                         RateLimitEntry.resetTime := r |}]> store) (c + 1)
                (lookup_insert_eq _ _ _) Hall).
  destruct (serve _ _ _) as [rs store']. cbn [fst List.map] in *.
  rewrite Ho, IH, Z.add_0_r. f_equal.
  rewrite <- List.seq_shift, List.map_map. apply List.map_ext.
  intros i. f_equal. lia.
Qed.

(** The periodic sweep only removes entries whose window is over, which
    the handler would replace anyway: it never changes an answer. *)
Lemma rateLimit_cleanup (options : RateLimitOptions) (req : Request) (now t : Z)
    (store : gmap string RateLimitEntry.t) :
  t <= now ->
  (rateLimit options req now (cleanup t store)).1 = (rateLimit options req now store).1.
Proof.
  intros Ht. unfold rateLimit. fold (keyOf options req).
  destruct (store !! keyOf options req) as [e|] eqn:Ee.
  - destruct (decide (RateLimitEntry.resetTime e <= t)) as [Hold|Hnew].
    + assert (cleanup t store !! keyOf options req = None) as ->.
      { unfold cleanup. apply map_lookup_filter_None. right.
        intros e' He'. cbn. rewrite Ee in He'. injection He' as <-. tauto. }
      rewrite (proj2 (Z.leb_le (RateLimitEntry.resetTime e) now)) by lia.
      cbn [RateLimitEntry.count RateLimitEntry.resetTime].
      by destruct (_ <? _).
    + assert (cleanup t store !! keyOf options req = Some e) as ->.
      { unfold cleanup. apply map_lookup_filter_Some. done. }
      destruct (_ <=? _); cbn [RateLimitEntry.count RateLimitEntry.resetTime];
        by destruct (_ <? _).
  - assert (cleanup t store !! keyOf options req = None) as ->.
    { unfold cleanup. apply map_lookup_filter_None. by left. }
    cbn [RateLimitEntry.count RateLimitEntry.resetTime]. by destruct (_ <? _).
Qed.

(** C8 (the code departs from it).  Both limiters keep their windows in
    the one store of the module, under the same key, and a request to an
    authentication endpoint passes [apiRateLimiter] before
    [authRateLimiter]: each such request is counted twice, in a window of
    one minute that the general limiter opened.  Of six logins from one
    address within six seconds the first five pass and the sixth is
    rejected with status 429, although it is only the sixth request to the
    authentication limiter, whose maximum is ten per fifteen minutes. *)
Theorem auth_route_rejects_sixth_login :
  (serve authRoute sixLogins ∅).1
  = [next; next; next; next; next;
     sendError "Too many authentication attempts, please try again in 15 minutes" 429]
  /\ (serve authRoute sixLogins ∅).2 !! "203.0.113.7"
     = Some {| RateLimitEntry.count := 12; RateLimitEntry.resetTime := 60000 |}.
Proof. split; vm_compute; reflexivity. Qed.

(** The authentication limiter alone, on a store that nothing else
    writes, lets the same six requests pass (and four more). *)
Lemma auth_limiter_alone_passes_six :
  List.map outcome (serve authRateLimiter sixLogins ∅).1
  = [next; next; next; next; next; next].
Proof. vm_compute. reflexivity. Qed.

(** * The statements at work *)

Lemma uniqueIds_aliceDB : uniqueIds aliceDB.
Proof. repeat constructor. intros []. Qed.

Lemma Inv_tenSessionsDB : Inv tenSessionsDB.
Proof.
  split.
  - unfold uniqueIds. cbn. repeat (constructor; [cbn; intuition discriminate|]).
    constructor.
  - intros userId. etransitivity; [apply List.filter_length_le|]. cbn. lia.
Qed.

Lemma refresh_rotates_then_detects_replay_witness :
  exists (pair : TokenPair) (db1 : DB.t),
    run (refreshTokens exampleEnv aliceToken None None (world 2000500 "2")) aliceDB
    = (Ok pair, db1) /\
    refreshToken pair <> aliceToken /\
    forall (history : list Call) (userAgent2 ipAddress2 : option string) (w2 : World),
      (verifyRefreshToken exampleEnv aliceToken (now w2) <> None <->
       now w2 / 1000 < JwtPayload.exp alicePayload) /\
      (verifyRefreshToken exampleEnv aliceToken (now w2) <> None ->
       exists db2 : DB.t,
         run (refreshTokens exampleEnv aliceToken userAgent2 ipAddress2 w2)
           (afterAll exampleEnv history db1)
         = (Failed (AppError "Refresh token has been revoked" 401), db2) /\
         forall x, In x (DB.refreshToken db2) ->
           RefreshToken.userId x = "u-1" -> RefreshToken.revokedAt x <> None) /\
      (JwtPayload.exp alicePayload <= now w2 / 1000 ->
       run (refreshTokens exampleEnv aliceToken userAgent2 ipAddress2 w2)
         (afterAll exampleEnv history db1)
       = (Failed (AppError "Invalid or expired refresh token" 401),
          afterAll exampleEnv history db1)).
Proof.
  eapply (refresh_rotates_then_detects_replay exampleEnv aliceToken None None
            (world 2000500 "2") aliceDB alicePayload aliceRecord _ 900 604800).
  - exact uniqueIds_aliceDB.
  - vm_compute. reflexivity.
  - vm_compute. reflexivity.
  - reflexivity.
  - vm_compute. reflexivity.
  - reflexivity.
  - vm_compute. reflexivity.
  - reflexivity.
  - reflexivity.
  - reflexivity.
  - reflexivity.
  - vm_compute. reflexivity.
Defined.

(** C1 read as it is written fails twice on the code.  In the second in
    which the token was issued the replacement is the same string: the
    store refuses the row and the first call fails, after it has revoked
    the presented record.  And a replay after the signed expiry of the
    token is refused by the codec before the store is looked at: it
    revokes nothing, and the live replacement stays live. *)
Lemma refresh_first_or_replay_counterexample :
  (exists r, tokenByToken aliceToken (DB.refreshToken aliceDB) = Some r /\
             liveOf "u-1" 1000500 r = true) /\
  (exists db1,
      run (refreshTokens exampleEnv aliceToken None None (world 1000500 "2")) aliceDB
      = (Failed (PrismaError "P2002"), db1) /\
      List.filter (liveOf "u-1" 1000500) (DB.refreshToken db1) = []) /\
  (exists pair db1,
      run (refreshTokens exampleEnv aliceToken None None (world 2000500 "2")) aliceDB
      = (Ok pair, db1) /\
      run (refreshTokens exampleEnv aliceToken None None (world 605800000 "3")) db1
      = (Failed (AppError "Invalid or expired refresh token" 401), db1) /\
      List.map RefreshToken.token
        (List.filter (liveOf "u-1" 605800000) (DB.refreshToken db1))
      = [refreshToken pair]).
Proof.
  split; [|split].
  - eexists. split; vm_compute; reflexivity.
  - eexists. split; vm_compute; reflexivity.
  - eexists _, _. split; [vm_compute; reflexivity|].
    split; vm_compute; reflexivity.
Qed.

Lemma login_unauthorized_cases_witness :
  (run (login exampleEnv wrongPassword None None (world 2000000 "2")) aliceDB).1
  = Failed (AppError "Invalid email or password" 401).
Proof.
  pose proof (login_unauthorized_cases exampleEnv wrongPassword None None
                (world 2000000 "2") aliceDB) as [H401 _].
  apply H401. right. right. eexists _, _.
  split; [vm_compute; reflexivity|]. split; [reflexivity|].
  split; [discriminate|]. split; reflexivity.
Defined.


Lemma changePassword_failure_atomic_witness :
  run (changePassword "u-1" badCurrentPassword (world 3000000 "4")) aliceDB
  = (Failed (AppError "Current password is incorrect" 401), aliceDB).
Proof.
  pose proof (changePassword_failure_atomic "u-1" badCurrentPassword
                (world 3000000 "4") aliceDB) as (_ & _ & H401 & _).
  eapply H401.
  - vm_compute. reflexivity.
  - reflexivity.
  - discriminate.
  - reflexivity.
Defined.

Lemma changePassword_success_witness :
  exists db' : DB.t,
    run (changePassword "u-1" otherPassword (world 3000000 "4")) aliceDB = (Ok tt, db') /\
    (exists msg db2,
        run (refreshTokens exampleEnv aliceToken None None (world 3000500 "5")) db'
        = (Failed (AppError msg 401), db2)) /\
    (exists res db2,
        run (login exampleEnv
               {| LoginInput.email := "alice@example.com";
                  LoginInput.password := "Wxyz5678?" |}
               None None (world 4000000 "6")) db' = (Ok res, db2)) /\
    (run (login exampleEnv
            {| LoginInput.email := "alice@example.com";
               LoginInput.password := "Abcd1234!" |}
            None None (world 4000000 "6")) db').1
    = Failed (AppError "Invalid email or password" 401).
Proof.
  eexists. split; [vm_compute; reflexivity|].
  match goal with
  | |- context [run (refreshTokens _ _ _ _ _) ?db'] =>
      pose proof (changePassword_success exampleEnv "u-1" otherPassword
                    (world 3000000 "4") aliceDB db' eq_refl)
        as (_ & _ & _ & Hrefresh & Hnew & Hold & _)
  end.
  split; [|split].
  - eapply Hrefresh; [vm_compute; reflexivity|reflexivity].
  - eapply (Hnew "alice@example.com" _ None None (world 4000000 "6") 900 604800);
      vm_compute; reflexivity.
  - eapply (Hold "alice@example.com"); vm_compute; reflexivity.
Defined.

(** C5 read as it is written fails on the code: [changePassword] accepts
    a new password equal to the current one, after which the stored hash
    still verifies the old password and [login] with it succeeds. *)
Lemma changePassword_same_password_counterexample :
  exists db' : DB.t,
    run (changePassword "u-1" samePassword (world 3000000 "4")) aliceDB = (Ok tt, db') /\
    (exists u h, userById "u-1" (DB.user db') = Some u /\
       User.passwordHash u = Some h /\
       comparePassword (ChangePasswordInput.currentPassword samePassword) h = true) /\
    (exists res db2,
        run (login exampleEnv rightPassword None None (world 4000000 "6")) db'
        = (Ok res, db2)).
Proof.
  eexists. split; [vm_compute; reflexivity|]. split.
  - eexists _, _. split; [vm_compute; reflexivity|]. split; reflexivity.
  - eexists _, _. vm_compute. reflexivity.
Qed.

(** The condition on the store in the statement about [login] after
    [changePassword] is needed: a [login] in the clock second in which
    the account's last refresh token was signed signs the same string,
    and the store refuses the row; a second later it succeeds. *)
Lemma login_same_second_after_changePassword :
  exists db' : DB.t,
    run (changePassword "u-1" otherPassword (world 1000300 "4")) aliceDB = (Ok tt, db') /\
    (run (login exampleEnv
            {| LoginInput.email := "alice@example.com";
               LoginInput.password := "Wxyz5678?" |}
            None None (world 1000700 "6")) db').1
    = Failed (PrismaError "P2002") /\
    exists res db2,
      run (login exampleEnv
             {| LoginInput.email := "alice@example.com";
                LoginInput.password := "Wxyz5678?" |}
             None None (world 1001000 "6")) db' = (Ok res, db2).
Proof.
  eexists. split; [vm_compute; reflexivity|]. split; [vm_compute; reflexivity|].
  eexists _, _. vm_compute. reflexivity.
Qed.

Lemma refresh_token_cap_witness :
  (length (List.filter (liveOf "u-1" 2000000)
     (DB.refreshToken
        (run (login exampleEnv rightPassword None None (world 2000000 "2"))
           tenSessionsDB).2)) <= 10)%nat /\
  exists db' : DB.t,
    run (storeRefreshToken exampleEnv "u-1" (Opaque "k11") None None (world 11 "11"))
      tenSessionsDB = (Ok tt, db') /\
    length (List.filter (liveOf "u-1" 11) (DB.refreshToken db')) = 10%nat.
Proof.
  pose proof (refresh_token_cap exampleEnv) as (Hcap & _ & _ & Heleventh).
  split.
  - eapply (Hcap tenSessionsDB None None (world 2000000 "2") Inv_tenSessionsDB).
    right. left. eexists. reflexivity.
  - eexists. split; [vm_compute; reflexivity|].
    eapply (Heleventh "u-1" (Opaque "k11") None None (world 11 "11") tenSessionsDB _ 604800).
    + exact Inv_tenSessionsDB.
    + reflexivity.
    + reflexivity.
    + reflexivity.
    + vm_compute. reflexivity.
Defined.

(** * Further properties of the code *)

(** ** Rate limiter *)

(** The entry of the key after a request, whatever the limiter answers. *)
Lemma rateLimit_entry (options : RateLimitOptions) (req : Request) (now : Z)
    (store : gmap string RateLimitEntry.t) :
  let e :=
    match store !! keyOf options req with
    | Some e0 =>
        if RateLimitEntry.resetTime e0 <=? now
        then {| RateLimitEntry.count := 1;
                RateLimitEntry.resetTime := now + windowOf options |}
        else {| RateLimitEntry.count := RateLimitEntry.count e0 + 1;
                RateLimitEntry.resetTime := RateLimitEntry.resetTime e0 |}
    | None => {| RateLimitEntry.count := 1;
                 RateLimitEntry.resetTime := now + windowOf options |}
    end in
  rateLimit options req now store =
    ({| X_RateLimit_Limit := limitOf options;
        X_RateLimit_Remaining := Z.max 0 (limitOf options - RateLimitEntry.count e);
        X_RateLimit_Reset := RateLimitEntry.resetTime e;
        Retry_After :=
          if limitOf options <? RateLimitEntry.count e
          then Some (ceil_seconds (RateLimitEntry.resetTime e - now)) else None;
        outcome := verdict options (RateLimitEntry.count e) |},
     <[keyOf options req := e]> store).
Proof.
  unfold rateLimit. fold (keyOf options req).
  fold (limitOf options) (windowOf options) (messageOf options). unfold verdict.
  destruct (store !! keyOf options req) as [e0|];
    [destruct (RateLimitEntry.resetTime e0 <=? now)|];
    cbn [RateLimitEntry.count RateLimitEntry.resetTime];
    by destruct (limitOf options <? _).
Qed.

Lemma verdict_next (options : RateLimitOptions) (n : Z) :
  verdict options n = next <-> n <= limitOf options.
Proof.
  unfold verdict. destruct (Z.ltb_spec (limitOf options) n); split; try done; lia.
Qed.

(** X1.  A limiter that has its key to itself counts a fixed window from
    the first request: when the key has no entry, or one whose window is
    over, the request at [t0] opens a window, and of the requests that
    follow before [t0 + windowMs] the [k]-th of the window (the opening one
    is the first) passes exactly when [k] is at most [maxRequests]; every
    other one is answered with the limiter's message and status 429. *)
Theorem rateLimit_window_from_first_request (options : RateLimitOptions)
    (req : Request) (t0 : Z) (times : list Z) (store : gmap string RateLimitEntry.t) :
  (forall e, store !! keyOf options req = Some e -> RateLimitEntry.resetTime e <= t0) ->
  Forall (fun t => t < t0 + windowOf options) times ->
  List.map outcome
    (serve (rateLimit options) (List.map (fun t => (req, t)) (t0 :: times)) store).1
  = List.map (fun k => if Z.of_nat k <=? limitOf options then next
                       else sendError (messageOf options) 429)
      (seq 1 (S (length times))).
Proof.
  intros Hfresh Hall. cbn [List.map serve length seq].
  destruct (rateLimit_fresh options req t0 store Hfresh) as (reply & -> & Ho & _).
  pose proof (rateLimit_alone options req times
                (<[keyOf options req :=
                     {| RateLimitEntry.count := 1;
                        RateLimitEntry.resetTime := t0 + windowOf options |}]> store)
                1 (t0 + windowOf options) (lookup_insert_eq _ _ _) Hall) as Hrest.
  destruct (serve _ _ _) as [rs store']. cbn [fst List.map] in *.
  rewrite Ho, Hrest. f_equal.
  - unfold verdict. destruct (Z.ltb_spec (limitOf options) 1);
      destruct (Z.leb_spec (Z.of_nat 1) (limitOf options)); try done; lia.
  - rewrite <- (List.seq_shift (length times) 1), <- (List.seq_shift (length times) 0).
    rewrite !List.map_map. apply List.map_ext. intros i. unfold verdict.
    destruct (Z.ltb_spec (limitOf options) (1 + 1 + Z.of_nat i));
      destruct (Z.leb_spec (Z.of_nat (S (S i))) (limitOf options)); try done; lia.
Qed.

Lemma rateLimit_window_from_first_request_witness :
  List.map outcome
    (serve authRateLimiter
       (List.map (fun t => ({| ip := Some "203.0.113.7" |}, t))
          [0; 1; 2; 3; 4; 5; 6; 7; 8; 9; 899999]) ∅).1
  = [next; next; next; next; next; next; next; next; next; next;
     sendError "Too many authentication attempts, please try again in 15 minutes" 429].
Proof.
  apply (rateLimit_window_from_first_request
           {| windowMs := Some (15 * 60 * 1000);
              maxRequests := Some 10;
              message := Some "Too many authentication attempts, please try again in 15 minutes";
              keyGenerator := None |}
           {| ip := Some "203.0.113.7" |} 0 [1; 2; 3; 4; 5; 6; 7; 8; 9; 899999] ∅).
  - intros e He. rewrite lookup_empty in He. discriminate.
  - repeat constructor.
Defined.

(** X2.  A request touches the entry of its own key only, and the answer
    depends on nothing else of the store: clients with different keys
    never count against each other. *)
Theorem rateLimit_keys_isolated (options : RateLimitOptions) (req : Request) (now : Z)
    (store store2 : gmap string RateLimitEntry.t) :
  (forall k : string, k <> keyOf options req ->
     (rateLimit options req now store).2 !! k = store !! k) /\
  (store !! keyOf options req = store2 !! keyOf options req ->
   (rateLimit options req now store).1 = (rateLimit options req now store2).1).
Proof.
  rewrite !rateLimit_entry. cbn [fst snd]. split.
  - intros k Hk. by rewrite lookup_insert_ne.
  - intros ->. reflexivity.
Qed.

Lemma rateLimit_keys_isolated_witness :
  (rateLimit {| windowMs := None; maxRequests := None; message := None;
                keyGenerator := None |}
     {| ip := Some "203.0.113.7" |} 5000
     (<["198.51.100.9" := {| RateLimitEntry.count := 100;
                             RateLimitEntry.resetTime := 60000 |}]> ∅)).1
  = (rateLimit {| windowMs := None; maxRequests := None; message := None;
                  keyGenerator := None |}
       {| ip := Some "203.0.113.7" |} 5000 ∅).1.
Proof.
  apply (rateLimit_keys_isolated
           {| windowMs := None; maxRequests := None; message := None;
              keyGenerator := None |}
           {| ip := Some "203.0.113.7" |} 5000
           (<["198.51.100.9" := {| RateLimitEntry.count := 100;
                                   RateLimitEntry.resetTime := 60000 |}]> ∅) ∅).
  reflexivity.
Defined.

(** X3.  What the headers of an answer say about the entry that the
    request leaves in the store: the limit, the requests that remain
    (never negative), and the reset time; a request passes exactly when
    the count it brought the window to is at most the limit; a rejected
    request carries [Retry-After], the whole seconds up to the reset
    rounded up, and a request that passes carries none. *)
Theorem rateLimit_headers (options : RateLimitOptions) (req : Request) (now : Z)
    (store : gmap string RateLimitEntry.t) :
  exists e : RateLimitEntry.t,
    let reply := (rateLimit options req now store).1 in
    (rateLimit options req now store).2 !! keyOf options req = Some e /\
    X_RateLimit_Limit reply = limitOf options /\
    X_RateLimit_Remaining reply = Z.max 0 (limitOf options - RateLimitEntry.count e) /\
    0 <= X_RateLimit_Remaining reply /\
    X_RateLimit_Reset reply = RateLimitEntry.resetTime e /\
    (RateLimitEntry.count e <= limitOf options ->
     outcome reply = next /\ Retry_After reply = None) /\
    (limitOf options < RateLimitEntry.count e ->
     outcome reply = sendError (messageOf options) 429 /\
     exists s : Z, Retry_After reply = Some s /\
       (s - 1) * 1000 < RateLimitEntry.resetTime e - now <= s * 1000).
Proof.
  rewrite rateLimit_entry. cbn zeta. cbn [fst snd].
  eexists. split; [apply lookup_insert_eq|].
  cbn [X_RateLimit_Limit X_RateLimit_Remaining X_RateLimit_Reset Retry_After outcome].
  split; [done|]. split; [done|]. split; [lia|]. split; [done|].
  unfold verdict. split; intros Hc.
  - match goal with |- context [limitOf options <? ?c] =>
      destruct (Z.ltb_spec (limitOf options) c); [lia|done] end.
  - match goal with |- context [limitOf options <? ?c] =>
      destruct (Z.ltb_spec (limitOf options) c); [|lia] end.
    split; [done|]. eexists. split; [reflexivity|].
    unfold ceil_seconds.
    match goal with |- context [(- ?x) / 1000] =>
      pose proof (Z.div_mod (- x) 1000 ltac:(lia));
      pose proof (Z.mod_pos_bound (- x) 1000 ltac:(lia)) end.
    lia.
Qed.

Lemma rateLimit_headers_witness :
  exists e : RateLimitEntry.t,
    let reply :=
      (rateLimit {| windowMs := None; maxRequests := Some 1; message := None;
                    keyGenerator := None |}
         {| ip := None |} 1500
         (<["unknown" := {| RateLimitEntry.count := 1;
                            RateLimitEntry.resetTime := 60000 |}]> ∅)).1 in
    RateLimitEntry.count e = 2 /\
    outcome reply = sendError "Too many requests, please try again later" 429 /\
    Retry_After reply = Some 59.
Proof.
  destruct (rateLimit_headers
              {| windowMs := None; maxRequests := Some 1; message := None;
                 keyGenerator := None |}
              {| ip := None |} 1500
              (<["unknown" := {| RateLimitEntry.count := 1;
                                 RateLimitEntry.resetTime := 60000 |}]> ∅))
    as (e & He & _ & _ & _ & _ & _ & Hrej).
  exists e. cbn zeta in *.
  assert (e = {| RateLimitEntry.count := 2; RateLimitEntry.resetTime := 60000 |}) as ->.
  { vm_compute in He. by injection He. }
  destruct Hrej as (Ho & s & Hs & _); [vm_compute; reflexivity|].
  split; [reflexivity|]. split; [exact Ho|]. vm_compute. reflexivity.
Defined.

(** X4.  The window is fixed, not sliding: while it is open every request
    of the key is counted, the rejected ones too, and none of them moves
    the reset time; the first request at or after the reset time starts a
    window of its own with count one, whatever the count had reached. *)
Theorem rateLimit_fixed_window (options : RateLimitOptions) (req : Request)
    (times : list Z) (t : Z) (store : gmap string RateLimitEntry.t) (c r : Z) :
  store !! keyOf options req =
    Some {| RateLimitEntry.count := c; RateLimitEntry.resetTime := r |} ->
  Forall (fun t => t < r) times ->
  r <= t ->
  let store1 :=
    (serve (rateLimit options) (List.map (fun t => (req, t)) times) store).2 in
  store1 !! keyOf options req =
    Some {| RateLimitEntry.count := c + Z.of_nat (length times);
            RateLimitEntry.resetTime := r |} /\
  (rateLimit options req t store1).2 !! keyOf options req =
    Some {| RateLimitEntry.count := 1; RateLimitEntry.resetTime := t + windowOf options |} /\
  outcome (rateLimit options req t store1).1 = verdict options 1.
Proof.
  intros Hc Hall Hr. cbn zeta.
  assert (Hstore :
    (serve (rateLimit options) (List.map (fun t => (req, t)) times) store).2
      !! keyOf options req =
    Some {| RateLimitEntry.count := c + Z.of_nat (length times);
            RateLimitEntry.resetTime := r |}).
  { clear Hr t. revert store c Hc.
    induction times as [|t times IH]; intros store c Hc.
    - cbn. rewrite Hc. do 2 f_equal. lia.
    - apply Forall_cons in Hall as [Ht Hall]. cbn [List.map serve].
      rewrite rateLimit_entry, Hc. cbn zeta.
      cbn [RateLimitEntry.count RateLimitEntry.resetTime].
      destruct (Z.leb_spec r t); [lia|].
      specialize (IH Hall
                    (<[keyOf options req :=
                         {| RateLimitEntry.count := c + 1;
                            RateLimitEntry.resetTime := r |}]> store) (c + 1)
                    (lookup_insert_eq _ _ _)).
      destruct (serve _ _ _) as [rs store']. cbn [snd length] in *.
      rewrite IH. do 2 f_equal. lia. }
  split; [exact Hstore|].
  rewrite rateLimit_entry, Hstore. cbn zeta.
  cbn [RateLimitEntry.count RateLimitEntry.resetTime fst snd outcome].
  destruct (Z.leb_spec r t); [|lia].
  split; [apply lookup_insert_eq|reflexivity].
Qed.

Lemma rateLimit_fixed_window_witness :
  let store1 :=
    (serve apiRateLimiter
       (List.map (fun t => ({| ip := Some "203.0.113.7" |}, t)) [10; 20; 59999])
       (<["203.0.113.7" := {| RateLimitEntry.count := 100;
                              RateLimitEntry.resetTime := 60000 |}]> ∅)).2 in
  store1 !! "203.0.113.7" =
    Some {| RateLimitEntry.count := 103; RateLimitEntry.resetTime := 60000 |} /\
  (apiRateLimiter {| ip := Some "203.0.113.7" |} 60000 store1).2 !! "203.0.113.7" =
    Some {| RateLimitEntry.count := 1; RateLimitEntry.resetTime := 120000 |} /\
  outcome (apiRateLimiter {| ip := Some "203.0.113.7" |} 60000 store1).1 = next.
Proof.
  apply (rateLimit_fixed_window
           {| windowMs := Some (60 * 1000); maxRequests := Some 100;
              message := None; keyGenerator := None |}
           {| ip := Some "203.0.113.7" |} [10; 20; 59999] 60000
           (<["203.0.113.7" := {| RateLimitEntry.count := 100;
                                  RateLimitEntry.resetTime := 60000 |}]> ∅)
           100 60000).
  - reflexivity.
  - repeat constructor.
  - lia.
Defined.

(** X5.  The periodic sweep keeps exactly the entries whose reset time is
    still ahead, and no limiter can tell that it ran: at any instant from
    the sweep on, the answer to a request is the same with and without
    it. *)
Theorem cleanup_removes_expired_only (t : Z) (store : gmap string RateLimitEntry.t) :
  (forall (k : string) (e : RateLimitEntry.t),
     cleanup t store !! k = Some e <->
     store !! k = Some e /\ t < RateLimitEntry.resetTime e) /\
  (forall (options : RateLimitOptions) (req : Request) (now : Z),
     t <= now ->
     (rateLimit options req now (cleanup t store)).1
     = (rateLimit options req now store).1).
Proof.
  split.
  - intros k e. unfold cleanup. rewrite map_lookup_filter_Some. cbn. intuition lia.
  - intros options req now Ht. by apply rateLimit_cleanup.
Qed.

Lemma cleanup_removes_expired_only_witness :
  cleanup 60000
    (<["198.51.100.9" := {| RateLimitEntry.count := 3; RateLimitEntry.resetTime := 60000 |}]>
       (<["203.0.113.7" := {| RateLimitEntry.count := 7;
                              RateLimitEntry.resetTime := 60001 |}]> ∅))
    !! "203.0.113.7"
  = Some {| RateLimitEntry.count := 7; RateLimitEntry.resetTime := 60001 |}.
Proof.
  apply (cleanup_removes_expired_only 60000
           (<["198.51.100.9" := {| RateLimitEntry.count := 3;
                                   RateLimitEntry.resetTime := 60000 |}]>
              (<["203.0.113.7" := {| RateLimitEntry.count := 7;
                                     RateLimitEntry.resetTime := 60001 |}]> ∅))).
  split; [reflexivity|cbn; lia].
Defined.

(** The chain in front of the authentication endpoints while the window
    that the general limiter opened is running: both limiters count on
    the one entry. *)
Lemma authRoute_within (req : Request) (times : list Z)
    (store : gmap string RateLimitEntry.t) (c r : Z) :
  store !! keyOf {| windowMs := None; maxRequests := None; message := None;
                    keyGenerator := None |} req =
    Some {| RateLimitEntry.count := c; RateLimitEntry.resetTime := r |} ->
  Forall (fun t => t < r) times ->
  c + 2 * Z.of_nat (length times) <= 101 ->
  (serve authRoute (List.map (fun t => (req, t)) times) store).1
  = List.map (fun i => if c + 2 + 2 * Z.of_nat i <=? 10 then next
                       else sendError
                              "Too many authentication attempts, please try again in 15 minutes"
                              429)
      (seq 0 (length times)).
Proof.
  revert store c. induction times as [|t times IH]; intros store c Hc Hall Hlen; [done|].
  apply Forall_cons in Hall as [Ht Hall].
  cbn [List.map serve length seq]. cbn [length] in Hlen.
  unfold authRoute at 1. unfold apiRateLimiter, authRateLimiter.
  rewrite (rateLimit_entry _ req t store).
  change (keyOf {| windowMs := Some (60 * 1000); maxRequests := Some 100;
                   message := None; keyGenerator := None |} req)
    with (keyOf {| windowMs := None; maxRequests := None; message := None;
                   keyGenerator := None |} req).
  rewrite Hc. cbn zeta. cbn [RateLimitEntry.count RateLimitEntry.resetTime].
  destruct (Z.leb_spec r t); [lia|].
  cbn [outcome].
  rewrite rateLimit_entry.
  change (keyOf {| windowMs := Some (15 * 60 * 1000); maxRequests := Some 10;
                   message := Some "Too many authentication attempts, please try again in 15 minutes";
                   keyGenerator := None |} req)
    with (keyOf {| windowMs := None; maxRequests := None; message := None;
                   keyGenerator := None |} req).
  rewrite lookup_insert_eq. cbn zeta.
  cbn [RateLimitEntry.count RateLimitEntry.resetTime outcome].
  destruct (Z.leb_spec r t); [lia|].
  cbn [RateLimitEntry.count RateLimitEntry.resetTime].
  rewrite insert_insert_eq.
  change (verdict {| windowMs := Some (60 * 1000); maxRequests := Some 100;
                     message := None; keyGenerator := None |} (c + 1))
    with (if 100 <? c + 1
          then sendError "Too many requests, please try again later" 429 else next).
  destruct (Z.ltb_spec 100 (c + 1)); [lia|].
  specialize (IH (<[keyOf {| windowMs := None; maxRequests := None; message := None;
                             keyGenerator := None |} req :=
                      {| RateLimitEntry.count := c + 1 + 1;
                         RateLimitEntry.resetTime := r |}]> store) (c + 1 + 1)
                (lookup_insert_eq _ _ _) Hall ltac:(lia)).
  destruct (serve _ _ _) as [rs store']. cbn [fst] in *.
  rewrite IH. f_equal.
  - change (verdict _ (c + 1 + 1))
      with (if 10 <? c + 1 + 1
            then sendError
                   "Too many authentication attempts, please try again in 15 minutes" 429
            else next).
    destruct (Z.ltb_spec 10 (c + 1 + 1)); destruct (Z.leb_spec (c + 2 + 2 * Z.of_nat 0) 10);
      try done; lia.
  - rewrite <- List.seq_shift, List.map_map. apply List.map_ext. intros i.
    replace (c + 1 + 1 + 2 + 2 * Z.of_nat i) with (c + 2 + 2 * Z.of_nat (S i)) by lia.
    reflexivity.
Qed.

(** X6.  In front of the authentication endpoints [apiRateLimiter] and
    [authRateLimiter] run one after the other on the same entry of the
    same store.  For a client with no entry, the request at [t0] opens the
    general limiter's window of one minute and is counted twice, and so is
    each request that follows within the minute: the [k]-th passes exactly
    when [k] is at most five, and from the sixth on the answer is the
    authentication limiter's 429 (up to fifty requests, where the general
    limiter starts to answer). *)
Theorem authRoute_counts_twice (req : Request) (t0 : Z) (times : list Z)
    (store : gmap string RateLimitEntry.t) :
  store !! keyOf {| windowMs := None; maxRequests := None; message := None;
                    keyGenerator := None |} req = None ->
  Forall (fun t => t < t0 + 60000) times ->
  (length times < 50)%nat ->
  (serve authRoute (List.map (fun t => (req, t)) (t0 :: times)) store).1
  = List.map (fun k => if Z.of_nat k <=? 5 then next
                       else sendError
                              "Too many authentication attempts, please try again in 15 minutes"
                              429)
      (seq 1 (S (length times))).
Proof.
  intros Hnone Hall Hlen. cbn [List.map serve length seq].
  unfold authRoute at 1. unfold apiRateLimiter, authRateLimiter.
  rewrite (rateLimit_entry _ req t0 store).
  change (keyOf {| windowMs := Some (60 * 1000); maxRequests := Some 100;
                   message := None; keyGenerator := None |} req)
    with (keyOf {| windowMs := None; maxRequests := None; message := None;
                   keyGenerator := None |} req).
  rewrite Hnone. cbn zeta. cbn [RateLimitEntry.count RateLimitEntry.resetTime outcome].
  rewrite rateLimit_entry.
  change (keyOf {| windowMs := Some (15 * 60 * 1000); maxRequests := Some 10;
                   message := Some "Too many authentication attempts, please try again in 15 minutes";
                   keyGenerator := None |} req)
    with (keyOf {| windowMs := None; maxRequests := None; message := None;
                   keyGenerator := None |} req).
  rewrite lookup_insert_eq. cbn zeta.
  cbn [RateLimitEntry.count RateLimitEntry.resetTime outcome].
  change (windowOf {| windowMs := Some (60 * 1000); maxRequests := Some 100;
                      message := None; keyGenerator := None |}) with 60000.
  destruct (Z.leb_spec (t0 + 60000) t0); [lia|].
  cbn [RateLimitEntry.count RateLimitEntry.resetTime].
  rewrite insert_insert_eq.
  change (verdict {| windowMs := Some (60 * 1000); maxRequests := Some 100;
                     message := None; keyGenerator := None |} 1) with next.
  cbv beta iota zeta.
  destruct (serve authRoute _ _) as [rs store'] eqn:Es. cbn [fst].
  assert (Hrest : rs = (rs, store').1) by reflexivity.
  rewrite <- Es in Hrest.
  rewrite (authRoute_within req times _ (1 + 1) (t0 + 60000)
             (lookup_insert_eq _ _ _) Hall ltac:(lia)) in Hrest.
  rewrite Hrest.
  change (verdict _ (1 + 1)) with next. f_equal.
  rewrite <- (List.seq_shift (length times) 1), <- (List.seq_shift (length times) 0).
  rewrite !List.map_map. apply List.map_ext. intros i.
  destruct (Z.leb_spec (1 + 1 + 2 + 2 * Z.of_nat i) 10);
    destruct (Z.leb_spec (Z.of_nat (S (S i))) 5); try done; lia.
Qed.

Lemma authRoute_counts_twice_witness :
  (serve authRoute
     (List.map (fun t => ({| ip := Some "203.0.113.7" |}, t))
        [0; 1000; 2000; 3000; 4000; 5000; 59999]) ∅).1
  = [next; next; next; next; next;
     sendError "Too many authentication attempts, please try again in 15 minutes" 429;
     sendError "Too many authentication attempts, please try again in 15 minutes" 429].
Proof.
  apply (authRoute_counts_twice {| ip := Some "203.0.113.7" |} 0
           [1000; 2000; 3000; 4000; 5000; 59999] ∅).
  - reflexivity.
  - repeat constructor.
  - cbn. lia.
Defined.

(** ** Token codec *)

Lemma parseDigits_junk (ds junk : string) (c : ascii) (acc : Z) :
  isDigits ds = true -> digitOf c = None ->
  parseDigits acc (String.append ds (String c junk)) = parseDigits acc ds.
Proof.
  intros Hds Hc. revert acc. induction ds as [|a ds IH]; intros acc.
  - change (parseDigits acc (String c junk) = acc). cbn [parseDigits]. by rewrite Hc.
  - cbn [isDigits] in Hds. apply andb_prop in Hds as [Ha Hds].
    rewrite append_cons. cbn [parseDigits].
    destruct (digitOf a); [by apply IH|done].
Qed.

Lemma append_assoc_snoc (s t : string) (u : ascii) :
  String.append s (String.append t (String u EmptyString))
  = String.append (String.append s t) (String u EmptyString).
Proof.
  induction s as [|a s IH]; [done|]. rewrite !append_cons. by rewrite IH.
Qed.

(** X7.  [parseDuration] reads the number with [parseInt]: what follows
    the leading digits is dropped without complaint.  A duration whose
    number part is digits followed by anything that starts with a
    non-digit means the same as the digits alone with the same last
    character: [1.5h] is one hour and [10 m] is ten minutes. *)
Theorem parseDuration_ignores_after_digits (ds junk : string) (c u : ascii) :
  isDigits ds = true -> ds <> EmptyString -> digitOf c = None ->
  parseDuration (String.append ds (String.append (String c junk) (String u EmptyString)))
  = parseDuration (String.append ds (String u EmptyString)).
Proof.
  intros Hds Hne Hc. rewrite append_assoc_snoc. unfold parseDuration.
  rewrite !slice_last_snoc, !slice_init_snoc.
  replace (parseInt10 (String.append ds (String c junk))) with (parseInt10 ds); [done|].
  destruct ds as [|a ds]; [done|].
  pose proof Hds as Hds'. cbn [isDigits] in Hds'. apply andb_prop in Hds' as [Ha _].
  apply bool_decide_eq_true in Ha.
  rewrite append_cons. unfold parseInt10. cbn [trimStart]. rewrite (digit_not_space _ Ha).
  destruct (digit_not_sign _ Ha) as [Hm Hp].
  assert (Hbody : forall r : string,
    match String a r with
    | String "-" r => (-1, r)
    | String "+" r => (1, r)
    | _ => (1, String a r)
    end = (1, String a r)).
  { intros r. destruct (decide (a = "-"%char)); [done|].
    destruct (decide (a = "+"%char)); [done|].
    destruct a as [[] [] [] [] [] [] [] []]; try reflexivity; congruence. }
  rewrite !Hbody. cbn [startsWithDigit]. rewrite bool_decide_eq_true_2 by done.
  rewrite <- append_cons. by rewrite (parseDigits_junk _ _ _ _ Hds Hc).
Qed.

Lemma parseDuration_ignores_after_digits_witness :
  parseDuration "1.5h" = parseDuration "1h".
Proof.
  apply (parseDuration_ignores_after_digits "1" "5" "."%char "h"%char).
  - reflexivity.
  - discriminate.
  - reflexivity.
Defined.

(** X8.  What a verifier accepts, and for how long.  [verifyAccessToken]
    returns claims only for a token signed with the access secret whose
    [type] is [access] and whose [exp] is ahead of the clock in whole
    seconds, and the claims it returns are the signed ones;
    [verifyRefreshToken] likewise with the refresh secret and [refresh].
    A token that a verifier refuses is refused at every later instant. *)
Theorem verify_sound_and_refusal_final (env : Env) (t : Token) (now : Z) :
  (forall p : JwtPayload.t,
     verifyAccessToken env t now = Some p ->
     t = Jwt (JWT_ACCESS_SECRET env) p /\ JwtPayload.type p = "access" /\
     now / 1000 < JwtPayload.exp p) /\
  (forall p : JwtPayload.t,
     verifyRefreshToken env t now = Some p ->
     t = Jwt (JWT_REFRESH_SECRET env) p /\ JwtPayload.type p = "refresh" /\
     now / 1000 < JwtPayload.exp p) /\
  (forall now' : Z, now <= now' ->
     (verifyAccessToken env t now = None -> verifyAccessToken env t now' = None) /\
     (verifyRefreshToken env t now = None -> verifyRefreshToken env t now' = None)).
Proof.
  unfold verifyAccessToken, verifyRefreshToken, jwt_verify.
  split; [|split].
  - intros p. destruct t as [key q|raw]; [|done].
    destruct (String.eqb_spec key (JWT_ACCESS_SECRET env)) as [->|]; [|done].
    destruct (Z.leb_spec (JwtPayload.exp q) (now / 1000)); [done|].
    destruct (String.eqb_spec (JwtPayload.type q) "access"); [|done].
    cbn. intros [= <-]. done.
  - intros p. destruct t as [key q|raw]; [|done].
    destruct (String.eqb_spec key (JWT_REFRESH_SECRET env)) as [->|]; [|done].
    destruct (Z.leb_spec (JwtPayload.exp q) (now / 1000)); [done|].
    destruct (String.eqb_spec (JwtPayload.type q) "refresh"); [|done].
    cbn. intros [= <-]. done.
  - intros now' Hle.
    assert (now / 1000 <= now' / 1000) by (apply Z.div_le_mono; lia).
    destruct t as [key q|raw]; [|done]. split.
    + destruct (String.eqb key (JWT_ACCESS_SECRET env)); [|done].
      destruct (Z.leb_spec (JwtPayload.exp q) (now / 1000)).
      * destruct (Z.leb_spec (JwtPayload.exp q) (now' / 1000)); [done|lia].
      * destruct (Z.leb_spec (JwtPayload.exp q) (now' / 1000)); [done|].
        by destruct (negb _).
    + destruct (String.eqb key (JWT_REFRESH_SECRET env)); [|done].
      destruct (Z.leb_spec (JwtPayload.exp q) (now / 1000)).
      * destruct (Z.leb_spec (JwtPayload.exp q) (now' / 1000)); [done|lia].
      * destruct (Z.leb_spec (JwtPayload.exp q) (now' / 1000)); [done|].
        by destruct (negb _).
Qed.

Lemma verify_sound_and_refusal_final_witness :
  verifyRefreshToken exampleEnv aliceToken 605800000 = None /\
  verifyRefreshToken exampleEnv aliceToken 605800001 = None.
Proof.
  pose proof (verify_sound_and_refusal_final exampleEnv aliceToken 605800000)
    as (_ & _ & Hfinal).
  split; [reflexivity|]. apply (Hfinal 605800001); [lia|reflexivity].
Defined.

(** X9.  The two expiries of a refresh token.  [generateRefreshToken]
    signs [exp] in whole seconds and [storeRefreshToken] computes the
    record's [expiresAt] in milliseconds with [getExpirationDate], from
    the same duration: at one instant of the clock the record's expiry is
    the signed one or up to a second later, never earlier.  So at any
    instant at which [verifyRefreshToken] accepts the token the record's
    expiry is still ahead: the test [expiresAt < now] of
    [refreshTokens], behind which the record is deleted, is false for
    it. *)
Theorem refresh_record_outlives_signed_expiry (env : Env) (userId email : string)
    (now : Z) (t : Token) (expiresAt : Z) :
  generateRefreshToken env userId email now = Ok t ->
  getExpirationDate (JWT_REFRESH_EXPIRES_IN env) now = Num expiresAt ->
  (exists p : JwtPayload.t,
     t = Jwt (JWT_REFRESH_SECRET env) p /\
     JwtPayload.exp p * 1000 <= expiresAt < JwtPayload.exp p * 1000 + 1000) /\
  (forall now' : Z,
     verifyRefreshToken env t now' <> None ->
     now' < expiresAt /\ (expiresAt <? now') = false).
Proof.
  unfold generateRefreshToken, getExpirationDate, jwt_sign.
  destruct (parseDuration (JWT_REFRESH_EXPIRES_IN env)) as [ttl|]; [|done].
  cbn [mul]. intros [= <-] [= <-].
  pose proof (Z.div_mod now 1000 ltac:(lia)).
  pose proof (Z.mod_pos_bound now 1000 ltac:(lia)).
  split.
  - eexists. split; [reflexivity|]. cbn [JwtPayload.exp]. lia.
  - intros now'. unfold verifyRefreshToken, jwt_verify.
    rewrite String.eqb_refl. cbn [JwtPayload.exp JwtPayload.type].
    pose proof (Z.div_mod now' 1000 ltac:(lia)).
    pose proof (Z.mod_pos_bound now' 1000 ltac:(lia)).
    destruct (Z.leb_spec (now / 1000 + ttl) (now' / 1000)); [done|].
    intros _. assert (now' < now + ttl * 1000) by lia.
    split; [done|]. apply Z.ltb_ge. lia.
Qed.

Lemma refresh_record_outlives_signed_expiry_witness :
  (exists p : JwtPayload.t,
     aliceToken = Jwt (JWT_REFRESH_SECRET exampleEnv) p /\
     JwtPayload.exp p * 1000 <= 605800999 < JwtPayload.exp p * 1000 + 1000) /\
  (forall now' : Z,
     verifyRefreshToken exampleEnv aliceToken now' <> None ->
     now' < 605800999 /\ (605800999 <? now') = false).
Proof.
  apply (refresh_record_outlives_signed_expiry exampleEnv "u-1" "alice@example.com"
           1000999 aliceToken 605800999); reflexivity.
Defined.

(** ** Authentication middleware *)

Lemma uniqueUserIds_inj (us : list User.t) (u : User.t) :
  List.NoDup (List.map User.id us) -> In u us -> userById (User.id u) us = Some u.
Proof.
  induction us as [|v us IH]; [done|]. cbn [List.map]. intros Hnd Hin.
  apply List.NoDup_cons_iff in Hnd as [Hv Hnd]. unfold userById. cbn [List.find].
  destruct (String.eqb_spec (User.id v) (User.id u)) as [E|E].
  - destruct Hin as [->|Hin]; [done|]. exfalso. apply Hv. rewrite E.
    by apply List.in_map.
  - destruct Hin as [->|Hin]; [done|]. by apply IH.
Qed.

Lemma userByEmail_In (email : string) (us : list User.t) (u : User.t) :
  userByEmail email us = Some u -> In u us /\ User.email u = email.
Proof.
  intros E. apply find_In in E as [Hin He]. by apply String.eqb_eq in He.
Qed.

Lemma sameAccount_refl (u : User.t) : sameAccount u u.
Proof. done. Qed.

Lemma accountsKept_refl (db : DB.t) : accountsKept db db.
Proof. intros id u E. exists u. split; [done|apply sameAccount_refl]. Qed.

Lemma accountsKept_trans (db1 db2 db3 : DB.t) :
  accountsKept db1 db2 -> accountsKept db2 db3 -> accountsKept db1 db3.
Proof.
  intros H12 H23 id u E. destruct (H12 id u E) as (u2 & E2 & ? & ? & ?).
  destruct (H23 id u2 E2) as (u3 & E3 & ? & ? & ?).
  exists u3. split; [done|]. unfold sameAccount. split; [|split]; congruence.
Qed.

Lemma accountsKept_users (db db' : DB.t) :
  DB.user db' = DB.user db -> accountsKept db db'.
Proof. intros E id u Eu. rewrite E. exists u. split; [done|apply sameAccount_refl]. Qed.

Lemma accountsKept_update (f : User.t -> User.t) (id : string) (db : DB.t) :
  (forall u, sameAccount u (f u)) ->
  accountsKept db
    (with_users
       (List.map (fun v => if String.eqb (User.id v) id then f v else v) (DB.user db)) db).
Proof.
  intros Hf id' u Eu. cbn [with_users DB.user].
  rewrite (userById_update id id') by (intros v; apply (Hf v)).
  rewrite Eu. cbn [option_map]. eexists. split; [reflexivity|].
  destruct (String.eqb (User.id u) id); [apply Hf|apply sameAccount_refl].
Qed.

(** No call of the client that the session manager makes removes an
    account or changes its identifier, email or status. *)
Lemma handle_accountsKept {X : Type} (q : Prisma X) (db : DB.t) :
  accountsKept db (handle q db).2.
Proof.
  destruct q; cbn [handle];
    repeat case_match;
    try (apply accountsKept_users; reflexivity).
  - intros id' v Ev. cbn [snd with_users DB.user]. exists v.
    split; [|apply sameAccount_refl].
    unfold userById in *. by apply find_app_Some.
  - cbn [snd]. by apply accountsKept_update.
  - cbn [snd]. by apply accountsKept_update.
Qed.

Lemma run_accountsKept {A : Type} (p : Prog A) (db : DB.t) :
  accountsKept db (run p db).2.
Proof.
  revert db. induction p as [a|e|X q k IH]; intros db; cbn [run];
    try apply accountsKept_refl.
  pose proof (handle_accountsKept q db) as Hq.
  destruct (handle q db) as [[x|e] db']; cbn [snd] in *; [|done].
  eapply accountsKept_trans; [exact Hq|apply IH].
Qed.

Lemma find_app_miss {A : Type} (p : A -> bool) (l l' : list A) :
  List.find p l = None -> List.find p (l ++ l') = List.find p l'.
Proof.
  induction l as [|y l IH]; [done|].
  cbn. destruct (p y); [discriminate|exact IH].
Qed.

Section Middleware.
Variable env : Env.
Context `{PasswordUtils}.

Lemma afterAll_accountsKept (history : list Call) (db : DB.t) :
  accountsKept db (afterAll env history db).
Proof.
  revert db. induction history as [|c history IH]; intros db; [apply accountsKept_refl|].
  cbn [afterAll fold_left]. eapply accountsKept_trans; [|apply IH].
  destruct c; cbn [after]; apply run_accountsKept.
Qed.

(** What a successful [login] found, returned and wrote. *)
Lemma login_ok (data : LoginInput.t) (userAgent ipAddress : option string) (w : World)
    (db db1 : DB.t) (res : AuthResult) :
  run (login env data userAgent ipAddress w) db = (Ok res, db1) ->
  exists (u : User.t) (ttlA ttlR : Z),
    userByEmail (LoginInput.email data) (DB.user db) = Some u /\
    falsy (User.passwordHash u) = false /\
    comparePassword (LoginInput.password data) (default "" (User.passwordHash u)) = true /\
    User.status u = "active" /\
    parseDuration (JWT_ACCESS_EXPIRES_IN env) = Num ttlA /\
    parseDuration (JWT_REFRESH_EXPIRES_IN env) = Num ttlR /\
    res = {| user := userSelectFields u;
             tokens :=
               {| accessToken :=
                    Jwt (JWT_ACCESS_SECRET env)
                      {| JwtPayload.userId := User.id u; JwtPayload.email := User.email u;
                         JwtPayload.type := "access"; JwtPayload.iat := now w / 1000;
                         JwtPayload.exp := now w / 1000 + ttlA |};
                  refreshToken :=
                    Jwt (JWT_REFRESH_SECRET env)
                      {| JwtPayload.userId := User.id u; JwtPayload.email := User.email u;
                         JwtPayload.type := "refresh"; JwtPayload.iat := now w / 1000;
                         JwtPayload.exp := now w / 1000 + ttlR |} |} |} /\
    DB.user db1 =
      List.map (fun v => if String.eqb (User.id v) (User.id u)
                         then User.with_lastLoginAt (now w) v else v) (DB.user db) /\
    DB.refreshToken db1 =
      evict (User.id u)
        (DB.refreshToken db ++
         [newRecord (User.id u) (refreshToken (tokens res)) userAgent ipAddress w
            (now w + ttlR * 1000)]).
Proof.
  unfold login. rewrite run_bind, run_await. cbn [handle].
  destruct (userByEmail (LoginInput.email data) (DB.user db)) as [u|] eqn:Eu;
    [|discriminate].
  destruct (falsy (User.passwordHash u)) eqn:Ef; [discriminate|].
  destruct (comparePassword _ _) eqn:Ec; [|discriminate]. cbn [negb].
  destruct (String.eqb_spec (User.status u) "active") as [Es|]; [|discriminate].
  cbn [negb]. rewrite run_bind, run_await. cbn [handle].
  destruct (userById (User.id u) (DB.user db)) as [u0|] eqn:Eu0; [|discriminate].
  rewrite run_bind, run_try.
  destruct (generateTokenPair_cases env (User.id u) (User.email u) (now w))
    as [(ttlA & ttlR & HA & HR & ->)|(m & ->)]; [|discriminate].
  rewrite run_bind. cbn [refreshToken].
  match goal with |- context [run (storeRefreshToken env ?uid ?tk ?ua ?ip ?w) ?d] =>
    destruct (run_storeRefreshToken env uid tk ua ip w d)
      as [(c & ->)|(e & He & _ & _ & _ & ->)] end; [discriminate|].
  cbn [run]. intros [= <- <-].
  rewrite (getExpirationDate_Num env _ _ HR) in He. injection He as <-.
  exists u, ttlA, ttlR. cbn [with_tokens with_users DB.user DB.refreshToken tokens refreshToken].
  done.
Qed.

(** What a successful [register] returned and wrote. *)
Lemma register_ok (data : RegisterInput.t) (userAgent ipAddress : option string)
    (w : World) (db db1 : DB.t) (res : AuthResult) :
  run (register env data userAgent ipAddress w) db = (Ok res, db1) ->
  let u := {| User.id := userUuid w;
              User.email := RegisterInput.email data;
              User.passwordHash :=
                Some (hashPassword (salt w) (RegisterInput.password data));
              User.name := RegisterInput.name data;
              User.status := "active";
              User.authProvider := Some "local";
              User.createdAt := now w;
              User.lastLoginAt := None |} in
  exists ttlA ttlR : Z,
    userByEmail (RegisterInput.email data) (DB.user db) = None /\
    userById (userUuid w) (DB.user db) = None /\
    parseDuration (JWT_ACCESS_EXPIRES_IN env) = Num ttlA /\
    parseDuration (JWT_REFRESH_EXPIRES_IN env) = Num ttlR /\
    res = {| user := userSelectFields u;
             tokens :=
               {| accessToken :=
                    Jwt (JWT_ACCESS_SECRET env)
                      {| JwtPayload.userId := userUuid w;
                         JwtPayload.email := RegisterInput.email data;
                         JwtPayload.type := "access"; JwtPayload.iat := now w / 1000;
                         JwtPayload.exp := now w / 1000 + ttlA |};
                  refreshToken :=
                    Jwt (JWT_REFRESH_SECRET env)
                      {| JwtPayload.userId := userUuid w;
                         JwtPayload.email := RegisterInput.email data;
                         JwtPayload.type := "refresh"; JwtPayload.iat := now w / 1000;
                         JwtPayload.exp := now w / 1000 + ttlR |} |} |} /\
    DB.user db1 = (DB.user db ++ [u])%list /\
    DB.refreshToken db1 =
      evict (userUuid w)
        (DB.refreshToken db ++
         [newRecord (userUuid w) (refreshToken (tokens res)) userAgent ipAddress w
            (now w + ttlR * 1000)]).
Proof.
  intros Hrun u. revert Hrun. unfold register. rewrite run_bind, run_await. cbn [handle].
  destruct (userByEmail (RegisterInput.email data) (DB.user db)) as [u0|] eqn:Eu;
    [discriminate|].
  rewrite run_bind, run_await. cbn [handle User.id User.email]. fold u.
  destruct (userById (userUuid w) (DB.user db)) as [u0|] eqn:Eu0; [discriminate|].
  cbn [present]. rewrite Eu. cbn [present].
  rewrite run_bind, run_try. cbn [User.id User.email u].
  destruct (generateTokenPair_cases env (userUuid w) (RegisterInput.email data) (now w))
    as [(ttlA & ttlR & HA & HR & ->)|(m & ->)]; [|discriminate].
  rewrite run_bind. cbn [refreshToken].
  match goal with |- context [run (storeRefreshToken env ?uid ?tk ?ua ?ip ?w) ?d] =>
    destruct (run_storeRefreshToken env uid tk ua ip w d)
      as [(c & ->)|(e & He & _ & _ & _ & ->)] end; [discriminate|].
  cbn [run]. intros [= <- <-].
  rewrite (getExpirationDate_Num env _ _ HR) in He. injection He as <-.
  exists ttlA, ttlR. cbn [with_tokens with_users DB.user DB.refreshToken tokens refreshToken].
  done.
Qed.

(** What [authenticate] answers for a token that verifies, by the
    account of its [userId] claim. *)
Lemma authenticate_Bearer (t : Token) (p : JwtPayload.t) (w : World) (db : DB.t) :
  verifyAccessToken env t (now w) = Some p ->
  authenticate env (Bearer t) w db =
    (Ok match userById (JwtPayload.userId p) (DB.user db) with
        | None => sendUnauthorized "User not found"
        | Some user =>
            if String.eqb (User.status user) "active"
            then proceed (User.id user) (User.email user)
            else sendForbidden (String.append "Account is " (User.status user))
        end, db).
Proof.
  intros Hp. unfold authenticate. rewrite Hp. cbn [handle].
  destruct (userById _ _) as [user|]; [|done].
  by destruct (String.eqb (User.status user) "active").
Qed.

(** X10.  [authenticate] never throws and never writes.  It calls
    [next()] exactly when the header is [Bearer] with a token that
    [verifyAccessToken] accepts and the account of the token's [userId]
    claim exists with status [active]; [req.user] is then the identifier
    and the email of the stored account, not the email claim of the
    token. *)
Theorem authenticate_proceeds_iff (authorization : Authorization) (w : World)
    (db : DB.t) :
  (exists o : AuthOutcome, authenticate env authorization w db = (Ok o, db)) /\
  forall userId email : string,
    authenticate env authorization w db = (Ok (proceed userId email), db) <->
    exists (t : Token) (p : JwtPayload.t) (u : User.t),
      authorization = Bearer t /\
      verifyAccessToken env t (now w) = Some p /\
      userById (JwtPayload.userId p) (DB.user db) = Some u /\
      User.status u = "active" /\ User.id u = userId /\ User.email u = email.
Proof.
  split.
  - destruct authorization as [|t|raw]; [by eexists| |by eexists].
    destruct (verifyAccessToken env t (now w)) as [p|] eqn:Ep.
    + rewrite (authenticate_Bearer _ _ _ _ Ep). by eexists.
    + unfold authenticate. rewrite Ep. by eexists.
  - intros userId email. split.
    + destruct authorization as [|t|raw]; [discriminate| |discriminate].
      destruct (verifyAccessToken env t (now w)) as [p|] eqn:Ep.
      * rewrite (authenticate_Bearer _ _ _ _ Ep).
        destruct (userById _ _) as [u|] eqn:Eu; [|discriminate].
        destruct (String.eqb_spec (User.status u) "active"); [|discriminate].
        intros [= <- <-]. by exists t, p, u.
      * unfold authenticate. rewrite Ep. discriminate.
    + intros (t & p & u & -> & Ep & Eu & Es & <- & <-).
      rewrite (authenticate_Bearer _ _ _ _ Ep), Eu, Es. reflexivity.
Qed.

(** X11.  [optionalAuth] sets [req.user] in exactly the cases in which
    [authenticate] does, to the same value, and calls [next()] in all the
    others too; it never throws and never writes. *)
Theorem optionalAuth_agrees_with_authenticate (authorization : Authorization)
    (w : World) (db : DB.t) :
  optionalAuth env authorization w db
  = (Ok (reqUser (authenticate env authorization w db)), db).
Proof.
  unfold reqUser. destruct authorization as [|t|raw]; [done| |done].
  destruct (verifyAccessToken env t (now w)) as [p|] eqn:Ep.
  - rewrite (authenticate_Bearer _ _ _ _ Ep). unfold optionalAuth. rewrite Ep.
    cbn [handle fst]. destruct (userById _ _) as [u|]; [|done].
    by destruct (String.eqb (User.status u) "active").
  - unfold optionalAuth, authenticate. by rewrite Ep.
Qed.

(** X12.  The session manager cannot take an access token back.  After
    any calls of [register], [login], [refreshTokens], [logout],
    [logoutAll], [changePassword] and [revokeSession], whatever they
    returned, a header that [authenticate] let pass before them is let
    pass at the same instant with the same [req.user]: signing out
    everywhere, a change of password and the revocation on a replayed
    refresh token end refresh tokens only. *)
Theorem access_token_survives_session_calls (authorization : Authorization)
    (w : World) (db : DB.t) (history : list Call) (userId email : string) :
  authenticate env authorization w db = (Ok (proceed userId email), db) ->
  authenticate env authorization w (afterAll env history db)
  = (Ok (proceed userId email), afterAll env history db).
Proof.
  intros Hauth.
  destruct authorization as [|t|raw]; [discriminate| |discriminate].
  destruct (verifyAccessToken env t (now w)) as [p|] eqn:Ep.
  - rewrite (authenticate_Bearer t p w db Ep) in Hauth.
    rewrite (authenticate_Bearer t p w _ Ep).
    destruct (userById _ (DB.user db)) as [u|] eqn:Eu; [|discriminate].
    destruct (afterAll_accountsKept history db _ _ Eu) as (u' & -> & Hid & Hmail & Hst).
    rewrite Hid, Hmail, Hst.
    destruct (String.eqb (User.status u) "active"); [|discriminate].
    by injection Hauth as <- <-.
  - unfold authenticate in Hauth. rewrite Ep in Hauth. discriminate.
Qed.

(** X13.  The access token that [login] returns authenticates: while its
    signed expiry is ahead, [authenticate] lets a request that carries it
    pass on the store that [login] left, with the account's identifier
    and email as [req.user]; the refresh token of the same pair, offered
    as a Bearer token, is refused. *)
Theorem login_access_token_authenticates (data : LoginInput.t)
    (userAgent ipAddress : option string) (w w' : World) (db db1 : DB.t)
    (res : AuthResult) (ttlA : Z) :
  uniqueUserIds db ->
  run (login env data userAgent ipAddress w) db = (Ok res, db1) ->
  parseDuration (JWT_ACCESS_EXPIRES_IN env) = Num ttlA ->
  now w' / 1000 < now w / 1000 + ttlA ->
  authenticate env (Bearer (accessToken (tokens res))) w' db1
  = (Ok (proceed (AuthUser.id (user res)) (AuthUser.email (user res))), db1) /\
  authenticate env (Bearer (refreshToken (tokens res))) w' db1
  = (Ok (sendUnauthorized "Invalid or expired access token"), db1).
Proof.
  intros Hnd Hrun HA Hexp.
  pose proof (run_accountsKept (login env data userAgent ipAddress w) db) as Hkept.
  rewrite Hrun in Hkept. cbn [snd] in Hkept.
  apply login_ok in Hrun
    as (u & ttlA' & ttlR & Eu & _ & _ & Es & HA' & HR & -> & _ & _).
  rewrite HA in HA'. injection HA' as <-.
  cbn [tokens accessToken refreshToken user userSelectFields AuthUser.id AuthUser.email].
  apply userByEmail_In in Eu as [Hin _].
  destruct (Hkept _ _ (uniqueUserIds_inj _ _ Hnd Hin)) as (u' & Eu' & Hid & Hmail & Hst).
  split.
  - erewrite authenticate_Bearer.
    2:{ unfold verifyAccessToken. rewrite jwt_verify_sign, String.eqb_refl.
        destruct (Z.leb_spec (now w / 1000 + ttlA) (now w' / 1000)); [lia|].
        reflexivity. }
    cbn [JwtPayload.userId]. rewrite Eu', Hst, Es, Hid, Hmail. reflexivity.
  - unfold authenticate, verifyAccessToken. rewrite jwt_verify_sign.
    destruct (String.eqb _ _); [|done]. by destruct (_ <=? _).
Qed.

(** X14.  The access token that [register] returns authenticates as the
    account that [register] created, while its signed expiry is ahead; the
    refresh token of the same pair, offered as a Bearer token, is
    refused. *)
Theorem register_access_token_authenticates (data : RegisterInput.t)
    (userAgent ipAddress : option string) (w w' : World) (db db1 : DB.t)
    (res : AuthResult) (ttlA : Z) :
  run (register env data userAgent ipAddress w) db = (Ok res, db1) ->
  parseDuration (JWT_ACCESS_EXPIRES_IN env) = Num ttlA ->
  now w' / 1000 < now w / 1000 + ttlA ->
  authenticate env (Bearer (accessToken (tokens res))) w' db1
  = (Ok (proceed (userUuid w) (RegisterInput.email data)), db1) /\
  authenticate env (Bearer (refreshToken (tokens res))) w' db1
  = (Ok (sendUnauthorized "Invalid or expired access token"), db1).
Proof.
  intros Hrun HA Hexp.
  apply register_ok in Hrun
    as (ttlA' & ttlR & _ & Eid & HA' & HR & -> & Husers & _).
  rewrite HA in HA'. injection HA' as <-.
  cbn [tokens accessToken refreshToken].
  split.
  - erewrite authenticate_Bearer.
    2:{ unfold verifyAccessToken. rewrite jwt_verify_sign, String.eqb_refl.
        destruct (Z.leb_spec (now w / 1000 + ttlA) (now w' / 1000)); [lia|].
        reflexivity. }
    cbn [JwtPayload.userId]. rewrite Husers.
    unfold userById in *. rewrite (find_app_miss _ _ _ Eid). cbn [List.find User.id].
    rewrite String.eqb_refl. reflexivity.
  - unfold authenticate, verifyAccessToken. rewrite jwt_verify_sign.
    destruct (String.eqb _ _); [|done]. by destruct (_ <=? _).
Qed.
End Middleware.

Lemma access_token_survives_session_calls_witness :
  authenticate exampleEnv
    (Bearer (Jwt (JWT_ACCESS_SECRET exampleEnv)
               {| JwtPayload.userId := "u-1"; JwtPayload.email := "alice@example.com";
                  JwtPayload.type := "access"; JwtPayload.iat := 1000;
                  JwtPayload.exp := 1900 |}))
    (world 1500000 "9")
    (afterAll exampleEnv
       [call_changePassword "u-1" otherPassword (world 1200000 "2");
        call_logoutAll "u-1" (world 1300000 "3")] aliceDB)
  = (Ok (proceed "u-1" "alice@example.com"),
     afterAll exampleEnv
       [call_changePassword "u-1" otherPassword (world 1200000 "2");
        call_logoutAll "u-1" (world 1300000 "3")] aliceDB).
Proof.
  apply (access_token_survives_session_calls exampleEnv _ (world 1500000 "9") aliceDB).
  reflexivity.
Defined.

Lemma login_access_token_authenticates_witness :
  exists (res : AuthResult) (db1 : DB.t),
    run (login exampleEnv rightPassword None None (world 2000000 "2")) aliceDB
    = (Ok res, db1) /\
    authenticate exampleEnv (Bearer (accessToken (tokens res))) (world 2899999 "9") db1
    = (Ok (proceed "u-1" "alice@example.com"), db1) /\
    authenticate exampleEnv (Bearer (refreshToken (tokens res))) (world 2899999 "9") db1
    = (Ok (sendUnauthorized "Invalid or expired access token"), db1).
Proof.
  eexists _, _. split; [vm_compute; reflexivity|].
  match goal with
  | |- authenticate _ (Bearer (accessToken (tokens ?res))) _ ?db1 = _ /\ _ =>
      apply (login_access_token_authenticates exampleEnv rightPassword None None
               (world 2000000 "2") (world 2899999 "9") aliceDB db1 res 900)
  end.
  - repeat constructor. intros [].
  - vm_compute. reflexivity.
  - reflexivity.
  - vm_compute. reflexivity.
Defined.

Lemma register_access_token_authenticates_witness :
  exists (res : AuthResult) (db1 : DB.t),
    run (register exampleEnv alice None None (world 1000000 "1")) emptyDB
    = (Ok res, db1) /\
    authenticate exampleEnv (Bearer (accessToken (tokens res))) (world 1899999 "9") db1
    = (Ok (proceed "u-1" "alice@example.com"), db1) /\
    authenticate exampleEnv (Bearer (refreshToken (tokens res))) (world 1899999 "9") db1
    = (Ok (sendUnauthorized "Invalid or expired access token"), db1).
Proof.
  eexists _, _. split; [vm_compute; reflexivity|].
  match goal with
  | |- authenticate _ (Bearer (accessToken (tokens ?res))) _ ?db1 = _ /\ _ =>
      apply (register_access_token_authenticates exampleEnv alice None None
               (world 1000000 "1") (world 1899999 "9") emptyDB db1 res 900)
  end.
  - vm_compute. reflexivity.
  - reflexivity.
  - vm_compute. reflexivity.
Defined.

(** ** Account service *)

Lemma userById_updateUser (id : string) (f : User.t -> User.t) (us : list User.t)
    (u : User.t) :
  (forall v, User.id (f v) = User.id v) ->
  userById id us = Some u -> userById id (updateUser id f us) = Some (f u).
Proof.
  intros Hf Eu. unfold updateUser. rewrite (userById_update id id) by exact Hf.
  rewrite Eu. cbn [option_map]. by rewrite (userById_id _ _ _ Eu), String.eqb_refl.
Qed.

Lemma userByEmail_updateUser (id email : string) (f : User.t -> User.t)
    (us : list User.t) (u : User.t) :
  (forall v, User.email (f v) = User.email v) ->
  userByEmail email us = Some u -> User.id u = id ->
  userByEmail email (updateUser id f us) = Some (f u).
Proof.
  intros Hf Eu Hid. unfold updateUser. rewrite (userByEmail_update id email) by exact Hf.
  rewrite Eu. cbn [option_map]. by rewrite Hid, String.eqb_refl.
Qed.

Lemma revokeUser_revoked (userId : string) (at' : Z) (rs : list RefreshToken.t)
    (r : RefreshToken.t) :
  In r (revokeUser userId at' rs) -> RefreshToken.userId r = userId ->
  RefreshToken.revokedAt r <> None.
Proof.
  unfold revokeUser. intros Hin Hid. apply List.in_map_iff in Hin as (x & <- & _).
  destruct (String.eqb_spec (RefreshToken.userId x) userId) as [E|E]; [done|].
  by cbn in Hid.
Qed.

Lemma tokenByToken_revokeUser (token : Token) (userId : string) (at' : Z)
    (rs : list RefreshToken.t) :
  tokenByToken token (revokeUser userId at' rs)
  = option_map (fun r => if String.eqb (RefreshToken.userId r) userId
                         then RefreshToken.with_revokedAt at' r else r)
      (tokenByToken token rs).
Proof.
  unfold tokenByToken, revokeUser. apply find_map_same.
  intros x. by destruct (String.eqb (RefreshToken.userId x) userId).
Qed.

Section AccountService.
Variable env : Env.
Context `{PasswordUtils}.

Lemma run_suspendAccount (userId : string) (w : World) (db : DB.t) :
  suspendAccount userId w db =
    match userById userId (DB.user db) with
    | None => (Failed (AppError "User not found" 404), db)
    | Some u =>
        (Ok (userDataSelect (setStatus "suspended" u)),
         {| DB.user := updateUser userId (setStatus "suspended") (DB.user db);
            DB.refreshToken := revokeUser userId (now w) (DB.refreshToken db) |})
    end.
Proof.
  unfold suspendAccount, bindM, retM, throwM, user_update_status,
    refreshToken_updateMany_user. cbn [handle].
  destruct (userById userId (DB.user db)) as [u|] eqn:Eu; [|done].
  by rewrite Eu.
Qed.

Lemma run_reactivateAccount (userId : string) (db : DB.t) :
  reactivateAccount userId db =
    match userById userId (DB.user db) with
    | None => (Failed (AppError "User not found" 404), db)
    | Some u =>
        if String.eqb (User.status u) "deleted"
        then (Failed (AppError "Cannot reactivate deleted account" 400), db)
        else (Ok (userDataSelect (setStatus "active" u)),
              {| DB.user := updateUser userId (setStatus "active") (DB.user db);
                 DB.refreshToken := DB.refreshToken db |})
    end.
Proof.
  unfold reactivateAccount, bindM, retM, throwM, user_update_status. cbn [handle].
  destruct (userById userId (DB.user db)) as [u|] eqn:Eu; [|done].
  destruct (String.eqb (User.status u) "deleted"); [done|]. by rewrite Eu.
Qed.

Lemma run_deleteAccount (userId password : string) (w : World) (db : DB.t) :
  deleteAccount userId password w db =
    match userById userId (DB.user db) with
    | None => (Failed (AppError "User not found" 404), db)
    | Some u =>
        if negb (falsy (User.passwordHash u))
           && negb (comparePassword password (default "" (User.passwordHash u)))
        then (Failed (AppError "Invalid password" 401), db)
        else (Ok tt,
              {| DB.user := updateUser userId (setStatus "deleted") (DB.user db);
                 DB.refreshToken := revokeUser userId (now w) (DB.refreshToken db) |})
    end.
Proof.
  unfold deleteAccount, bindM, retM, throwM, user_update_status,
    refreshToken_updateMany_user. cbn [handle].
  destruct (userById userId (DB.user db)) as [u|] eqn:Eu; [|done].
  destruct (_ && _); [done|]. by rewrite Eu.
Qed.

Lemma run_permanentlyDeleteAccount (userId : string) (db : DB.t) :
  permanentlyDeleteAccount userId db =
    match userById userId (DB.user db) with
    | None => (Failed (AppError "User not found" 404), db)
    | Some u =>
        (Ok tt,
         {| DB.user :=
              List.filter (fun v => negb (String.eqb (User.id v) userId)) (DB.user db);
            DB.refreshToken :=
              List.filter (fun r => negb (String.eqb (RefreshToken.userId r) userId))
                (DB.refreshToken db) |})
    end.
Proof.
  unfold permanentlyDeleteAccount, bindM, retM, throwM, user_delete,
    refreshToken_deleteMany_user. cbn [handle].
  destruct (userById userId (DB.user db)) as [u|] eqn:Eu; [|done].
  cbn [with_tokens DB.user DB.refreshToken]. rewrite Eu. f_equal. f_equal.
  set (keep := fun r => negb (String.eqb (RefreshToken.userId r) userId)).
  induction (DB.refreshToken db) as [|r rs IH]; [done|].
  cbn [List.filter]. destruct (keep r) eqn:Er; cbn [List.filter]; rewrite ?Er; by rewrite IH.
Qed.

(** [login] for an account whose credentials check and whose status is
    not [active]. *)
Lemma login_not_active (data : LoginInput.t) (userAgent ipAddress : option string)
    (w : World) (db : DB.t) (u : User.t) :
  userByEmail (LoginInput.email data) (DB.user db) = Some u ->
  falsy (User.passwordHash u) = false ->
  comparePassword (LoginInput.password data) (default "" (User.passwordHash u)) = true ->
  User.status u <> "active" ->
  run (login env data userAgent ipAddress w) db
  = (Failed (AppError (String.append "Account is " (User.status u)) 403), db).
Proof.
  intros Eu Ef Ec Es. unfold login. rewrite run_bind, run_await. cbn [handle].
  rewrite Eu, Ef, Ec. cbn [negb].
  destruct (String.eqb_spec (User.status u) "active"); [done|]. reflexivity.
Qed.

(** X15.  [suspendAccount] locks the account out at once: the status is
    [suspended] and every refresh-token record of the account is revoked;
    from then on [login] with the right password is refused with 403
    [Account is suspended], and so is, by [authenticate], every access
    token of the account, however long it has to run. *)
Theorem suspendAccount_locks_out (userId : string) (w : World) (db db1 : DB.t)
    (data : UserData.t) :
  suspendAccount userId w db = (Ok data, db1) ->
  UserData.status data = "suspended" /\
  (forall r, In r (DB.refreshToken db1) -> RefreshToken.userId r = userId ->
     RefreshToken.revokedAt r <> None) /\
  (forall (input : LoginInput.t) (userAgent ipAddress : option string) (w2 : World)
          (u : User.t),
     userByEmail (LoginInput.email input) (DB.user db) = Some u ->
     User.id u = userId ->
     falsy (User.passwordHash u) = false ->
     comparePassword (LoginInput.password input) (default "" (User.passwordHash u)) = true ->
     run (login env input userAgent ipAddress w2) db1
     = (Failed (AppError "Account is suspended" 403), db1)) /\
  (forall (t : Token) (p : JwtPayload.t) (w2 : World),
     verifyAccessToken env t (now w2) = Some p -> JwtPayload.userId p = userId ->
     authenticate env (Bearer t) w2 db1
     = (Ok (sendForbidden "Account is suspended"), db1)).
Proof.
  rewrite run_suspendAccount.
  destruct (userById userId (DB.user db)) as [u0|] eqn:Eu0; [|discriminate].
  intros [= <- <-]. split; [reflexivity|]. split; [|split].
  - intros r. cbn [DB.refreshToken]. apply revokeUser_revoked.
  - intros input userAgent ipAddress w2 u Eu Hid Ef Ec.
    rewrite (login_not_active input userAgent ipAddress w2 _ (setStatus "suspended" u));
      [reflexivity| |exact Ef|exact Ec|discriminate].
    cbn [DB.user]. by apply userByEmail_updateUser.
  - intros t p w2 Ep Hid. rewrite (authenticate_Bearer env t p w2 _ Ep), Hid.
    cbn [DB.user]. by rewrite (userById_updateUser userId (setStatus "suspended") _ _ ltac:(done) Eu0).
Qed.

(** X16.  After [suspendAccount] a refresh token of the account that the
    codec still accepts is answered by [refreshTokens] with 401
    [Refresh token has been revoked], not with the 403 of a suspended
    account: the record was revoked with the suspension, and the test on
    revocation comes before the test on the status. *)
Theorem suspendAccount_refresh_unauthorized (userId : string) (w : World)
    (db db1 : DB.t) (data : UserData.t) (token : Token) (r : RefreshToken.t)
    (userAgent ipAddress : option string) (w2 : World) :
  suspendAccount userId w db = (Ok data, db1) ->
  tokenByToken token (DB.refreshToken db) = Some r ->
  RefreshToken.userId r = userId ->
  verifyRefreshToken env token (now w2) <> None ->
  exists db2 : DB.t,
    run (refreshTokens env token userAgent ipAddress w2) db1
    = (Failed (AppError "Refresh token has been revoked" 401), db2).
Proof.
  rewrite run_suspendAccount.
  destruct (userById userId (DB.user db)) as [u0|] eqn:Eu0; [|discriminate].
  intros [= <- <-] Er Hid Hv.
  edestruct (replay_detected env token userId userAgent ipAddress w2) as (db2 & E & _);
    [|exact Hv|eexists; exact E].
  exists (RefreshToken.with_revokedAt (now w) r). cbn [DB.refreshToken DB.user].
  rewrite tokenByToken_revokeUser, Er. cbn [option_map].
  rewrite Hid, String.eqb_refl. split; [done|]. split; [done|]. split; [done|].
  rewrite (userById_updateUser userId (setStatus "suspended") _ _ ltac:(done) Eu0). by eexists.
Qed.

Lemma sessions_revokeUser (userId : string) (at' now : Z) (rs : list RefreshToken.t) :
  List.filter (activeWhere userId now) (revokeUser userId at' rs) = [].
Proof.
  induction rs as [|r rs IH]; [done|]. cbn [revokeUser List.map List.filter].
  fold (revokeUser userId at' rs). rewrite IH. unfold activeWhere.
  destruct (String.eqb_spec (RefreshToken.userId r) userId) as [E|E].
  - cbn [RefreshToken.with_revokedAt RefreshToken.userId RefreshToken.revokedAt].
    rewrite (proj2 (String.eqb_eq _ _) E). by rewrite bool_decide_eq_false_2.
  - by rewrite (proj2 (String.eqb_neq _ _) E).
Qed.

Lemma userById_without (id id' : string) (us : list User.t) :
  userById id' (List.filter (fun v => negb (String.eqb (User.id v) id)) us)
  = if String.eqb id' id then None else userById id' us.
Proof.
  unfold userById. induction us as [|v us IH].
  - by destruct (String.eqb id' id).
  - cbn [List.filter List.find].
    destruct (String.eqb_spec (User.id v) id) as [E|E]; cbn [negb List.find].
    + rewrite IH. destruct (String.eqb_spec id' id) as [E'|E']; [done|].
      destruct (String.eqb_spec (User.id v) id'); [congruence|done].
    + destruct (String.eqb_spec (User.id v) id') as [E'|E'].
      * destruct (String.eqb_spec id' id); [congruence|done].
      * exact IH.
Qed.

(** X17.  [deleteAccount] asks for the password only of an account that
    has one: an account without a password hash (one that signed up with a
    provider) is deleted whatever password is sent, an account with one
    only with a password that verifies (401 and no write otherwise; 404
    for no account).  The deletion is soft and final: the row stays with
    status [deleted], every refresh-token record of the account is
    revoked, and [reactivateAccount] refuses the account with 400. *)
Theorem deleteAccount_soft_and_final (userId password : string) (w : World) (db : DB.t) :
  (forall u : User.t,
     userById userId (DB.user db) = Some u ->
     falsy (User.passwordHash u) = true \/
     comparePassword password (default "" (User.passwordHash u)) = true ->
     exists db1 : DB.t,
       deleteAccount userId password w db = (Ok tt, db1) /\
       userById userId (DB.user db1) = Some (setStatus "deleted" u) /\
       (forall r, In r (DB.refreshToken db1) -> RefreshToken.userId r = userId ->
          RefreshToken.revokedAt r <> None) /\
       (forall w2, getActiveSessions userId w2 db1 = (Ok [], db1)) /\
       reactivateAccount userId db1
       = (Failed (AppError "Cannot reactivate deleted account" 400), db1)) /\
  (forall u : User.t,
     userById userId (DB.user db) = Some u ->
     falsy (User.passwordHash u) = false ->
     comparePassword password (default "" (User.passwordHash u)) = false ->
     deleteAccount userId password w db = (Failed (AppError "Invalid password" 401), db)) /\
  (userById userId (DB.user db) = None ->
   deleteAccount userId password w db = (Failed (AppError "User not found" 404), db)).
Proof.
  rewrite run_deleteAccount. split; [|split].
  - intros u Eu Hpw. rewrite Eu.
    assert (negb (falsy (User.passwordHash u))
            && negb (comparePassword password (default "" (User.passwordHash u)))
            = false) as ->.
    { destruct Hpw as [-> | ->]; [done|]. by rewrite andb_false_r. }
    eexists. split; [reflexivity|]. cbn [DB.user DB.refreshToken].
    assert (Eu1 : userById userId (updateUser userId (setStatus "deleted") (DB.user db))
                  = Some (setStatus "deleted" u))
      by (by apply userById_updateUser).
    split; [exact Eu1|]. split; [intros r; apply revokeUser_revoked|]. split.
    + intros w2. unfold getActiveSessions. cbn [DB.refreshToken].
      by rewrite sessions_revokeUser.
    + rewrite run_reactivateAccount. cbn [DB.user]. by rewrite Eu1.
  - intros u Eu Ef Ec. by rewrite Eu, Ef, Ec.
  - by intros ->.
Qed.

(** X18.  [reactivateAccount] after [suspendAccount] of an active
    account gives the account its status back, not its sessions.  The
    call succeeds and returns the status [active] with the account's
    identifier and email; the stored account is again the one that
    [suspendAccount] found, in every column of the account model (what
    the two updates do to [updatedAt], which is not a column of the model,
    is not stated); the refresh-token records that the suspension revoked
    stay revoked, and the account has no active session until it signs in
    again. *)
Theorem reactivateAccount_restores_account_not_sessions (userId : string) (w : World)
    (db db1 : DB.t) (data : UserData.t) (u : User.t) :
  userById userId (DB.user db) = Some u ->
  User.status u = "active" ->
  suspendAccount userId w db = (Ok data, db1) ->
  exists (data2 : UserData.t) (db2 : DB.t),
    reactivateAccount userId db1 = (Ok data2, db2) /\
    UserData.status data2 = "active" /\
    UserData.id data2 = User.id u /\
    UserData.email data2 = User.email u /\
    (exists u2 : User.t,
       userById userId (DB.user db2) = Some u2 /\
       User.id u2 = User.id u /\ User.email u2 = User.email u /\
       User.passwordHash u2 = User.passwordHash u /\ User.name u2 = User.name u /\
       User.status u2 = User.status u /\ User.authProvider u2 = User.authProvider u /\
       User.createdAt u2 = User.createdAt u /\ User.lastLoginAt u2 = User.lastLoginAt u) /\
    DB.refreshToken db2 = DB.refreshToken db1 /\
    (forall r, In r (DB.refreshToken db2) -> RefreshToken.userId r = userId ->
       RefreshToken.revokedAt r <> None) /\
    (forall w2, getActiveSessions userId w2 db2 = (Ok [], db2)).
Proof.
  intros Eu Es. rewrite run_suspendAccount, Eu. intros [= <- <-].
  rewrite run_reactivateAccount. cbn [DB.user DB.refreshToken].
  rewrite (userById_updateUser userId (setStatus "suspended") _ _ ltac:(done) Eu).
  cbn [setStatus User.status String.eqb Ascii.eqb Bool.eqb].
  eexists _, _. split; [reflexivity|]. cbn [DB.user DB.refreshToken].
  split; [reflexivity|]. split; [reflexivity|]. split; [reflexivity|]. split.
  { exists (setStatus "active" (setStatus "suspended" u)). split.
    - apply (userById_updateUser userId (setStatus "active") _ (setStatus "suspended" u)
               ltac:(done)).
      by apply userById_updateUser.
    - cbn [setStatus User.id User.email User.passwordHash User.name User.status
           User.authProvider User.createdAt User.lastLoginAt].
      by rewrite Es. }
  split; [reflexivity|]. split; [intros r; apply revokeUser_revoked|].
  intros w2. unfold getActiveSessions. cbn [DB.refreshToken].
  by rewrite sessions_revokeUser.
Qed.

(** X19.  [permanentlyDeleteAccount] erases the account and every
    refresh-token record of it and nothing else: the other accounts and
    their records are as they were.  From then on the account does not
    exist for the service (404), and [authenticate] refuses its access
    tokens with 401 [User not found], however long they have to run. *)
Theorem permanentlyDeleteAccount_erases (userId : string) (db db1 : DB.t) :
  permanentlyDeleteAccount userId db = (Ok tt, db1) ->
  userById userId (DB.user db1) = None /\
  (forall r, In r (DB.refreshToken db1) <->
             In r (DB.refreshToken db) /\ RefreshToken.userId r <> userId) /\
  (forall id, id <> userId -> userById id (DB.user db1) = userById id (DB.user db)) /\
  permanentlyDeleteAccount userId db1 = (Failed (AppError "User not found" 404), db1) /\
  (forall (t : Token) (p : JwtPayload.t) (w : World),
     verifyAccessToken env t (now w) = Some p -> JwtPayload.userId p = userId ->
     authenticate env (Bearer t) w db1 = (Ok (sendUnauthorized "User not found"), db1)).
Proof.
  rewrite run_permanentlyDeleteAccount.
  destruct (userById userId (DB.user db)) as [u|] eqn:Eu; [|discriminate].
  intros [= <-]. cbn [DB.user DB.refreshToken].
  assert (Egone : userById userId
                    (List.filter (fun v => negb (String.eqb (User.id v) userId)) (DB.user db))
                  = None).
  { by rewrite userById_without, String.eqb_refl. }
  split; [exact Egone|]. split; [|split; [|split]].
  - intros r. rewrite List.filter_In, negb_true_iff, String.eqb_neq. done.
  - intros id Hid. rewrite userById_without.
    by rewrite (proj2 (String.eqb_neq _ _) Hid).
  - rewrite run_permanentlyDeleteAccount. cbn [DB.user]. by rewrite Egone.
  - intros t p w Ep Hid. rewrite (authenticate_Bearer env t p w _ Ep), Hid.
    cbn [DB.user]. by rewrite Egone.
Qed.
End AccountService.

Lemma suspendAccount_locks_out_witness :
  exists (data : UserData.t) (db1 : DB.t),
    suspendAccount "u-1" (world 1500000 "8") aliceDB = (Ok data, db1) /\
    run (login exampleEnv rightPassword None None (world 2000000 "2")) db1
    = (Failed (AppError "Account is suspended" 403), db1).
Proof.
  eexists _, _. split; [vm_compute; reflexivity|].
  match goal with
  | |- run _ ?db1 = _ =>
      pose proof (suspendAccount_locks_out exampleEnv "u-1" (world 1500000 "8")
                    aliceDB db1 _ eq_refl) as (_ & _ & Hlogin & _)
  end.
  eapply Hlogin; [vm_compute; reflexivity|reflexivity|reflexivity|reflexivity].
Defined.

Lemma suspendAccount_refresh_unauthorized_witness :
  exists db2 : DB.t,
    run (refreshTokens exampleEnv aliceToken None None (world 2000500 "2"))
      (suspendAccount "u-1" (world 1500000 "8") aliceDB).2
    = (Failed (AppError "Refresh token has been revoked" 401), db2).
Proof.
  eapply (suspendAccount_refresh_unauthorized exampleEnv "u-1" (world 1500000 "8")
            aliceDB _ _ aliceToken aliceRecord None None (world 2000500 "2")).
  - vm_compute. reflexivity.
  - vm_compute. reflexivity.
  - reflexivity.
  - vm_compute. discriminate.
Defined.

Lemma deleteAccount_soft_and_final_witness :
  exists db1 : DB.t,
    deleteAccount "u-7" "not her password" (world 1500000 "8") twoAccountsDB
    = (Ok tt, db1) /\
    reactivateAccount "u-7" db1
    = (Failed (AppError "Cannot reactivate deleted account" 400), db1).
Proof.
  destruct (deleteAccount_soft_and_final "u-7" "not her password" (world 1500000 "8")
              twoAccountsDB) as (Hok & _ & _).
  destruct (Hok carol) as (db1 & Hrun & _ & _ & _ & Hre);
    [vm_compute; reflexivity|left; reflexivity|].
  exists db1. split; [exact Hrun|exact Hre].
Defined.

Lemma reactivateAccount_restores_account_not_sessions_witness :
  exists (data2 : UserData.t) (db2 : DB.t),
    reactivateAccount "u-7" (suspendAccount "u-7" (world 1500000 "8") twoAccountsDB).2
    = (Ok data2, db2) /\
    UserData.status data2 = "active" /\
    getActiveSessions "u-7" (world 1600000 "9") db2 = (Ok [], db2).
Proof.
  destruct (reactivateAccount_restores_account_not_sessions "u-7" (world 1500000 "8")
              twoAccountsDB _ _ carol eq_refl eq_refl eq_refl)
    as (data2 & db2 & Hrun & Hst & _ & _ & _ & _ & _ & Hs).
  exists data2, db2. split; [exact Hrun|]. split; [exact Hst|apply Hs].
Defined.

Lemma permanentlyDeleteAccount_erases_witness :
  let db1 := (permanentlyDeleteAccount "u-7" twoAccountsDB).2 in
  userById "u-7" (DB.user db1) = None /\
  userById "u-1" (DB.user db1) = userById "u-1" (DB.user twoAccountsDB) /\
  DB.refreshToken db1 = DB.refreshToken aliceDB.
Proof.
  cbn zeta.
  destruct (permanentlyDeleteAccount_erases exampleEnv "u-7" twoAccountsDB
              (permanentlyDeleteAccount "u-7" twoAccountsDB).2 eq_refl)
    as (Hgone & _ & Hothers & _).
  split; [exact Hgone|]. split; [by apply Hothers|reflexivity].
Defined.

Lemma userByEmail_setEmail (id email : string) (us : list User.t) :
  userByEmail email us = None ->
  userByEmail email (updateUser id (setEmail email) us)
  = option_map (setEmail email) (userById id us).
Proof.
  unfold userByEmail, userById, updateUser. induction us as [|v us IH]; [done|].
  cbn [List.find List.map].
  destruct (String.eqb_spec (User.email v) email) as [E|E]; [discriminate|].
  intros Hnone. destruct (String.eqb_spec (User.id v) id) as [Ei|Ei].
  - cbn [setEmail User.email]. by rewrite String.eqb_refl.
  - rewrite (proj2 (String.eqb_neq _ _) E). by apply IH.
Qed.

Lemma userByEmail_None_existsb (email : string) (q : User.t -> bool) (us : list User.t) :
  userByEmail email us = None ->
  existsb (fun v => String.eqb (User.email v) email && q v) us = false.
Proof.
  unfold userByEmail. induction us as [|v us IH]; [done|]. cbn [List.find existsb].
  destruct (String.eqb (User.email v) email); [discriminate|]. exact IH.
Qed.



Section AccountEmail.
Variable env : Env.
Context `{PasswordUtils}.

Lemma run_updateEmail (userId : string) (data : UpdateEmailInput.t) (db : DB.t) :
  updateEmail userId data db =
    match userById userId (DB.user db) with
    | None => (Failed (AppError "User not found" 404), db)
    | Some u =>
        if falsy (User.passwordHash u)
        then (Failed (AppError "Account uses social login. Cannot change email." 400), db)
        else if negb (comparePassword (UpdateEmailInput.password data)
                        (default "" (User.passwordHash u)))
        then (Failed (AppError "Invalid password" 401), db)
        else
          match userByEmail (UpdateEmailInput.newEmail data) (DB.user db) with
          | Some _ => (Failed (AppError "Email already in use" 409), db)
          | None =>
              (Ok (userDataSelect (setEmail (UpdateEmailInput.newEmail data) u)),
               with_users
                 (updateUser userId (setEmail (UpdateEmailInput.newEmail data))
                    (DB.user db)) db)
          end
    end.
Proof.
  unfold updateEmail, bindM, retM, throwM, user_update_email. cbn [handle].
  destruct (userById userId (DB.user db)) as [u|] eqn:Eu; [|done].
  destruct (falsy (User.passwordHash u)); [done|].
  destruct (negb _); [done|].
  destruct (userByEmail _ _) eqn:Ee; [done|].
  by rewrite Eu, (userByEmail_None_existsb _ _ _ Ee).
Qed.


(** What makes [login] succeed. *)
Lemma login_succeeds (data : LoginInput.t) (userAgent ipAddress : option string)
    (w : World) (db : DB.t) (u : User.t) (ttlA ttlR : Z) :
  userByEmail (LoginInput.email data) (DB.user db) = Some u ->
  falsy (User.passwordHash u) = false ->
  comparePassword (LoginInput.password data) (default "" (User.passwordHash u)) = true ->
  User.status u = "active" ->
  parseDuration (JWT_ACCESS_EXPIRES_IN env) = Num ttlA ->
  parseDuration (JWT_REFRESH_EXPIRES_IN env) = Num ttlR ->
  tokenById (tokenUuid w) (DB.refreshToken db) = None ->
  tokenByToken
    (Jwt (JWT_REFRESH_SECRET env)
       {| JwtPayload.userId := User.id u; JwtPayload.email := User.email u;
          JwtPayload.type := "refresh"; JwtPayload.iat := now w / 1000;
          JwtPayload.exp := now w / 1000 + ttlR |})
    (DB.refreshToken db) = None ->
  exists (res : AuthResult) (db2 : DB.t),
    run (login env data userAgent ipAddress w) db = (Ok res, db2) /\
    user res = userSelectFields u.
Proof.
  intros Eu Ef Ec Es HA HR Hid Htok.
  unfold login. rewrite run_bind, run_await. cbn [handle].
  rewrite Eu, Ef, Ec, Es. cbn [negb String.eqb Ascii.eqb Bool.eqb].
  rewrite run_bind, run_await. cbn [handle].
  destruct (userById (User.id u) (DB.user db)) as [u0|] eqn:Eu0.
  2:{ apply userByEmail_In in Eu as [Hin _].
      pose proof (find_None_all _ _ u Eu0 Hin) as Hf. cbn in Hf.
      by rewrite String.eqb_refl in Hf. }
  rewrite run_bind, run_try, (generateTokenPair_Num env _ _ _ _ _ HA HR).
  rewrite run_bind. cbn [refreshToken].
  erewrite run_storeRefreshToken_ok.
  - cbn [run]. eexists _, _. split; reflexivity.
  - by apply getExpirationDate_Num.
  - exact Hid.
  - exact Htok.
  - cbn [with_users DB.user].
    rewrite (userById_update (User.id u) (User.id u) (User.with_lastLoginAt (now w)))
      by done.
    rewrite Eu0. by eexists.
Qed.

(** X21.  After [updateEmail] the account answers to the new email.  The
    stored row has it, and [getUserById] returns what [updateEmail]
    returned; [login] with the new email and the unchanged
    password succeeds for an active account, when the store accepts the
    row of the new session; and an access token issued before the change
    still authenticates, with the new email as [req.user]: the
    middleware takes the email from the store, not from the token. *)
Theorem updateEmail_account_answers_to_new_email (userId : string)
    (data : UpdateEmailInput.t) (db db1 : DB.t) (result : UserData.t) :
  updateEmail userId data db = (Ok result, db1) ->
  exists u : User.t,
    userById userId (DB.user db) = Some u /\
    UserData.email result = UpdateEmailInput.newEmail data /\
    UserData.id result = User.id u /\
    userById userId (DB.user db1) = Some (setEmail (UpdateEmailInput.newEmail data) u) /\
    userByEmail (UpdateEmailInput.newEmail data) (DB.user db1)
    = Some (setEmail (UpdateEmailInput.newEmail data) u) /\
    getUserById userId db1 = (Ok (Some result), db1) /\
    DB.refreshToken db1 = DB.refreshToken db /\
    (forall (userAgent ipAddress : option string) (w : World) (ttlA ttlR : Z),
       User.status u = "active" ->
       parseDuration (JWT_ACCESS_EXPIRES_IN env) = Num ttlA ->
       parseDuration (JWT_REFRESH_EXPIRES_IN env) = Num ttlR ->
       tokenById (tokenUuid w) (DB.refreshToken db) = None ->
       tokenByToken
         (Jwt (JWT_REFRESH_SECRET env)
            {| JwtPayload.userId := User.id u;
               JwtPayload.email := UpdateEmailInput.newEmail data;
               JwtPayload.type := "refresh"; JwtPayload.iat := now w / 1000;
               JwtPayload.exp := now w / 1000 + ttlR |})
         (DB.refreshToken db) = None ->
       exists (res : AuthResult) (db2 : DB.t),
         run (login env
                {| LoginInput.email := UpdateEmailInput.newEmail data;
                   LoginInput.password := UpdateEmailInput.password data |}
                userAgent ipAddress w) db1 = (Ok res, db2) /\
         AuthUser.id (user res) = User.id u) /\
    (forall (t : Token) (p : JwtPayload.t) (w : World),
       User.status u = "active" ->
       verifyAccessToken env t (now w) = Some p -> JwtPayload.userId p = userId ->
       authenticate env (Bearer t) w db1
       = (Ok (proceed (User.id u) (UpdateEmailInput.newEmail data)), db1)).
Proof.
  rewrite run_updateEmail.
  destruct (userById userId (DB.user db)) as [u|] eqn:Eu; [|discriminate].
  destruct (falsy (User.passwordHash u)) eqn:Ef; [discriminate|].
  destruct (comparePassword _ _) eqn:Ec; [|discriminate]. cbn [negb].
  destruct (userByEmail _ _) eqn:Ee; [discriminate|].
  intros [= <- <-]. exists u. cbn [with_users DB.user DB.refreshToken].
  assert (Eid : userById userId
                  (updateUser userId (setEmail (UpdateEmailInput.newEmail data)) (DB.user db))
                = Some (setEmail (UpdateEmailInput.newEmail data) u))
    by (by apply userById_updateUser).
  assert (Email : userByEmail (UpdateEmailInput.newEmail data)
                    (updateUser userId (setEmail (UpdateEmailInput.newEmail data))
                       (DB.user db))
                  = Some (setEmail (UpdateEmailInput.newEmail data) u)).
  { rewrite (userByEmail_setEmail _ _ _ Ee). by rewrite Eu. }
  split; [done|]. split; [done|]. split; [done|]. split; [exact Eid|].
  split; [exact Email|]. split.
  { unfold getUserById, bindM, retM. cbn [handle with_users DB.user]. by rewrite Eid. }
  split; [done|]. split.
  - intros userAgent ipAddress w ttlA ttlR Es HA HR Hid Htok.
    edestruct (login_succeeds
                 {| LoginInput.email := UpdateEmailInput.newEmail data;
                    LoginInput.password := UpdateEmailInput.password data |}
                 userAgent ipAddress w
                 (with_users
                    (updateUser userId (setEmail (UpdateEmailInput.newEmail data))
                       (DB.user db)) db)
                 (setEmail (UpdateEmailInput.newEmail data) u) ttlA ttlR)
      as (res & db2 & Hrun & Hres); try done.
    exists res, db2. split; [exact Hrun|]. by rewrite Hres.
  - intros t p w Es Ep Hid. rewrite (authenticate_Bearer env t p w _ Ep), Hid.
    cbn [with_users DB.user]. rewrite Eid. cbn [setEmail User.status User.id User.email].
    by rewrite Es.
Qed.

(** X22.  An account that [register] created can sign in: [login] with
    the email and the password that were registered succeeds on the
    store that [register] left, for the same account, when the store
    accepts the row of the new session (its identifier and its token
    string are not stored yet). *)
Theorem register_then_login (data : RegisterInput.t)
    (userAgent ipAddress userAgent2 ipAddress2 : option string) (w w2 : World)
    (db db1 : DB.t) (res : AuthResult) (ttlR : Z) :
  run (register env data userAgent ipAddress w) db = (Ok res, db1) ->
  parseDuration (JWT_REFRESH_EXPIRES_IN env) = Num ttlR ->
  tokenById (tokenUuid w2) (DB.refreshToken db1) = None ->
  tokenByToken
    (Jwt (JWT_REFRESH_SECRET env)
       {| JwtPayload.userId := userUuid w;
          JwtPayload.email := RegisterInput.email data;
          JwtPayload.type := "refresh"; JwtPayload.iat := now w2 / 1000;
          JwtPayload.exp := now w2 / 1000 + ttlR |})
    (DB.refreshToken db1) = None ->
  exists (res2 : AuthResult) (db2 : DB.t),
    run (login env
           {| LoginInput.email := RegisterInput.email data;
              LoginInput.password := RegisterInput.password data |}
           userAgent2 ipAddress2 w2) db1 = (Ok res2, db2) /\
    user res2 = user res.
Proof.
  intros Hrun HR Hid Htok.
  apply register_ok in Hrun
    as (ttlA & ttlR' & Email & Eid & HA & HR' & -> & Husers & _).
  cbn [user].
  eapply (login_succeeds _ userAgent2 ipAddress2 w2 db1 _ ttlA ttlR); try done.
  - cbn [LoginInput.email]. rewrite Husers. unfold userByEmail in *.
    rewrite (find_app_miss _ _ _ Email). cbn [List.find User.email].
    by rewrite String.eqb_refl.
  - cbn [User.passwordHash falsy]. apply String.eqb_neq, hashPassword_nonempty.
  - cbn [LoginInput.password User.passwordHash default]. apply compare_hashPassword.
Qed.
End AccountEmail.

(** ** Sessions *)

Lemma activeWhere_liveOf (userId : string) (now : Z) (r : RefreshToken.t) :
  activeWhere userId now r = liveOf userId now r.
Proof. unfold activeWhere, liveOf, live. by rewrite andb_assoc. Qed.

Lemma In_sessions (userId : string) (now : Z) (rs : list RefreshToken.t) (s : Session.t) :
  In s (List.map sessionSelect
          (merge_sort createdAt_desc (List.filter (activeWhere userId now) rs)))
  <-> exists r, In r rs /\ liveOf userId now r = true /\ s = sessionSelect r.
Proof.
  rewrite List.in_map_iff. split.
  - intros (r & <- & Hin).
    apply (Permutation_in _ (merge_sort_Permutation createdAt_desc _)) in Hin.
    apply List.filter_In in Hin as [Hin Ha]. rewrite activeWhere_liveOf in Ha. eauto.
  - intros (r & Hin & Ha & ->). exists r. split; [done|].
    apply (Permutation_in _ (Permutation_sym (merge_sort_Permutation createdAt_desc _))).
    apply List.filter_In. by rewrite activeWhere_liveOf.
Qed.

Lemma filter_length_mono {A : Type} (p q : A -> bool) (l : list A) :
  (forall x, p x = true -> q x = true) ->
  (length (List.filter p l) <= length (List.filter q l))%nat.
Proof.
  intros Hpq. induction l as [|x l IH]; [done|]. cbn [List.filter].
  destruct (p x) eqn:Ep.
  - rewrite (Hpq x Ep). cbn [length]. lia.
  - destruct (q x); cbn [length]; lia.
Qed.

Lemma sessions_length (userId : string) (now : Z) (rs : list RefreshToken.t) :
  length (List.map sessionSelect
            (merge_sort createdAt_desc (List.filter (activeWhere userId now) rs)))
  = length (List.filter (liveOf userId now) rs).
Proof.
  rewrite List.length_map.
  rewrite (Permutation_length (merge_sort_Permutation createdAt_desc _)).
  f_equal. apply List.filter_ext. intros r. apply activeWhere_liveOf.
Qed.

(** X23.  [getActiveSessions] returns exactly the live records of the
    account (unrevoked, with the expiry ahead), each once, newest first,
    without the token; under the invariant of the table there are at most
    ten.  It never writes. *)
Theorem getActiveSessions_lists_live_sessions (userId : string) (w : World) (db : DB.t) :
  exists sessions : list Session.t,
    getActiveSessions userId w db = (Ok sessions, db) /\
    (forall s : Session.t,
       In s sessions <->
       exists r, In r (DB.refreshToken db) /\ liveOf userId (now w) r = true /\
                 s = sessionSelect r) /\
    StronglySorted newestFirst sessions /\
    length sessions = length (List.filter (liveOf userId (now w)) (DB.refreshToken db)) /\
    (Inv db -> (length sessions <= 10)%nat).
Proof.
  eexists. split; [reflexivity|]. split; [|split; [|split]].
  - intros s. apply In_sessions.
  - assert (Hs : StronglySorted createdAt_desc
                   (merge_sort createdAt_desc
                      (List.filter (activeWhere userId (now w)) (DB.refreshToken db))))
      by (apply StronglySorted_merge_sort; apply _).
    induction Hs as [|r rs Hs IH Hr]; cbn [List.map]; constructor; [exact IH|].
    apply List.Forall_map. eapply List.Forall_impl; [|exact Hr].
    intros x Hx. exact Hx.
  - apply sessions_length.
  - intros HI. rewrite sessions_length. by apply Inv_live_capped.
Qed.

Lemma sessions_revokeAll_own (userId : string) (at' now : Z) (rs : list RefreshToken.t) :
  List.filter (activeWhere userId now) (revokeAll userId at' rs) = [].
Proof.
  induction rs as [|r rs IH]; [done|]. cbn [revokeAll List.map List.filter].
  fold (revokeAll userId at' rs). rewrite IH.
  destruct (unrevokedOf userId r) eqn:Er.
  - unfold activeWhere.
    cbn [RefreshToken.with_revokedAt RefreshToken.userId RefreshToken.revokedAt].
    rewrite bool_decide_eq_false_2 by done. by rewrite andb_false_r.
  - unfold activeWhere. unfold unrevokedOf in Er. by rewrite Er.
Qed.

Lemma sessions_revokeAll_other (userId other : string) (at' now : Z)
    (rs : list RefreshToken.t) :
  other <> userId ->
  List.filter (activeWhere other now) (revokeAll userId at' rs)
  = List.filter (activeWhere other now) rs.
Proof.
  intros Hne. induction rs as [|r rs IH]; [done|]. cbn [revokeAll List.map List.filter].
  fold (revokeAll userId at' rs). rewrite IH.
  destruct (unrevokedOf userId r) eqn:Er; [|done].
  unfold unrevokedOf in Er. apply andb_prop in Er as [Eid _]. apply String.eqb_eq in Eid.
  unfold activeWhere.
  cbn [RefreshToken.with_revokedAt RefreshToken.userId RefreshToken.revokedAt].
  rewrite Eid. by rewrite (proj2 (String.eqb_neq userId other)) by done.
Qed.

(** X24.  [logoutAll] never fails and ends every session of the account
    and of no other: afterwards [getActiveSessions] is empty for the
    account and as before for every other account; the account table is
    not written. *)
Theorem logoutAll_ends_sessions_of_account_only (userId : string) (w : World)
    (db : DB.t) :
  exists db1 : DB.t,
    run (logoutAll userId w) db = (Ok tt, db1) /\
    DB.user db1 = DB.user db /\
    (forall w2, getActiveSessions userId w2 db1 = (Ok [], db1)) /\
    (forall (other : string) (w2 : World), other <> userId ->
       (getActiveSessions other w2 db1).1 = (getActiveSessions other w2 db).1).
Proof.
  unfold logoutAll, revokeAllUserTokens. rewrite run_await. cbn [handle].
  eexists. split; [reflexivity|]. split; [reflexivity|].
  fold (revokeAll userId (now w) (DB.refreshToken db)). split.
  - intros w2. unfold getActiveSessions. cbn [with_tokens DB.refreshToken].
    by rewrite sessions_revokeAll_own.
  - intros other w2 Hne. unfold getActiveSessions. cbn [with_tokens DB.refreshToken fst].
    by rewrite sessions_revokeAll_other.
Qed.

(** X25.  [revokeSession] ends the session that is named, for its owner
    only.  When the account has no record with the identifier (there is
    none, or it is another account's) the call fails with 404 and writes
    nothing; otherwise it succeeds, and afterwards the sessions of the
    account are those it had, without the one that was named. *)
Theorem revokeSession_ends_that_session (userId sessionId : string) (w : World)
    (db : DB.t) :
  ((forall r, In r (DB.refreshToken db) -> RefreshToken.id r = sessionId ->
      RefreshToken.userId r <> userId) ->
   run (revokeSession userId sessionId w) db
   = (Failed (AppError "Session not found" 404), db)) /\
  (forall r, In r (DB.refreshToken db) -> RefreshToken.id r = sessionId ->
     RefreshToken.userId r = userId ->
     exists db1 : DB.t,
       run (revokeSession userId sessionId w) db = (Ok tt, db1) /\
       DB.user db1 = DB.user db /\
       forall (w2 : World) (before after : list Session.t),
         getActiveSessions userId w2 db = (Ok before, db) ->
         getActiveSessions userId w2 db1 = (Ok after, db1) ->
         forall s, In s after <-> In s before /\ Session.id s <> sessionId).
Proof.
  unfold revokeSession. rewrite run_bind, run_await. cbn [handle]. split.
  - intros Hnone.
    destruct (List.find _ _) as [r|] eqn:Er; [|done].
    apply find_In in Er as [Hin Hr]. apply andb_prop in Hr as [Hid Hu].
    apply String.eqb_eq in Hid, Hu. by destruct (Hnone r Hin Hid).
  - intros r Hin Hid Hu.
    destruct (List.find _ _) as [r0|] eqn:Er.
    2:{ pose proof (find_None_all _ _ r Er Hin) as Hf. cbn in Hf.
        by rewrite Hid, Hu, !String.eqb_refl in Hf. }
    rewrite run_bind, run_await. cbn [handle].
    destruct (tokenById sessionId (DB.refreshToken db)) as [r1|] eqn:E1.
    2:{ pose proof (find_None_all _ _ r E1 Hin) as Hf. cbn in Hf.
        by rewrite Hid, String.eqb_refl in Hf. }
    cbn [run]. eexists. split; [reflexivity|]. split; [reflexivity|].
    fold (revokeOne sessionId (now w) (DB.refreshToken db)).
    intros w2 before after [= <-] [= <-] s. cbn [with_tokens DB.refreshToken].
    rewrite !In_sessions. split.
    + intros (x' & Hx' & Hlive & ->). unfold revokeOne in Hx'.
      apply List.in_map_iff in Hx' as (x & <- & Hx).
      destruct (String.eqb_spec (RefreshToken.id x) sessionId) as [E|E].
      * unfold liveOf, live in Hlive.
        cbn [RefreshToken.with_revokedAt RefreshToken.revokedAt] in Hlive.
        rewrite bool_decide_eq_false_2 in Hlive by done.
        by rewrite andb_false_r in Hlive.
      * split; [eauto|]. exact E.
    + intros ((x & Hx & Hlive & ->) & Hne). cbn [sessionSelect Session.id] in Hne.
      exists x. split; [|done]. unfold revokeOne. apply List.in_map_iff. exists x.
      split; [|done]. by rewrite (proj2 (String.eqb_neq _ _) Hne).
Qed.

Section SessionCalls.
Variable env : Env.
Context `{PasswordUtils}.

(** [refreshTokens] with a token whose record is missing or revoked. *)
Lemma refreshTokens_not_Ok (token : Token) (userAgent ipAddress : option string)
    (w : World) (db : DB.t) :
  (forall r, tokenByToken token (DB.refreshToken db) = Some r ->
     RefreshToken.revokedAt r <> None) ->
  forall (pair : TokenPair) (db2 : DB.t),
    run (refreshTokens env token userAgent ipAddress w) db <> (Ok pair, db2).
Proof.
  intros Hrev pair db2. unfold refreshTokens.
  destruct (verifyRefreshToken env token (now w)) as [p|]; [|discriminate].
  rewrite run_bind, run_await. cbn [handle].
  destruct (tokenByToken token (DB.refreshToken db)) as [r|] eqn:Er; [|discriminate].
  specialize (Hrev r eq_refl).
  destruct (userById _ _) as [u|]; [|discriminate].
  destruct (RefreshToken.revokedAt r) as [t|] eqn:Et; [|done]. cbn [present].
  rewrite run_bind. unfold revokeAllUserTokens. rewrite run_await. cbn [handle run].
  discriminate.
Qed.

(** X26.  [logout] never fails, whatever it is given: an unknown token
    and an already revoked one are accepted in silence.  It is
    idempotent, it does not write the account table, and after it
    [refreshTokens] with the token never succeeds. *)
Theorem logout_total_and_final (token : Token) (w : World) (db : DB.t) :
  exists db1 : DB.t,
    run (logout token w) db = (Ok tt, db1) /\
    DB.user db1 = DB.user db /\
    (tokenByToken token (DB.refreshToken db) = None -> db1 = db) /\
    (forall w2, run (logout token w2) db1 = (Ok tt, db1)) /\
    (forall (userAgent ipAddress : option string) (w2 : World) (pair : TokenPair)
            (db2 : DB.t),
       run (refreshTokens env token userAgent ipAddress w2) db1 <> (Ok pair, db2)).
Proof.
  assert (Hdone : forall db1 : DB.t,
            (forall r, tokenByToken token (DB.refreshToken db1) = Some r ->
               RefreshToken.revokedAt r <> None) ->
            (forall w2, run (logout token w2) db1 = (Ok tt, db1)) /\
            (forall userAgent ipAddress w2 pair db2,
               run (refreshTokens env token userAgent ipAddress w2) db1 <> (Ok pair, db2))).
  { intros db1 Hrev. split.
    - intros w2. unfold logout. rewrite run_bind, run_await. cbn [handle].
      destruct (tokenByToken token (DB.refreshToken db1)) as [r|] eqn:Er; [|done].
      specialize (Hrev r eq_refl). by destruct (RefreshToken.revokedAt r).
    - intros userAgent ipAddress w2. by apply refreshTokens_not_Ok. }
  unfold logout at 1. rewrite run_bind, run_await. cbn [handle].
  destruct (tokenByToken token (DB.refreshToken db)) as [r|] eqn:Er.
  - destruct (RefreshToken.revokedAt r) as [t|] eqn:Et; cbn [present negb].
    + exists db. split; [done|]. split; [done|]. split; [done|].
      apply Hdone. intros r' Er'. rewrite Er in Er'. injection Er' as <-. by rewrite Et.
    + rewrite run_bind, run_await. cbn [handle].
      destruct (tokenById (RefreshToken.id r) (DB.refreshToken db)) as [r1|] eqn:E1.
      2:{ apply find_In in Er as [Hin _].
          pose proof (find_None_all _ _ r E1 Hin) as Hf. cbn in Hf.
          by rewrite String.eqb_refl in Hf. }
      cbn [run]. eexists. split; [reflexivity|]. split; [reflexivity|].
      split; [discriminate|]. apply Hdone. cbn [with_tokens DB.refreshToken].
      fold (revokeOne (RefreshToken.id r) (now w) (DB.refreshToken db)).
      intros r'. rewrite tokenByToken_revokeOne, Er. cbn [option_map].
      rewrite String.eqb_refl. by intros [= <-].
  - exists db. split; [done|]. split; [done|]. split; [done|].
    apply Hdone. intros r' Er'. by rewrite Er in Er'.
Qed.

(** X27.  [register] answers 409 exactly for the emails that
    [isEmailAvailable] reports as taken, and then writes nothing; for an
    available email [register] does not fail with an error of the
    application. *)
Theorem register_conflict_iff_email_taken (data : RegisterInput.t)
    (userAgent ipAddress : option string) (w : World) (db : DB.t) :
  (isEmailAvailable (RegisterInput.email data) db = (Ok false, db) <->
   run (register env data userAgent ipAddress w) db
   = (Failed (AppError "Email already registered" 409), db)) /\
  (isEmailAvailable (RegisterInput.email data) db = (Ok true, db) <->
   isAppError (run (register env data userAgent ipAddress w) db).1 = false).
Proof.
  unfold isEmailAvailable, bindM, retM. cbn [handle].
  unfold register. rewrite run_bind, run_await. cbn [handle].
  destruct (userByEmail (RegisterInput.email data) (DB.user db)) as [u|] eqn:Eu;
    cbn [present negb run].
  { split; split; try done; discriminate. }
  assert (Hno : isAppError
            (run
               (user <- await (user_create
                         {| User.id := userUuid w;
                            User.email := RegisterInput.email data;
                            User.passwordHash :=
                              Some (hashPassword (salt w) (RegisterInput.password data));
                            User.name := RegisterInput.name data;
                            User.status := "active";
                            User.authProvider := Some "local";
                            User.createdAt := now w;
                            User.lastLoginAt := None |}) ;;
                tokens <- try (generateTokenPair env (User.id user) (User.email user) (now w)) ;;
                storeRefreshToken env (User.id user) (refreshToken tokens)
                  userAgent ipAddress w ;;;
                Ret {| user := userSelectFields user; tokens := tokens |}) db).1 = false).
  { rewrite run_bind, run_await. cbn [handle User.id User.email].
    destruct (present (userById _ _)); [done|]. rewrite Eu. cbn [present].
    rewrite run_bind, run_try. cbn [User.id User.email].
    destruct (generateTokenPair_cases env (userUuid w) (RegisterInput.email data) (now w))
      as [(ttlA & ttlR & HA & HR & ->)|(m & ->)]; [|done].
    rewrite run_bind. cbn [refreshToken].
    match goal with |- context [run (storeRefreshToken env ?uid ?tk ?ua ?ip ?w) ?d] =>
      destruct (run_storeRefreshToken env uid tk ua ip w d)
        as [(c & ->)|(e & _ & _ & _ & _ & ->)] end; done. }
  split; split; try done.
  intros E. rewrite E in Hno. discriminate.
Qed.
End SessionCalls.

(** X28.  [getUserStats] agrees with [getActiveSessions]: the number of
    active sessions it reports is the number of sessions that
    [getActiveSessions] lists at the same instant; it is at most the
    number of all records of the account, and at most ten under the
    invariant of the table.  For no account the call fails with 404. *)
Theorem getUserStats_counts_active_sessions (userId : string) (w : World) (db : DB.t) :
  (userById userId (DB.user db) = None ->
   getUserStats userId w db = (Failed (AppError "User not found" 404), db)) /\
  (forall u : User.t,
     userById userId (DB.user db) = Some u ->
     exists (stats : UserStats.t) (sessions : list Session.t),
       getUserStats userId w db = (Ok stats, db) /\
       getActiveSessions userId w db = (Ok sessions, db) /\
       UserStats.activeSessions stats = length sessions /\
       (UserStats.activeSessions stats <= UserStats.totalSessions stats)%nat /\
       UserStats.memberSince stats = User.createdAt u /\
       UserStats.lastLogin stats = User.lastLoginAt u /\
       (Inv db -> (UserStats.activeSessions stats <= 10)%nat)).
Proof.
  unfold getUserStats, bindM, throwM. cbn [handle]. split.
  - by intros ->.
  - intros u ->. eexists _, _. split; [reflexivity|]. split; [reflexivity|].
    cbn [UserStats.activeSessions UserStats.totalSessions UserStats.memberSince
         UserStats.lastLogin].
    assert (Ecount : length (List.filter (activeWhere userId (now w)) (DB.refreshToken db))
                     = length (List.filter (liveOf userId (now w)) (DB.refreshToken db))).
    { f_equal. apply List.filter_ext. intros r. apply activeWhere_liveOf. }
    split; [by rewrite sessions_length|]. split.
    + apply filter_length_mono. intros r. unfold activeWhere.
      intros Hr. apply andb_prop in Hr as [Hr _]. by apply andb_prop in Hr as [Hr _].
    + split; [done|]. split; [done|]. intros HI. rewrite Ecount. by apply Inv_live_capped.
Qed.

Section SessionTokens.
Variable env : Env.
Context `{PasswordUtils}.

(** X29.  [refreshTokens] copies the claims of the token it is given:
    the pair it returns is signed for the [userId] and the [email] of the
    presented token's claims, at the instant of the call, whatever the
    stored account's email is by then; the presented record is revoked
    and the account table is not written. *)
Theorem refreshTokens_copies_claims (token : Token)
    (userAgent ipAddress : option string) (w : World) (db db1 : DB.t)
    (pair : TokenPair) :
  run (refreshTokens env token userAgent ipAddress w) db = (Ok pair, db1) ->
  exists (p : JwtPayload.t) (r : RefreshToken.t) (ttlA ttlR : Z),
    verifyRefreshToken env token (now w) = Some p /\
    tokenByToken token (DB.refreshToken db) = Some r /\
    RefreshToken.revokedAt r = None /\
    parseDuration (JWT_ACCESS_EXPIRES_IN env) = Num ttlA /\
    parseDuration (JWT_REFRESH_EXPIRES_IN env) = Num ttlR /\
    accessToken pair =
      Jwt (JWT_ACCESS_SECRET env)
        {| JwtPayload.userId := JwtPayload.userId p;
           JwtPayload.email := JwtPayload.email p;
           JwtPayload.type := "access"; JwtPayload.iat := now w / 1000;
           JwtPayload.exp := now w / 1000 + ttlA |} /\
    refreshToken pair =
      Jwt (JWT_REFRESH_SECRET env)
        {| JwtPayload.userId := JwtPayload.userId p;
           JwtPayload.email := JwtPayload.email p;
           JwtPayload.type := "refresh"; JwtPayload.iat := now w / 1000;
           JwtPayload.exp := now w / 1000 + ttlR |} /\
    DB.user db1 = DB.user db /\
    DB.refreshToken db1 =
      evict (JwtPayload.userId p)
        (revokeOne (RefreshToken.id r) (now w) (DB.refreshToken db) ++
         [newRecord (JwtPayload.userId p) (refreshToken pair) userAgent ipAddress w
            (now w + ttlR * 1000)]).
Proof.
  unfold refreshTokens.
  destruct (verifyRefreshToken env token (now w)) as [p|] eqn:Ep; [|discriminate].
  rewrite run_bind, run_await. cbn [handle].
  destruct (tokenByToken token (DB.refreshToken db)) as [r|] eqn:Er; [|discriminate].
  destruct (userById _ _) as [u|] eqn:Eu; [|discriminate].
  destruct (RefreshToken.revokedAt r) as [t|] eqn:Et; cbn [present].
  { rewrite run_bind. unfold revokeAllUserTokens. rewrite run_await. cbn [handle run].
    discriminate. }
  destruct (_ <? _).
  { rewrite run_bind, run_await. cbn [handle].
    destruct (tokenById _ _); cbn [run]; discriminate. }
  destruct (negb _); [discriminate|].
  rewrite run_bind, run_await. cbn [handle].
  destruct (tokenById _ _) as [r1|] eqn:E1; [|discriminate].
  rewrite run_bind, run_try.
  destruct (generateTokenPair_cases env (JwtPayload.userId p) (JwtPayload.email p) (now w))
    as [(ttlA & ttlR & HA & HR & ->)|(m & ->)]; [|discriminate].
  rewrite run_bind. cbn [refreshToken].
  match goal with |- context [run (storeRefreshToken env ?uid ?tk ?ua ?ip ?w) ?d] =>
    destruct (run_storeRefreshToken env uid tk ua ip w d)
      as [(c & ->)|(e & He & _ & _ & _ & ->)] end; [discriminate|].
  cbn [run]. intros [= <- <-].
  rewrite (getExpirationDate_Num env _ _ HR) in He. injection He as <-.
  exists p, r, ttlA, ttlR.
  cbn [with_tokens with_users DB.user DB.refreshToken accessToken refreshToken].
  done.
Qed.

(** X30.  [register] is not one transaction.  When the account row is
    written and a later step fails (signing the tokens, or storing the
    refresh token), the call fails and the account stays: the email is
    taken from then on, and the same registration sent again is answered
    with 409. *)
Theorem register_failure_keeps_account (data : RegisterInput.t)
    (userAgent ipAddress : option string) (w : World) (db db1 : DB.t) (e : Failure) :
  userByEmail (RegisterInput.email data) (DB.user db) = None ->
  userById (userUuid w) (DB.user db) = None ->
  run (register env data userAgent ipAddress w) db = (Failed e, db1) ->
  (exists u : User.t,
     userByEmail (RegisterInput.email data) (DB.user db1) = Some u /\
     User.id u = userUuid w /\ User.status u = "active") /\
  DB.refreshToken db1 = DB.refreshToken db /\
  forall (userAgent2 ipAddress2 : option string) (w2 : World),
    run (register env data userAgent2 ipAddress2 w2) db1
    = (Failed (AppError "Email already registered" 409), db1).
Proof.
  intros Email Eid. unfold register at 1. rewrite run_bind, run_await. cbn [handle].
  rewrite Email. rewrite run_bind, run_await. cbn [handle User.id User.email].
  rewrite Eid, Email. cbn [present].
  rewrite run_bind, run_try. cbn [User.id User.email].
  assert (Hrow : forall rs : list RefreshToken.t,
    userByEmail (RegisterInput.email data)
      (DB.user
         (with_tokens rs
            (with_users
               (DB.user db ++
                [{| User.id := userUuid w;
                    User.email := RegisterInput.email data;
                    User.passwordHash :=
                      Some (hashPassword (salt w) (RegisterInput.password data));
                    User.name := RegisterInput.name data;
                    User.status := "active";
                    User.authProvider := Some "local";
                    User.createdAt := now w;
                    User.lastLoginAt := None |}]) db)))
    = Some {| User.id := userUuid w;
              User.email := RegisterInput.email data;
              User.passwordHash :=
                Some (hashPassword (salt w) (RegisterInput.password data));
              User.name := RegisterInput.name data;
              User.status := "active";
              User.authProvider := Some "local";
              User.createdAt := now w;
              User.lastLoginAt := None |}).
  { intros rs. cbn [with_tokens with_users DB.user]. unfold userByEmail in *.
    rewrite (find_app_miss _ _ _ Email). cbn [List.find User.email].
    by rewrite String.eqb_refl. }
  assert (Hagain : forall db1 : DB.t,
    (exists u, userByEmail (RegisterInput.email data) (DB.user db1) = Some u) ->
    forall userAgent2 ipAddress2 w2,
      run (register env data userAgent2 ipAddress2 w2) db1
      = (Failed (AppError "Email already registered" 409), db1)).
  { intros d (u & Eu) userAgent2 ipAddress2 w2. unfold register.
    rewrite run_bind, run_await. cbn [handle]. by rewrite Eu. }
  destruct (generateTokenPair_cases env (userUuid w) (RegisterInput.email data) (now w))
    as [(ttlA & ttlR & HA & HR & ->)|(m & ->)].
  - rewrite run_bind. cbn [refreshToken].
    match goal with |- context [run (storeRefreshToken env ?uid ?tk ?ua ?ip ?w) ?d] =>
      destruct (run_storeRefreshToken env uid tk ua ip w d)
        as [(c & ->)|(x & _ & _ & _ & _ & ->)] end; [|discriminate].
    intros [= <- <-]. pose proof (Hrow (DB.refreshToken db)) as Hr.
    cbn [with_tokens with_users DB.user DB.refreshToken] in *.
    split; [eexists; split; [exact Hr|done]|]. split; [done|].
    apply Hagain. eexists. exact Hr.
  - cbn [run]. intros [= <- <-]. pose proof (Hrow (DB.refreshToken db)) as Hr.
    cbn [with_tokens with_users DB.user DB.refreshToken] in *.
    split; [eexists; split; [exact Hr|done]|]. split; [done|].
    apply Hagain. eexists. exact Hr.
Qed.
End SessionTokens.

Lemma updateEmail_account_answers_to_new_email_witness :
  exists (result : UserData.t) (db1 : DB.t),
    updateEmail "u-1" aliceNewEmail aliceDB = (Ok result, db1) /\
    UserData.email result = "alice@new.example" /\
    (exists (res : AuthResult) (db2 : DB.t),
       run (login exampleEnv
              {| LoginInput.email := "alice@new.example";
                 LoginInput.password := "Abcd1234!" |}
              None None (world 2000000 "2")) db1 = (Ok res, db2)) /\
    authenticate exampleEnv
      (Bearer (Jwt (JWT_ACCESS_SECRET exampleEnv)
                 {| JwtPayload.userId := "u-1"; JwtPayload.email := "alice@example.com";
                    JwtPayload.type := "access"; JwtPayload.iat := 1000;
                    JwtPayload.exp := 1900 |}))
      (world 1500000 "9") db1
    = (Ok (proceed "u-1" "alice@new.example"), db1).
Proof.
  eexists _, _. split; [vm_compute; reflexivity|].
  match goal with
  | |- _ /\ _ /\ authenticate _ _ _ ?db1 = _ =>
      destruct (@updateEmail_account_answers_to_new_email exampleEnv
                  examplePasswordUtils "u-1" aliceNewEmail
                  aliceDB db1 _ ltac:(vm_compute; reflexivity))
        as (u & Eu & Hmail & _ & _ & _ & _ & _ & Hlogin & Hauth)
  end.
  assert (u = aliceUser) as ->.
  { vm_compute in Eu. by injection Eu as <-. }
  split; [exact Hmail|]. split.
  - destruct (Hlogin None None (world 2000000 "2") 900 604800)
      as (res & db2 & Hrun & _); try reflexivity. by exists res, db2.
  - eapply Hauth; [reflexivity|vm_compute; reflexivity|reflexivity].
Defined.

Lemma register_then_login_witness :
  exists (res2 : AuthResult) (db2 : DB.t),
    run (login exampleEnv rightPassword None None (world 2000000 "2")) aliceDB
    = (Ok res2, db2) /\
    AuthUser.id (user res2) = "u-1".
Proof.
  destruct (register_then_login exampleEnv alice None None None None
              (world 1000000 "1") (world 2000000 "2") emptyDB aliceDB
              aliceRegistered 604800)
    as (res2 & db2 & Hrun & Hres).
  - vm_compute. reflexivity.
  - reflexivity.
  - vm_compute. reflexivity.
  - vm_compute. reflexivity.
  - exists res2, db2. split; [exact Hrun|]. by rewrite Hres.
Defined.

Lemma register_failure_keeps_account_witness :
  exists (e : Failure) (db1 : DB.t),
    run (register noNumberEnv alice None None (world 1000000 "1")) emptyDB
    = (Failed e, db1) /\
    run (register noNumberEnv alice None None (world 1000001 "2")) db1
    = (Failed (AppError "Email already registered" 409), db1).
Proof.
  eexists _, _. split; [vm_compute; reflexivity|].
  match goal with
  | |- run _ ?db1 = _ =>
      destruct (@register_failure_keeps_account noNumberEnv examplePasswordUtils
                  alice None None (world 1000000 "1") emptyDB db1
                  (JsError "expiresIn should be a number of seconds") eq_refl eq_refl
                  ltac:(vm_compute; reflexivity)) as (_ & _ & Hagain)
  end.
  apply Hagain.
Defined.

Lemma refreshTokens_copies_claims_witness :
  exists (pair : TokenPair) (db1 : DB.t),
    run (refreshTokens exampleEnv aliceToken None None (world 2000500 "2")) movedDB
    = (Ok pair, db1) /\
    userByEmail "alice@example.com" (DB.user db1) = None /\
    accessToken pair =
      Jwt (JWT_ACCESS_SECRET exampleEnv)
        {| JwtPayload.userId := "u-1"; JwtPayload.email := "alice@example.com";
           JwtPayload.type := "access"; JwtPayload.iat := 2000;
           JwtPayload.exp := 2900 |}.
Proof.
  eexists _, _. split; [vm_compute; reflexivity|].
  match goal with
  | |- userByEmail _ (DB.user ?db1) = _ /\ accessToken ?pair = _ =>
      pose proof (refreshTokens_copies_claims exampleEnv aliceToken None None
                    (world 2000500 "2") movedDB db1 pair
                    ltac:(vm_compute; reflexivity)) as Hx
  end.
  destruct Hx as (p & r & ttlA & ttlR & Ep & _ & _ & HA & _ & Hacc & _ & Husers & _).
  split; [rewrite Husers; reflexivity|].
  assert (p = {| JwtPayload.userId := "u-1"; JwtPayload.email := "alice@example.com";
                 JwtPayload.type := "refresh"; JwtPayload.iat := 1000;
                 JwtPayload.exp := 605800 |}) as ->.
  { assert (E : verifyRefreshToken exampleEnv aliceToken (now (world 2000500 "2"))
                = Some {| JwtPayload.userId := "u-1"; JwtPayload.email := "alice@example.com";
                          JwtPayload.type := "refresh"; JwtPayload.iat := 1000;
                          JwtPayload.exp := 605800 |}) by reflexivity.
    rewrite E in Ep. by injection Ep as <-. }
  assert (ttlA = 900) as ->.
  { assert (E : parseDuration (JWT_ACCESS_EXPIRES_IN exampleEnv) = Num 900) by reflexivity.
    rewrite E in HA. by injection HA as <-. }
  exact Hacc.
Defined.
